(** * The drawing frontend of ezdxf: a shallow embedding

    Source: [src/ezdxf/addons/drawing/frontend.py] (class [Frontend]) and
    the behaviour of [ezdxf.disassemble] exercised by
    [tests/test_04_dxf_high_level_structs/test_416_disassemble.py].

    The frontend walks a collection of DXF entities and issues calls on a
    drawing backend and on a render context.  The embedding keeps every
    observable call in one ordered trace, keeps the render context's
    inheritance stack and the shared [parent_stack] list object in an
    explicit state, and returns Python exceptions as values. *)

From Stdlib Require Import List String ZArith Bool Arith Lia Floats.
Import ListNotations.
Local Open Scope string_scope.
Local Open Scope list_scope.
Local Open Scope Z_scope.

Set Implicit Arguments.

(** ** Python numbers

    A Python [float] is an IEEE 754 binary64 value, the kernel's [float];
    a Python [int] is unbounded, [Z]. *)

(** Exceptions the modelled code can raise. *)
Inductive Exn : Type :=
| TypeError (dxftype : string)
| AssertionError
| IndexError
| ValueError
| OverflowError
| RecursionError
| AttributeError
| ExpansionError (msg : string).

(** [int(x)] on a float: truncation towards zero; [ValueError] on a NaN
    and [OverflowError] on an infinity. *)
Definition int (x : float) : Exn + Z :=
  match Prim2SF x with
  | S754_zero _ => inr 0
  | S754_infinity _ => inl OverflowError
  | S754_nan => inl ValueError
  | S754_finite s m e =>
      let mag := if 0 <=? e then Z.pos m * 2 ^ e else Z.pos m / 2 ^ (- e) in
      inr (if s then - mag else mag)
  end.

(** The conversion of an [int] to a [float] as CPython's
    [PyLong_AsDouble] computes it, for every [int]: the binary64 value
    nearest to [n], ties to even.  Where that value is an infinity CPython
    raises [OverflowError] instead, see [int_as_float]. *)
Definition float_of_int (n : Z) : float :=
  SF2Prim (binary_normalize prec emax n 0 false).

(** The [int] operand of [float * int]: converted before the product is
    taken; [OverflowError] for an [int] too large for a [float]. *)
Definition int_as_float (n : Z) : Exn + float :=
  let x := float_of_int n in
  if PrimFloat.is_infinity x then inl OverflowError else inr x.

(** [math.tau], [math.pi]. *)
Definition tau : float := 0x1.921fb54442d18p+2%float.
Definition pi : float := 0x1.921fb54442d18p+1%float.

(** [math.radians(x)]: CPython multiplies by the constant pi/180. *)
Definition radians (x : float) : float := (x * (pi / 180))%float.

(** [math.isclose(a, b, rel_tol=1e-09, abs_tol=abs_tol)] as CPython
    computes it. *)
Definition rel_tol : float := 0x1.12e0be826d695p-30%float.

Definition math_isclose (a b abs_tol : float) : bool :=
  if (a =? b)%float then true
  else if PrimFloat.is_infinity a || PrimFloat.is_infinity b then false
  else
    let diff := PrimFloat.abs (b - a)%float in
    (diff <=? PrimFloat.abs (rel_tol * b))%float
    || (diff <=? PrimFloat.abs (rel_tol * a))%float
    || (diff <=? abs_tol)%float.

(** ** Geometry values *)

Record Vector : Type := Vec { x : float; y : float; z : float }.

Definition Z_AXIS : Vector := Vec 0 0 1.
(** [Vector.replace(z=...)] *)
Definition replace_z (v : Vector) (z' : float) : Vector := Vec (x v) (y v) z'.

(** [ezdxf.math.Matrix44]: sixteen floats, row by row. *)
Definition Matrix44 : Type := list float.

(** [ezdxf.math.BSpline], the construction tool of a SPLINE. *)
Record BSpline : Type := { control_points : list Vector; order : Z }.

(** [ezdxf.math.ConstructionEllipse] *)
Record ConstructionEllipse : Type := {
  ce_center : Vector;
  ce_major_axis : Vector;
  ce_extrusion : Vector;
  ce_ratio : float;
  ce_start_param : float;
  ce_end_param : float
}.

(** A boundary edge of a hatch path; only line edges have [start]/[end]. *)
Inductive Edge : Type :=
| LineEdge (start end_ : float * float)
| CurvedEdge (EDGE_TYPE : string).

Inductive BoundaryPath : Type :=
| EdgePath (edges : list Edge)
| PolylinePath (vertices : list (float * float * float)).

(** The [entity.dxf] namespace: the attributes the frontend reads. *)
Record DXFNamespace : Type := {
  start : Vector;
  end_ : Vector;
  unit_vector : Vector;
  extrusion : Vector;
  has_extrusion : bool;          (* dxf.hasattr('extrusion') *)
  center : Vector;
  radius : float;
  start_angle : float;
  end_angle : float;
  major_axis : Vector;
  ratio : float;
  start_param : float;
  end_param : float;
  location : Vector;
  elevation : Vector;
  view_direction_vector : Vector;
  width : float;
  height : float
}.

(** ** Entities

    A [DXFGraphic] object: its own data, its attached ATTRIB entities
    ([Insert.attribs]) and the entities its [virtual_entities()] generator
    yields.  When [expansion_error] is [Some exn] the generator raises
    [exn] after having yielded [virtual_children] (it fails partway). *)
Record EntityData : Type := {
  handle : nat;
  dxftype : string;
  is_tag_storage : bool;         (* isinstance(entity, DXFTagStorage) *)
  dxf : DXFNamespace;
  transparency : option float;   (* None: never set explicitly *)
  has_virtual_entities : bool;   (* hasattr(entity, 'virtual_entities') *)
  expansion_error : option Exn;
  is_polygon_mesh : bool;
  is_poly_face_mesh : bool;
  paths : list BoundaryPath
}.

#[warnings="-register-all"]
Inductive DXFGraphic : Type :=
| Entity (data : EntityData) (attribs : list DXFGraphic)
         (virtual_children : list DXFGraphic).

Definition data (e : DXFGraphic) : EntityData :=
  match e with Entity d _ _ => d end.
Definition attribs (e : DXFGraphic) : list DXFGraphic :=
  match e with Entity _ a _ => a end.
Definition virtual_children (e : DXFGraphic) : list DXFGraphic :=
  match e with Entity _ _ c => c end.

(** [child.transparency = value] *)
Definition set_transparency (e : DXFGraphic) (value : float) : DXFGraphic :=
  match e with
  | Entity d a c =>
      Entity {| handle := handle d; dxftype := dxftype d;
                is_tag_storage := is_tag_storage d; dxf := dxf d;
                transparency := Some value;
                has_virtual_entities := has_virtual_entities d;
                expansion_error := expansion_error d;
                is_polygon_mesh := is_polygon_mesh d;
                is_poly_face_mesh := is_poly_face_mesh d;
                paths := paths d |} a c
  end.

(** Nesting depth of an entity tree: the deepest chain of recursive
    [draw_entity] frames a traversal of it can open. *)
Fixpoint depth (e : DXFGraphic) : nat :=
  match e with
  | Entity _ a c =>
      S (Nat.max
           ((fix dl (l : list DXFGraphic) : nat :=
               match l with [] => O | h :: t => Nat.max (depth h) (dl t) end) a)
           ((fix dl (l : list DXFGraphic) : nat :=
               match l with [] => O | h :: t => Nat.max (depth h) (dl t) end) c))
  end.

Definition depth_list (l : list DXFGraphic) : nat :=
  fold_right (fun h acc => Nat.max (depth h) acc) O l.

(** ** Resolved properties *)

(** Modelled from the spec: the [Properties] class of
    [ezdxf.addons.drawing.properties] is not part of the sources at hand;
    the fields are the ones section 3 of the specification lists. *)
Record Properties : Type := {
  color : string;
  layer : string;
  linetype : string;
  lineweight : float;
  prop_transparency : float;
  is_visible : bool
}.

(** [properties.is_visible = value] *)
Definition set_is_visible (p : Properties) (value : bool) : Properties :=
  {| color := color p; layer := layer p; linetype := linetype p;
     lineweight := lineweight p; prop_transparency := prop_transparency p;
     is_visible := value |}.

(** ** Observable calls

    Every call the frontend makes on the backend ([self.out]), on the
    render context ([self.ctx]) and every line it prints, in program
    order. *)

Inductive Style : Type :=
| ByProperties (p : Properties)
| ByColor (c : string).            (* draw_filled_polygon(..., VIEWPORT_COLOR) *)

Inductive Message : Type :=
| IgnoringUnsupported (e : DXFGraphic)
| HatchNotContiguous (last_vertex : Vector) (e_start e_end : float * float)
| ViewportNullVector
| ViewportNonPerpendicular (v : Vector)
| InsertChildrenFailed (exn : Exn)
| EntityChildrenFailed (exn : Exn) (e : DXFGraphic).

Inductive Event : Type :=
(* DrawingBackend *)
| SetCurrentEntity (e : option DXFGraphic) (parents : list DXFGraphic)
| DrawLine (a b : Vector) (p : Properties)
| DrawArc (c : Vector) (w h angle : float) (draw_angles : option (float * float))
          (p : Properties)
| DrawPoint (pos : Vector) (p : Properties)
| DrawFilledPolygon (points : list Vector) (s : Style)
| DrawText (line : string) (transform : Matrix44) (p : Properties)
           (cap_height : float)
| DrawSpline (spline : BSpline) (p : Properties)
| StartPolyline
| EndPolyline
| IgnoredEntity (e : DXFGraphic)
| SetBackground (c : string)
| Finalize
(* RenderContext *)
| ResolveAll (e : DXFGraphic)
| IsVisible (e : DXFGraphic)
| PushState (p : Properties)
| PopState
(* stdout *)
| Print (m : Message).

(** ** Program state *)

Record State : Type := {
  trace : list Event;               (* calls made so far, oldest first *)
  ctx_stack : list Properties;      (* RenderContext's inheritance stack *)
  parent_stack : list DXFGraphic;   (* the list object every frame shares *)
  filter_history : list DXFGraphic  (* arguments of earlier filter calls *)
}.

Definition initial_state : State :=
  {| trace := []; ctx_stack := []; parent_stack := []; filter_history := [] |}.

(** ** A state-and-exception monad

    A raised exception keeps the state reached so far, as mutation does in
    Python. *)

Inductive Outcome (A : Type) : Type :=
| Return (a : A)
| Raise (exn : Exn).
Arguments Raise {A} exn.

Definition M (A : Type) : Type := State -> Outcome A * State.

Definition ret {A} (a : A) : M A := fun st => (Return a, st).
Definition raise {A} (exn : Exn) : M A := fun st => (Raise exn, st).
Definition bind {A B} (c : M A) (k : A -> M B) : M B :=
  fun st =>
    match c st with
    | (Return a, st') => k a st'
    | (Raise exn, st') => (Raise exn, st')
    end.

Declare Scope py_scope.
Delimit Scope py_scope with py.
Notation "x <- c ;; k" := (bind c (fun x => k))
  (at level 100, c at next level, right associativity) : py_scope.
Notation "c ;; k" := (bind c (fun _ => k))
  (at level 100, right associativity) : py_scope.
Local Open Scope py_scope.

(** Lift a pure fallible computation. *)
Definition lift {A} (r : Exn + A) : M A :=
  match r with inl exn => raise exn | inr a => ret a end.

(** Record one call. *)
Definition emit (ev : Event) : M unit :=
  fun st => (Return tt,
             {| trace := trace st ++ [ev]; ctx_stack := ctx_stack st;
                parent_stack := parent_stack st;
                filter_history := filter_history st |}).

Definition print (m : Message) : M unit := emit (Print m).

(** [for x in l: body(x)] *)
Fixpoint for_each {A} (l : list A) (body : A -> M unit) : M unit :=
  match l with
  | [] => ret tt
  | a :: l' => body a ;; for_each l' body
  end.

(** [parent_stack.append(entity)] *)
Definition parent_stack_append (e : DXFGraphic) : M unit :=
  fun st => (Return tt,
             {| trace := trace st; ctx_stack := ctx_stack st;
                parent_stack := parent_stack st ++ [e];
                filter_history := filter_history st |}).

(** [parent_stack.pop()]: [IndexError] on an empty list. *)
Definition parent_stack_pop : M unit :=
  fun st =>
    match parent_stack st with
    | [] => (Raise IndexError, st)
    | _ :: _ =>
        (Return tt,
         {| trace := trace st; ctx_stack := ctx_stack st;
            parent_stack := removelast (parent_stack st);
            filter_history := filter_history st |})
    end.

(** [tuple(parent_stack)]: a snapshot of the list. *)
Definition parent_stack_tuple : M (list DXFGraphic) :=
  fun st => (Return (parent_stack st), st).

(** The call [self.draw_entity(entity, [])] gives the callee a fresh list. *)
Definition with_new_parent_stack (c : M unit) : M unit :=
  fun st =>
    c {| trace := trace st; ctx_stack := ctx_stack st;
         parent_stack := []; filter_history := filter_history st |}.

(** ** Collaborators

    The frontend imports these from modules of the repository that are not
    among the sources at hand ([ezdxf.math], [ezdxf.render],
    [ezdxf.addons.drawing.utils], [.text], [.properties],
    [.backend_interface]) and from the C math library.  They are taken as
    parameters: every theorem below holds for any implementation of
    them. *)

Class MathLib : Type := {
  (* ezdxf.math.Vector *)
  vec_add : Vector -> Vector -> Vector;
  vec_sub : Vector -> Vector -> Vector;
  vec_mul : Vector -> float -> Vector;
  vec_div : Vector -> float -> Vector;
  vec_neg : Vector -> Vector;
  vec_dot : Vector -> Vector -> float;
  vec_magnitude : Vector -> float;
  vec_isclose : Vector -> Vector -> bool;
  (* ezdxf.math.OCS(extrusion).to_wcs(point) *)
  ocs_to_wcs : Vector -> Vector -> Vector;
  (* ConstructionEllipse.from_arc(center, radius, extrusion, start, end) *)
  from_arc : Vector -> float -> Vector -> float -> float -> ConstructionEllipse;
  (* Ellipse.construction_tool(), Spline.construction_tool() *)
  ellipse_construction_tool : DXFGraphic -> ConstructionEllipse;
  spline_construction_tool : DXFGraphic -> BSpline;
  (* the point of a construction ellipse at one parameter *)
  ellipse_vertex : ConstructionEllipse -> float -> Vector;
  (* BSpline.approximate(segments) *)
  spline_approximate : BSpline -> Z -> list Vector;
  (* math.atan2 *)
  atan2 : float -> float -> float;
  (* ezdxf.addons.drawing.utils *)
  normalize_angle : float -> float;
  get_draw_angles : float -> float -> Vector -> float * float;
  get_tri_or_quad_points : DXFGraphic -> list Vector;
  (* ezdxf.addons.drawing.text.simplified_text_chunks *)
  simplified_text_chunks : DXFGraphic -> list (string * Matrix44 * float);
  (* MeshBuilder.from_mesh(e).faces_as_vertices(), .from_polyface(e)... *)
  mesh_faces : DXFGraphic -> list (list Vector);
  polyface_faces : DXFGraphic -> list (list Vector);
  (* copy.deepcopy(paths); .polyline_to_edge_path(); .all_to_line_edges() *)
  normalized_paths : list BoundaryPath -> list BoundaryPath
}.

(** Modelled from the spec: [RenderContext] is "an inheritance stack of
    Properties plus layer/style lookup tables"; what it resolves depends on
    the stack, [push_state] and [pop_state] push and pop it. *)
Class RenderContext : Type := {
  resolve_all : list Properties -> DXFGraphic -> Properties;
  is_visible_in : list Properties -> DXFGraphic -> bool;
  background_color : string;
  VIEWPORT_COLOR : string
}.

Class DrawingBackend : Type := {
  has_spline_support : bool
}.

(** The frontend object. The visibility filter is a Python callable, free
    to answer differently on every call: it sees the arguments of its
    earlier calls. *)
Record Frontend : Type := {
  visibility_filter : option (list DXFGraphic -> DXFGraphic -> bool);
  circle_resolution : Z;
  approximation_max_sagitta : float;
  spline_resolution : Z
}.

(** [Frontend.__init__] *)
Definition Frontend_init
    (visibility_filter : option (list DXFGraphic -> DXFGraphic -> bool)) : Frontend :=
  {| visibility_filter := visibility_filter;
     circle_resolution := 100;
     approximation_max_sagitta := 0x1.47ae147ae147bp-7%float;
     spline_resolution := 100 |}.

Definition INFINITE_LINE_LENGTH : Z := 25.

Definition COMPOSITE_ENTITY_TYPES : list string :=
  ["INSERT"; "POLYLINE"; "LWPOLYLINE";
   "DIMENSION"; "ARC_DIMENSION"; "LARGE_RADIAL_DIMENSION"; "ACAD_TABLE"].

(** [s in {...}] *)
Definition in_set (s : string) (l : list string) : bool :=
  existsb (String.eqb s) l.

(** Modelled from the spec: [linspace(start, stop, num)] of [ezdxf.math]
    is not among the sources at hand; the specification asks for "uniform
    parameter spacing": [num] values, the first one [start], each next one
    the previous plus the constant step [(stop - start) / (num - 1)]. *)
Fixpoint linspace_from (start delta : float) (n : nat) : list float :=
  match n with
  | O => []
  | S n' => start :: linspace_from (start + delta)%float delta n'
  end.

Definition linspace_step (start stop : float) (num : Z) : float :=
  ((stop - start) / float_of_int (num - 1))%float.

Definition linspace (start stop : float) (num : Z) : list float :=
  if num =? 1 then [start]
  else linspace_from start (linspace_step start stop num) (Z.to_nat num).

(** [zip(points, points[1:])] *)
Definition consecutive_pairs {A} (points : list A) : list (A * A) :=
  combine points (tl points).

Section FrontendMethods.

Context {ML : MathLib} {RC : RenderContext} {BE : DrawingBackend}.
Variable self : Frontend.

Definition NEG_Z_AXIS : Vector := vec_neg Z_AXIS.

(** [self.ctx.resolve_all(entity)] *)
Definition ctx_resolve_all (entity : DXFGraphic) : M Properties :=
  fun st =>
    match emit (ResolveAll entity) st with
    | (_, st') => (Return (resolve_all (ctx_stack st) entity), st')
    end.

(** [self.ctx.is_visible(entity)] *)
Definition ctx_is_visible (entity : DXFGraphic) : M bool :=
  fun st =>
    match emit (IsVisible entity) st with
    | (_, st') => (Return (is_visible_in (ctx_stack st) entity), st')
    end.

(** [self.ctx.push_state(properties)] *)
Definition ctx_push_state (properties : Properties) : M unit :=
  fun st =>
    (Return tt,
     {| trace := trace st ++ [PushState properties];
        ctx_stack := properties :: ctx_stack st;
        parent_stack := parent_stack st;
        filter_history := filter_history st |}).

(** [self.ctx.pop_state()] *)
Definition ctx_pop_state : M unit :=
  fun st =>
    match ctx_stack st with
    | [] => (Raise IndexError,
             {| trace := trace st ++ [PopState]; ctx_stack := [];
                parent_stack := parent_stack st;
                filter_history := filter_history st |})
    | _ :: rest =>
        (Return tt,
         {| trace := trace st ++ [PopState]; ctx_stack := rest;
            parent_stack := parent_stack st;
            filter_history := filter_history st |})
    end.

(** One call [self.visibility_filter(entity)]. *)
Definition call_visibility_filter
    (f : list DXFGraphic -> DXFGraphic -> bool) (entity : DXFGraphic) : M bool :=
  fun st =>
    (Return (f (filter_history st) entity),
     {| trace := trace st; ctx_stack := ctx_stack st;
        parent_stack := parent_stack st;
        filter_history := filter_history st ++ [entity] |}).

Definition is_spatial (v : Vector) : bool :=
  negb (vec_isclose v Z_AXIS) && negb (vec_isclose v NEG_Z_AXIS).

Definition _get_arc_wcs_center (arc : DXFGraphic) : Vector :=
  let center := center (dxf (data arc)) in
  if has_extrusion (dxf (data arc))
  then ocs_to_wcs (extrusion (dxf (data arc))) center
  else center.

Definition _resolve_properties (entity : DXFGraphic) : M Properties :=
  properties <- ctx_resolve_all entity ;;
  match visibility_filter self with
  | Some f =>
      visible <- call_visibility_filter f entity ;;
      ret (set_is_visible properties visible)
  | None => ret properties
  end.

Definition draw_line_entity (entity : DXFGraphic) : M unit :=
  let d := dxf (data entity) in
  let dxftype := dxftype (data entity) in
  properties <- _resolve_properties entity ;;
  if (dxftype =? "LINE")%string then
    emit (DrawLine (start d) (end_ d) properties)
  else if in_set dxftype ["XLINE"; "RAY"] then
    let start := start d in
    let delta := vec_mul (Vec (x (unit_vector d)) (y (unit_vector d)) 0)
                         (float_of_int INFINITE_LINE_LENGTH) in
    if (dxftype =? "XLINE")%string then
      emit (DrawLine (vec_sub start (vec_div delta 2))
                     (vec_add start (vec_div delta 2)) properties)
    else if (dxftype =? "RAY")%string then
      emit (DrawLine start (vec_add start delta) properties)
    else ret tt
  else raise (TypeError dxftype).

Definition draw_text_entity_2d (entity : DXFGraphic) : M unit :=
  let dxftype := dxftype (data entity) in
  properties <- _resolve_properties entity ;;
  if in_set dxftype ["TEXT"; "MTEXT"; "ATTRIB"] then
    for_each (simplified_text_chunks entity)
      (fun '(line, transform, cap_height) =>
         emit (DrawText line transform properties cap_height))
  else raise (TypeError dxftype).

Definition draw_text_entity_3d (entity : DXFGraphic) : M unit :=
  ret tt.  (* not supported *)

(** [segments = int((e.end_param - e.start_param) / math.tau
    * self.circle_resolution)]: the resolution is an [int], converted for
    the product. *)
Definition elliptic_arc_segments (e : ConstructionEllipse) : Exn + Z :=
  match int_as_float (circle_resolution self) with
  | inl exn => inl exn
  | inr resolution =>
      int ((ce_end_param e - ce_start_param e) / tau * resolution)%float
  end.

(** The number of sample points of the 3D approximation:
    [max(4, segments + 1)]. *)
Definition elliptic_arc_point_count (e : ConstructionEllipse) : Exn + Z :=
  match elliptic_arc_segments e with
  | inl exn => inl exn
  | inr segments => inr (Z.max 4 (segments + 1))
  end.

Definition draw_elliptic_arc_entity_3d (entity : DXFGraphic) : M unit :=
  let dxf := dxf (data entity) in
  let dxftype := dxftype (data entity) in
  properties <- _resolve_properties entity ;;
  e <- (if in_set dxftype ["CIRCLE"; "ARC"] then
          let center := center dxf in
          let radius := radius dxf in
          let '(start_angle, end_angle) :=
            if (dxftype =? "CIRCLE")%string then (0%float, 360%float)
            else (start_angle dxf, end_angle dxf) in
          ret (from_arc center radius (extrusion dxf) start_angle end_angle)
        else if (dxftype =? "ELLIPSE")%string then
          ret (ellipse_construction_tool entity)
        else raise (TypeError dxftype)) ;;
  (* Approximate as 3D polyline *)
  count <- lift (elliptic_arc_point_count e) ;;
  let points :=
    map (ellipse_vertex e) (linspace (ce_start_param e) (ce_end_param e) count) in
  emit StartPolyline ;;
  for_each (consecutive_pairs points)
    (fun '(a, b) => emit (DrawLine a b properties)) ;;
  emit EndPolyline.

Definition draw_elliptic_arc_entity_2d (entity : DXFGraphic) : M unit :=
  let dxf := dxf (data entity) in
  let dxftype := dxftype (data entity) in
  properties <- _resolve_properties entity ;;
  if (dxftype =? "CIRCLE")%string then
    let center := _get_arc_wcs_center entity in
    let diameter := (2 * radius dxf)%float in
    emit (DrawArc center diameter diameter 0 None properties)
  else if (dxftype =? "ARC")%string then
    let center := _get_arc_wcs_center entity in
    let diameter := (2 * radius dxf)%float in
    let draw_angles :=
      get_draw_angles (radians (start_angle dxf)) (radians (end_angle dxf))
                      (extrusion dxf) in
    emit (DrawArc center diameter diameter 0 (Some draw_angles) properties)
  else if (dxftype =? "ELLIPSE")%string then
    let major_axis_angle :=
      normalize_angle (atan2 (y (major_axis dxf)) (x (major_axis dxf))) in
    let width := (2 * vec_magnitude (major_axis dxf))%float in
    let height := (ratio dxf * width)%float in
    let draw_angles :=
      get_draw_angles (start_param dxf) (end_param dxf) (extrusion dxf) in
    emit (DrawArc (center dxf) width height major_axis_angle (Some draw_angles)
                  properties)
  else raise (TypeError dxftype).

Definition draw_spline_entity (entity : DXFGraphic) : M unit :=
  properties <- _resolve_properties entity ;;
  let spline := spline_construction_tool entity in
  if has_spline_support then
    emit (DrawSpline spline properties)
  else
    let points := spline_approximate spline (spline_resolution self) in
    emit StartPolyline ;;
    for_each (consecutive_pairs points)
      (fun '(a, b) => emit (DrawLine a b properties)) ;;
    emit EndPolyline.

Definition draw_point_entity (entity : DXFGraphic) : M unit :=
  properties <- _resolve_properties entity ;;
  emit (DrawPoint (location (dxf (data entity))) properties).

Definition draw_solid_entity (entity : DXFGraphic) : M unit :=
  let dxf := dxf (data entity) in
  let dxftype := dxftype (data entity) in
  properties <- _resolve_properties entity ;;
  let points := get_tri_or_quad_points entity in
  let points :=
    if (dxftype =? "TRACE")%string && has_extrusion dxf
    then map (ocs_to_wcs (extrusion dxf)) points
    else points in
  if in_set dxftype ["SOLID"; "TRACE"] then
    emit (DrawFilledPolygon points (ByProperties properties))
  else
    for_each (consecutive_pairs points)
      (fun '(a, b) => emit (DrawLine a b properties)).

(** The loop [for e in p.edges] of [draw_hatch_entity]; [ocs] is the
    extrusion vector the OCS is built from. *)
Fixpoint hatch_edge_loop (ocs : Vector) (elevation : float) (edges : list Edge)
    (vertices : list Vector) (last_vertex : option Vector)
  : M (list Vector * option Vector) :=
  match edges with
  | [] => ret (vertices, last_vertex)
  | LineEdge e_start e_end :: edges' =>
      let v := ocs_to_wcs ocs (Vec (fst e_start) (snd e_start) elevation) in
      vertices <-
        match last_vertex with
        | Some last =>
            if negb (vec_isclose last v) then
              print (HatchNotContiguous last e_start e_end) ;;
              ret (vertices ++ [last])
            else ret vertices
        | None => ret vertices
        end ;;
      hatch_edge_loop ocs elevation edges' (vertices ++ [v])
        (Some (replace_z
                 (ocs_to_wcs ocs (Vec (fst e_end) (snd e_end) elevation)) 0))
  | CurvedEdge _ :: _ => raise AssertionError
  end.

(** The body of [for p in paths]. *)
Definition draw_hatch_path (ocs : Vector) (elevation : float)
    (properties : Properties) (p : BoundaryPath) : M unit :=
  match p with
  | EdgePath edges =>
      r <- hatch_edge_loop ocs elevation edges [] None ;;
      let '(vertices, last_vertex) := r in
      match vertices, last_vertex with
      | [], _ => ret tt
      | first :: _, Some last =>
          let vertices :=
            if vec_isclose last first then vertices ++ [last] else vertices in
          emit (DrawFilledPolygon vertices (ByProperties properties))
      | _ :: _, None => raise AttributeError
      end
  | PolylinePath _ => raise AssertionError
  end.

Definition draw_hatch_entity (entity : DXFGraphic) : M unit :=
  properties <- _resolve_properties entity ;;
  let ocs := extrusion (dxf (data entity)) in
  let elevation := z (elevation (dxf (data entity))) in
  let paths := normalized_paths (paths (data entity)) in
  for_each paths (draw_hatch_path ocs elevation properties).

(** The rectangle of a viewport: five corners, the first one repeated. *)
Definition viewport_points (dxf : DXFNamespace) : list Vector :=
  let cx := x (center dxf) in
  let cy := y (center dxf) in
  let dx := (width dxf / 2)%float in
  let dy := (height dxf / 2)%float in
  let minx := (cx - dx)%float in
  let miny := (cy - dy)%float in
  let maxx := (cx + dx)%float in
  let maxy := (cy + dy)%float in
  let points :=
    [(minx, miny); (maxx, miny); (maxx, maxy); (minx, maxy); (minx, miny)] in
  map (fun '(x, y) => Vec x y 0) points.

Definition draw_viewport_entity (entity : DXFGraphic) : M unit :=
  if negb (dxftype (data entity) =? "VIEWPORT")%string then raise AssertionError
  else
    let dxf := dxf (data entity) in
    let view_vector := view_direction_vector dxf in
    let mag := vec_magnitude view_vector in
    if math_isclose mag 0 0 then
      print ViewportNullVector
    else
      let view_vector := vec_div view_vector mag in
      if negb (math_isclose (vec_dot view_vector (Vec 0 0 1)) 1 0) then
        print (ViewportNonPerpendicular (view_direction_vector dxf))
      else
        emit (DrawFilledPolygon (viewport_points dxf) (ByColor VIEWPORT_COLOR)).

Definition draw_mesh_builder_entity (faces : list (list Vector))
    (properties : Properties) : M unit :=
  for_each faces
    (fun face => emit (DrawFilledPolygon face (ByProperties properties))).

Definition draw_mesh_entity (entity : DXFGraphic) : M unit :=
  properties <- _resolve_properties entity ;;
  draw_mesh_builder_entity (mesh_faces entity) properties.

(** *** The recursive methods

    [draw_polyline_entity], [draw_composite_entity] and [draw_entity] call
    [self.draw_entity]; they take it as the parameter [draw_entity_], and
    the knot is tied below. *)

Section OpenRecursion.

Variable draw_entity_ : DXFGraphic -> M unit.

Definition draw_polyline_entity (entity : DXFGraphic) : M unit :=
  let dxftype := dxftype (data entity) in
  if (dxftype =? "POLYLINE")%string
     && (is_polygon_mesh (data entity) || is_poly_face_mesh (data entity))
  then
    properties <- _resolve_properties entity ;;
    draw_mesh_builder_entity (polyface_faces entity) properties
  else
    parent_stack_append entity ;;
    parents <- parent_stack_tuple ;;
    emit (SetCurrentEntity (Some entity) parents) ;;
    for_each (virtual_children entity) draw_entity_ ;;
    match expansion_error (data entity) with
    | Some exn => raise exn   (* the generator fails; nothing catches it *)
    | None =>
        parent_stack_pop ;;
        emit (SetCurrentEntity None [])
    end.

Definition draw_composite_entity (entity : DXFGraphic) : M unit :=
  let dxftype := dxftype (data entity) in
  if (dxftype =? "INSERT")%string then
    properties <- _resolve_properties entity ;;
    ctx_push_state properties ;;
    parent_stack_append entity ;;
    for_each (attribs entity) draw_entity_ ;;
    match expansion_error (data entity) with
    | Some exn =>
        print (InsertChildrenFailed exn)   (* return *)
    | None =>
        for_each (virtual_children entity) draw_entity_ ;;
        parent_stack_pop ;;
        ctx_pop_state
    end
  else if has_virtual_entities (data entity) then
    match expansion_error (data entity) with
    | Some exn =>
        print (EntityChildrenFailed exn entity)   (* return *)
    | None =>
        let children :=
          map (fun child => set_transparency child 0) (virtual_children entity) in
        parent_stack_append entity ;;
        for_each children draw_entity_ ;;
        parent_stack_pop
    end
  else raise (TypeError dxftype).

(** The branch [draw_entity] takes for an entity. *)
Definition dispatch (entity : DXFGraphic) : M unit :=
  let dxftype := dxftype (data entity) in
  if in_set dxftype ["LINE"; "XLINE"; "RAY"] then
    draw_line_entity entity
  else if in_set dxftype ["TEXT"; "MTEXT"; "ATTRIB"] then
    if is_spatial (extrusion (dxf (data entity)))
    then draw_text_entity_3d entity
    else draw_text_entity_2d entity
  else if in_set dxftype ["CIRCLE"; "ARC"; "ELLIPSE"] then
    if is_spatial (extrusion (dxf (data entity)))
    then draw_elliptic_arc_entity_3d entity
    else draw_elliptic_arc_entity_2d entity
  else if (dxftype =? "SPLINE")%string then draw_spline_entity entity
  else if (dxftype =? "POINT")%string then draw_point_entity entity
  else if (dxftype =? "HATCH")%string then draw_hatch_entity entity
  else if (dxftype =? "MESH")%string then draw_mesh_entity entity
  else if in_set dxftype ["3DFACE"; "SOLID"; "TRACE"] then
    draw_solid_entity entity
  else if in_set dxftype ["POLYLINE"; "LWPOLYLINE"] then
    draw_polyline_entity entity
  else if in_set dxftype COMPOSITE_ENTITY_TYPES then
    draw_composite_entity entity
  else if (dxftype =? "VIEWPORT")%string then draw_viewport_entity entity
  else emit (IgnoredEntity entity).

(** The body of [draw_entity(entity, parent_stack)]. *)
Definition draw_entity_body (entity : DXFGraphic) : M unit :=
  parents <- parent_stack_tuple ;;
  emit (SetCurrentEntity (Some entity) parents) ;;
  dispatch entity ;;
  emit (SetCurrentEntity None []).

End OpenRecursion.

(** [draw_entity] with [frames] nested frames left before the
    interpreter's recursion limit is reached: the recursive calls of the
    handlers are in no [try], so a nesting deeper than the frames left
    raises [RecursionError], which escapes.  An entity tree of depth [d]
    opens at most [d] frames. *)
Fixpoint draw_entity_rec (frames : nat) (entity : DXFGraphic) : M unit :=
  match frames with
  | O => raise RecursionError
  | S frames' => draw_entity_body (draw_entity_rec frames') entity
  end.

(** [draw_entity] where the recursion limit is not reached: as many
    frames as the tree is deep always suffice, and every run with at least
    as many gives the same result ([draw_entity_rec_frames] below). *)
Definition draw_entity (entity : DXFGraphic) : M unit :=
  draw_entity_rec (depth entity) entity.

(** The body of the loop of [draw_entities]. *)
Definition draw_top_level_entity (entity : DXFGraphic) : M unit :=
  if is_tag_storage (data entity) then
    print (IgnoringUnsupported entity)   (* continue *)
  else
    match visibility_filter self with
    | Some f =>
        visible <- call_visibility_filter f entity ;;
        if visible then with_new_parent_stack (draw_entity entity) else ret tt
    | None =>
        visible <- ctx_is_visible entity ;;
        if visible then with_new_parent_stack (draw_entity entity) else ret tt
    end.

Definition draw_entities (entities : list DXFGraphic) : M unit :=
  for_each entities draw_top_level_entity.

Definition draw_layout (layout : list DXFGraphic) (finalize : bool) : M unit :=
  draw_entities layout ;;
  emit (SetBackground background_color) ;;
  if finalize then emit Finalize else ret tt.

End FrontendMethods.

(** ** Primitive extraction ([ezdxf.disassemble]) *)

Module Disassemble.

(** Modelled from the spec: the module [ezdxf.disassemble] is not among the
    sources at hand, only its tests are.  Section 4.2 of the specification
    gives the result per kind; [Primitive.vertices()] yields "from the path
    if present, else sampled from mesh vertices, else empty". *)
Record MeshBuilder : Type := {
  vertices_of_mesh : list Vector;
  faces_of_mesh : list (list nat)
}.

Record Primitive : Type := {
  path : option (list Vector);
  mesh : option MeshBuilder
}.

(** Modelled from the spec: the geometric builders of the supported kinds
    in the missing module, as parameters; they may raise. *)
Class PathLib : Type := {
  polyline_path : DXFGraphic -> Exn + list Vector;
  curve_path : DXFGraphic -> Exn + list Vector;
  spline_path : DXFGraphic -> Exn + list Vector;
  mesh_builder : DXFGraphic -> Exn + MeshBuilder;
  distinct_corners : DXFGraphic -> Exn + list Vector
}.

Definition SUPPORTED_TYPES : list string :=
  ["POINT"; "LINE"; "LWPOLYLINE"; "POLYLINE"; "CIRCLE"; "ARC"; "ELLIPSE";
   "SPLINE"; "MESH"; "SOLID"; "TRACE"; "3DFACE"].

(** Modelled from the spec: "any unsupported kind (including
    opaque/unsupported raw entities)" is a tag storage object or a dxftype
    outside the kinds section 4.2 lists. *)
Definition unsupported (entity : DXFGraphic) : bool :=
  is_tag_storage (data entity)
  || negb (in_set (dxftype (data entity)) SUPPORTED_TYPES).

Definition path_primitive (r : Exn + list Vector) : Exn + Primitive :=
  match r with
  | inl exn => inl exn
  | inr p => inr {| path := Some p; mesh := None |}
  end.

Definition mesh_primitive (r : Exn + MeshBuilder) : Exn + Primitive :=
  match r with
  | inl exn => inl exn
  | inr m => inr {| path := None; mesh := Some m |}
  end.

Section Extraction.

Context {PL : PathLib}.

(** Modelled from the spec: section 4.2, one line per kind. *)
Definition make_primitive (entity : DXFGraphic) : Exn + Primitive :=
  let d := data entity in
  let dxftype := dxftype d in
  if is_tag_storage d then inr {| path := None; mesh := None |}
  else if (dxftype =? "POINT")%string then
    inr {| path := Some [location (dxf d)]; mesh := None |}
  else if (dxftype =? "LINE")%string then
    inr {| path := Some [start (dxf d); end_ (dxf d)]; mesh := None |}
  else if in_set dxftype ["LWPOLYLINE"; "POLYLINE"] then
    if is_polygon_mesh d || is_poly_face_mesh d
    then mesh_primitive (mesh_builder entity)
    else path_primitive (polyline_path entity)
  else if in_set dxftype ["CIRCLE"; "ARC"; "ELLIPSE"] then
    path_primitive (curve_path entity)
  else if (dxftype =? "SPLINE")%string then
    path_primitive (spline_path entity)
  else if (dxftype =? "MESH")%string then
    mesh_primitive (mesh_builder entity)
  else if in_set dxftype ["SOLID"; "TRACE"; "3DFACE"] then
    match distinct_corners entity with
    | inl exn => inl exn
    | inr corners =>
        inr {| path := Some (match corners with
                             | [a; b; c; d] => [a; b; c; d; a]
                             | _ => corners
                             end);
               mesh := None |}
    end
  else inr {| path := None; mesh := None |}.

(** Modelled from the spec: [Primitive.vertices()] of the missing module
    yields "from the path if present, else sampled from mesh vertices,
    else empty". *)
Definition vertices (p : Primitive) : list Vector :=
  match path p, mesh p with
  | Some points, _ => points
  | None, Some m => vertices_of_mesh m
  | None, None => []
  end.

(** Modelled from the spec: [to_primitives(entities)] of the missing
    module, the batch extraction: one primitive per entity, in order. *)
Fixpoint to_primitives (entities : list DXFGraphic) : Exn + list Primitive :=
  match entities with
  | [] => inr []
  | e :: rest =>
      match make_primitive e with
      | inl exn => inl exn
      | inr p =>
          match to_primitives rest with
          | inl exn => inl exn
          | inr ps => inr (p :: ps)
          end
      end
  end.

(** Modelled from the spec: [to_vertices(primitives)] of the missing
    module: the vertices of all primitives, in order. *)
Definition to_vertices (primitives : list Primitive) : list Vector :=
  flat_map vertices primitives.

End Extraction.

End Disassemble.

(** ** Sample collaborators

    One implementation of the parameters, for running the frontend on
    concrete drawings.  Vector arithmetic is componentwise;
    [Vector.isclose] compares componentwise with [abs_tol=1e-12]; the OCS
    of the sample drawings is the WCS. *)

Module Sample.

Definition abs_tol : float := 0x1.19799812dea11p-40%float.

Definition isclose (a b : Vector) : bool :=
  math_isclose (x a) (x b) abs_tol
  && math_isclose (y a) (y b) abs_tol
  && math_isclose (z a) (z b) abs_tol.

#[export] Instance math : MathLib := {|
  vec_add := fun a b => Vec (x a + x b) (y a + y b) (z a + z b);
  vec_sub := fun a b => Vec (x a - x b) (y a - y b) (z a - z b);
  vec_mul := fun a k => Vec (x a * k) (y a * k) (z a * k);
  vec_div := fun a k => Vec (x a / k) (y a / k) (z a / k);
  vec_neg := fun a => Vec (- x a) (- y a) (- z a);
  vec_dot := fun a b => (x a * x b + y a * y b + z a * z b)%float;
  vec_magnitude :=
    fun a => PrimFloat.sqrt (x a * x a + y a * y a + z a * z a)%float;
  vec_isclose := isclose;
  ocs_to_wcs := fun _ p => p;
  from_arc := fun c r ext s e =>
    {| ce_center := c; ce_major_axis := Vec r 0 0; ce_extrusion := ext;
       ce_ratio := 1; ce_start_param := radians s; ce_end_param := radians e |};
  ellipse_construction_tool := fun e =>
    let d := dxf (data e) in
    {| ce_center := center d; ce_major_axis := major_axis d;
       ce_extrusion := extrusion d; ce_ratio := ratio d;
       ce_start_param := start_param d; ce_end_param := end_param d |};
  spline_construction_tool := fun _ => {| control_points := []; order := 4 |};
  ellipse_vertex := fun e t => Vec t 0 0;
  spline_approximate := fun _ _ => [];
  atan2 := fun _ _ => 0%float;
  normalize_angle := fun a => a;
  get_draw_angles := fun s e _ => (s, e);
  get_tri_or_quad_points := fun _ => [];
  simplified_text_chunks := fun _ => [];
  mesh_faces := fun _ => [];
  polyface_faces := fun _ => [];
  normalized_paths := fun ps => ps
|}.

Definition default_properties : Properties :=
  {| color := "#ffffff"; layer := "0"; linetype := "CONTINUOUS";
     lineweight := 0x1p-2%float; prop_transparency := 0; is_visible := true |}.

(** Resolves the entity's own transparency, everything else by default. *)
#[export] Instance ctx : RenderContext := {|
  resolve_all := fun _ e =>
    {| color := "#ffffff"; layer := "0"; linetype := "CONTINUOUS";
       lineweight := 0x1p-2%float;
       prop_transparency :=
         match transparency (data e) with Some t => t | None => 0%float end;
       is_visible := true |};
  is_visible_in := fun _ _ => true;
  background_color := "#000000";
  VIEWPORT_COLOR := "#aaaaaa"
|}.

#[export] Instance out : DrawingBackend := {| has_spline_support := false |}.

Definition origin : Vector := Vec 0 0 0.

Definition default_dxf : DXFNamespace :=
  {| start := origin; end_ := origin; unit_vector := Vec 1 0 0;
     extrusion := Z_AXIS; has_extrusion := false;
     center := origin; radius := 1; start_angle := 0; end_angle := 360;
     major_axis := Vec 1 0 0; ratio := 1; start_param := 0; end_param := tau;
     location := origin; elevation := origin;
     view_direction_vector := Z_AXIS; width := 1; height := 1 |}.

Definition with_extrusion (d : DXFNamespace) (v : Vector) : DXFNamespace :=
  {| start := start d; end_ := end_ d; unit_vector := unit_vector d;
     extrusion := v; has_extrusion := true;
     center := center d; radius := radius d; start_angle := start_angle d;
     end_angle := end_angle d; major_axis := major_axis d; ratio := ratio d;
     start_param := start_param d; end_param := end_param d;
     location := location d; elevation := elevation d;
     view_direction_vector := view_direction_vector d;
     width := width d; height := height d |}.

Definition viewport_dxf (view c : Vector) (w h : float) : DXFNamespace :=
  {| start := origin; end_ := origin; unit_vector := Vec 1 0 0;
     extrusion := Z_AXIS; has_extrusion := false;
     center := c; radius := 1; start_angle := 0; end_angle := 360;
     major_axis := Vec 1 0 0; ratio := 1; start_param := 0; end_param := tau;
     location := origin; elevation := origin;
     view_direction_vector := view; width := w; height := h |}.

(** An entity without children of its own. *)
Definition leaf (handle : nat) (dxftype : string) (d : DXFNamespace) : DXFGraphic :=
  Entity {| handle := handle; dxftype := dxftype; is_tag_storage := false;
            dxf := d; transparency := None; has_virtual_entities := false;
            expansion_error := None; is_polygon_mesh := false;
            is_poly_face_mesh := false; paths := [] |} [] [].

(** An entity with a [virtual_entities()] method. *)
Definition composite (handle : nat) (dxftype : string)
    (attribs children : list DXFGraphic) (failure : option Exn) : DXFGraphic :=
  Entity {| handle := handle; dxftype := dxftype; is_tag_storage := false;
            dxf := default_dxf; transparency := None;
            has_virtual_entities := true; expansion_error := failure;
            is_polygon_mesh := false; is_poly_face_mesh := false;
            paths := [] |} attribs children.

(** A [DXFTagStorage] object. *)
Definition tag_storage (handle : nat) (dxftype : string) : DXFGraphic :=
  Entity {| handle := handle; dxftype := dxftype; is_tag_storage := true;
            dxf := default_dxf; transparency := None;
            has_virtual_entities := false; expansion_error := None;
            is_polygon_mesh := false; is_poly_face_mesh := false;
            paths := [] |} [] [].

Definition hatch (handle : nat) (loops : list BoundaryPath) : DXFGraphic :=
  Entity {| handle := handle; dxftype := "HATCH"; is_tag_storage := false;
            dxf := default_dxf; transparency := None;
            has_virtual_entities := false; expansion_error := None;
            is_polygon_mesh := false; is_poly_face_mesh := false;
            paths := loops |} [] [].

End Sample.

(** * Vocabulary of the statements

    What the theorems below are stated with: ways of reading a trace,
    the calls each handler is expected to make, written out from the
    source, and the drawings the theorems are run on. *)

(** The state after the calls [evs] have been made. *)
Definition add_events (st : State) (evs : list Event) : State :=
  {| trace := trace st ++ evs; ctx_stack := ctx_stack st;
     parent_stack := parent_stack st; filter_history := filter_history st |}.

(** Backend calls that draw something. *)
Definition is_draw_call (ev : Event) : bool :=
  match ev with
  | DrawLine _ _ _ | DrawArc _ _ _ _ _ _ | DrawPoint _ _
  | DrawFilledPolygon _ _ | DrawText _ _ _ _ | DrawSpline _ _ => true
  | _ => false
  end.

Definition is_ignored_entity (ev : Event) : bool :=
  match ev with IgnoredEntity _ => true | _ => false end.

Definition is_resolve_all (ev : Event) : bool :=
  match ev with ResolveAll _ => true | _ => false end.

Definition is_push_state (ev : Event) : bool :=
  match ev with PushState _ => true | _ => false end.

Definition is_pop_state (ev : Event) : bool :=
  match ev with PopState => true | _ => false end.

Definition is_warning (ev : Event) : bool :=
  match ev with Print _ => true | _ => false end.

Definition count (p : Event -> bool) (evs : list Event) : nat :=
  List.length (filter p evs).

(** Every dxftype some branch of [draw_entity] handles. *)
Definition HANDLED_TYPES : list string :=
  ["LINE"; "XLINE"; "RAY"; "TEXT"; "MTEXT"; "ATTRIB"; "CIRCLE"; "ARC";
   "ELLIPSE"; "SPLINE"; "POINT"; "HATCH"; "MESH"; "3DFACE"; "SOLID"; "TRACE";
   "POLYLINE"; "LWPOLYLINE"] ++ COMPOSITE_ENTITY_TYPES ++ ["VIEWPORT"].

(** [round(x)] on a float: to the nearest integer, ties to even. *)
Definition round (x : float) : Exn + Z :=
  match Prim2SF x with
  | S754_zero _ => inr 0
  | S754_infinity _ => inl OverflowError
  | S754_nan => inl ValueError
  | S754_finite s m e =>
      let mag :=
        if 0 <=? e then Z.pos m * 2 ^ e
        else
          let d := 2 ^ (- e) in
          let q := Z.pos m / d in
          let r := Z.pos m mod d in
          if 2 * r <? d then q
          else if d <? 2 * r then q + 1
          else if Z.even q then q else q + 1 in
      inr (if s then - mag else mag)
  end.

Definition is_line_edge (e : Edge) : bool :=
  match e with LineEdge _ _ => true | CurvedEdge _ => false end.

Definition is_line_edge_path (p : BoundaryPath) : bool :=
  match p with
  | EdgePath edges => forallb is_line_edge edges
  | PolylinePath _ => false
  end.

Definition DIMENSION_LIKE_TYPES : list string :=
  ["DIMENSION"; "ARC_DIMENSION"; "LARGE_RADIAL_DIMENSION"; "ACAD_TABLE"].

(** The properties a call hands over, if any. *)
Definition event_properties (ev : Event) : option Properties :=
  match ev with
  | DrawLine _ _ p | DrawArc _ _ _ _ _ p | DrawPoint _ p | DrawText _ _ p _
  | DrawSpline _ p | DrawFilledPolygon _ (ByProperties p) | PushState p => Some p
  | _ => None
  end.

(** A call that hands over no properties but [p] and is not a call of
    [push_state] or [pop_state]. *)
Definition leaf_call (p : Properties) (ev : Event) : Prop :=
  (forall q, event_properties ev = Some q -> q = p)
  /\ is_push_state ev = false
  /\ is_pop_state ev = false.

(** Every call among [evs] is such a call. *)
Definition carry (p : Properties) (evs : list Event) : Prop :=
  Forall (leaf_call p) evs.

(** The computation only adds calls to the trace, and the properties it
    hands over are [p]; it may return or raise. *)
Definition emits_with (p : Properties) {A} (c : M A) : Prop :=
  forall st, exists evs, snd (c st) = add_events st evs /\ carry p evs.

(** A filter that answers by its argument alone. *)
Definition deterministic (f : list DXFGraphic -> DXFGraphic -> bool) : Prop :=
  forall h1 h2 e, f h1 e = f h2 e.

(** Whether the computation returns or raises, the filter calls it makes
    are on entities of depth below [d]. *)
Definition filters_below (d : nat) {A} (c : M A) : Prop :=
  forall st, exists hs,
    filter_history (snd (c st)) = filter_history st ++ hs
    /\ Forall (fun x => (depth x < d)%nat) hs.

(** No INSERT of the tree has a failing [virtual_entities()]. *)
Fixpoint inserts_expand (e : DXFGraphic) : bool :=
  match e with
  | Entity d a c =>
      (negb (dxftype d =? "INSERT")%string
       || match expansion_error d with None => true | Some _ => false end)
      && forallb inserts_expand a
      && forallb inserts_expand c
  end.

(** From [st] to [st'] the render context and the ancestor list are
    restored, and as many [push_state] as [pop_state] calls were made. *)
Definition balanced_step (st st' : State) : Prop :=
  ctx_stack st' = ctx_stack st
  /\ parent_stack st' = parent_stack st
  /\ exists evs, trace st' = trace st ++ evs
                 /\ count is_push_state evs = count is_pop_state evs.

(** Whenever the computation returns, it has made a balanced step. *)
Definition balanced {A} (c : M A) : Prop :=
  forall st a st', c st = (Return a, st') -> balanced_step st st'.

(** The primitive of an unsupported entity. *)
Definition empty_primitive : Disassemble.Primitive :=
  {| Disassemble.path := None; Disassemble.mesh := None |}.

Section StatementTerms.

Context {ML : MathLib} {RC : RenderContext} {BE : DrawingBackend}.
Variable self : Frontend.


(** What [_resolve_properties(entity)] returns in state [st]. *)
Definition resolved (e : DXFGraphic) (st : State) : Properties :=
  match visibility_filter self with
  | Some f =>
      set_is_visible (resolve_all (ctx_stack st) e) (f (filter_history st) e)
  | None => resolve_all (ctx_stack st) e
  end.

(** The filter calls one property resolution of [e] makes. *)
Definition resolution_filter_calls (e : DXFGraphic) : list DXFGraphic :=
  match visibility_filter self with Some _ => [e] | None => [] end.

Definition after_resolve (e : DXFGraphic) (st : State) : State :=
  {| trace := trace st ++ [ResolveAll e]; ctx_stack := ctx_stack st;
     parent_stack := parent_stack st;
     filter_history := filter_history st ++ resolution_filter_calls e |}.

(** The state after [draw_entity] has handled a non-composite entity [e]
    whose handler resolved the properties of [e] and then made [calls]. *)
Definition after_leaf (e : DXFGraphic) (st : State) (calls : list Event) : State :=
  {| trace := trace st
              ++ [SetCurrentEntity (Some e) (parent_stack st); ResolveAll e]
              ++ calls ++ [SetCurrentEntity None []];
     ctx_stack := ctx_stack st;
     parent_stack := parent_stack st;
     filter_history := filter_history st ++ resolution_filter_calls e |}.

(** The construction ellipse [draw_elliptic_arc_entity_3d] builds. *)
Definition construction_ellipse (e : DXFGraphic) : ConstructionEllipse :=
  let d := dxf (data e) in
  if (dxftype (data e) =? "CIRCLE")%string then
    from_arc (center d) (radius d) (extrusion d) 0 360
  else if (dxftype (data e) =? "ARC")%string then
    from_arc (center d) (radius d) (extrusion d) (start_angle d) (end_angle d)
  else ellipse_construction_tool e.

Definition polyline_calls (points : list Vector) (p : Properties) : list Event :=
  [StartPolyline]
  ++ map (fun '(a, b) => DrawLine a b p) (consecutive_pairs points)
  ++ [EndPolyline].

(** The number of points the sentence of the specification gives:
    max(4, round((end_param - start_param) / tau * circle_resolution)). *)
Definition claimed_point_count (ce : ConstructionEllipse) : Exn + Z :=
  match int_as_float (circle_resolution self) with
  | inl exn => inl exn
  | inr resolution =>
      match round ((ce_end_param ce - ce_start_param ce) / tau
                   * resolution)%float with
      | inl exn => inl exn
      | inr r => inr (Z.max 4 r)
      end
  end.

(** The entities whose handler is not recursive and begins by resolving
    the properties of the entity itself. *)
Definition resolves_own_properties (e : DXFGraphic) : bool :=
  let t := dxftype (data e) in
  in_set t ["LINE"; "XLINE"; "RAY"]
  || (in_set t ["TEXT"; "MTEXT"; "ATTRIB"]
      && negb (is_spatial (extrusion (dxf (data e)))))
  || in_set t ["CIRCLE"; "ARC"; "ELLIPSE"; "SPLINE"; "POINT"; "HATCH"; "MESH";
               "3DFACE"; "SOLID"; "TRACE"]
  || ((t =? "POLYLINE")%string
      && (is_polygon_mesh (data e) || is_poly_face_mesh (data e))).

(** The computation resolves the properties of [e] once and then only
    makes calls that hand over the properties resolved. *)
Definition resolves_then_emits (e : DXFGraphic) (c : M unit) : Prop :=
  forall st, exists evs,
    snd (c st) = add_events (after_resolve e st) evs
    /\ carry (resolved e st) evs.

End StatementTerms.

(** ** Hatch loops, written out edge by edge *)

Section HatchTerms.

Context {ML : MathLib}.
Variable ocs : Vector.
Variable elevation : float.

(** The start point of an edge in world coordinates, at the elevation of
    the hatch. *)
Definition start_vertex (s : float * float) : Vector :=
  ocs_to_wcs ocs (Vec (fst s) (snd s) elevation).

(** The end point of an edge as the loop keeps it: in world coordinates,
    its z replaced by 0.0. *)
Definition end_vertex (e : float * float) : Vector :=
  replace_z (ocs_to_wcs ocs (Vec (fst e) (snd e) elevation)) 0.

(** Two consecutive edges are contiguous when the kept end point of the
    first is close to the start point of the second. *)
Definition contiguous (prev_end next_start : float * float) : bool :=
  vec_isclose (end_vertex prev_end) (start_vertex next_start).

(** The bridging vertex before [v], if any. *)
Definition bridge (last : option Vector) (v : Vector) : list Vector :=
  match last with
  | Some l => if vec_isclose l v then [] else [l]
  | None => []
  end.

Definition gap_warning (last : option Vector) (s e : float * float) : list Message :=
  match last with
  | Some l => if vec_isclose l (start_vertex s) then [] else [HatchNotContiguous l s e]
  | None => []
  end.

(** The vertices of a loop, its warnings, the number of its gaps and the
    end point kept last, written out edge by edge; [last] is the end point
    kept from the edge before. *)
Fixpoint loop_vertices (last : option Vector) (edges : list Edge) : list Vector :=
  match edges with
  | LineEdge s e :: rest =>
      bridge last (start_vertex s)
      ++ start_vertex s :: loop_vertices (Some (end_vertex e)) rest
  | _ => []
  end.

Fixpoint loop_warnings (last : option Vector) (edges : list Edge) : list Message :=
  match edges with
  | LineEdge s e :: rest =>
      gap_warning last s e ++ loop_warnings (Some (end_vertex e)) rest
  | _ => []
  end.

Fixpoint gaps (last : option Vector) (edges : list Edge) : nat :=
  match edges with
  | LineEdge s e :: rest =>
      (List.length (bridge last (start_vertex s))
       + gaps (Some (end_vertex e)) rest)%nat
  | _ => O
  end.

Fixpoint loop_last (last : option Vector) (edges : list Edge) : option Vector :=
  match edges with
  | LineEdge s e :: rest => loop_last (Some (end_vertex e)) rest
  | _ => last
  end.

(** The polygon of a loop: its vertices, and the end point kept last once
    more when it is close to the first vertex. *)
Definition closing_vertex (edges : list Edge) : list Vector :=
  match loop_vertices None edges, loop_last None edges with
  | first :: _, Some last => if vec_isclose last first then [last] else []
  | _, _ => []
  end.

Definition polygon (edges : list Edge) : list Vector :=
  loop_vertices None edges ++ closing_vertex edges.

(** The calls one boundary loop gives rise to. *)
Definition loop_calls (properties : Properties) (p : BoundaryPath) : list Event :=
  match p with
  | EdgePath edges =>
      map Print (loop_warnings None edges)
      ++ match edges with
         | [] => []
         | _ :: _ => [DrawFilledPolygon (polygon edges) (ByProperties properties)]
         end
  | PolylinePath _ => []
  end.

(** The number of places where two consecutive edges of a loop are not
    contiguous. *)
Fixpoint discontinuities (edges : list Edge) : nat :=
  match edges with
  | LineEdge _ e1 :: rest =>
      match rest with
      | LineEdge s2 _ :: _ =>
          ((if contiguous e1 s2 then 0 else 1)
           + discontinuities rest)%nat
      | _ => O
      end
  | _ => O
  end.

End HatchTerms.

(** ** The calls of the other handlers *)

Section HandlerCalls.

Context {ML : MathLib} {RC : RenderContext} {BE : DrawingBackend}.
Variable self : Frontend.

(** The vector an XLINE or a RAY is drawn along: the x and y of its unit
    vector, z dropped, times [INFINITE_LINE_LENGTH]. *)
Definition line_delta (d : DXFNamespace) : Vector :=
  vec_mul (Vec (x (unit_vector d)) (y (unit_vector d)) 0)
          (float_of_int INFINITE_LINE_LENGTH).

(** The end points of the segment drawn for a LINE, an XLINE or a RAY. *)
Definition line_segment (e : DXFGraphic) : Vector * Vector :=
  let d := dxf (data e) in
  if (dxftype (data e) =? "LINE")%string then (start d, end_ d)
  else if (dxftype (data e) =? "XLINE")%string then
    (vec_sub (start d) (vec_div (line_delta d) 2),
     vec_add (start d) (vec_div (line_delta d) 2))
  else (start d, vec_add (start d) (line_delta d)).

(** The one [draw_arc] call of a planar CIRCLE, ARC or ELLIPSE. *)
Definition arc_call (e : DXFGraphic) (p : Properties) : Event :=
  let d := dxf (data e) in
  if (dxftype (data e) =? "CIRCLE")%string then
    DrawArc (_get_arc_wcs_center e) (2 * radius d) (2 * radius d) 0 None p
  else if (dxftype (data e) =? "ARC")%string then
    DrawArc (_get_arc_wcs_center e) (2 * radius d) (2 * radius d) 0
            (Some (get_draw_angles (radians (start_angle d))
                                   (radians (end_angle d)) (extrusion d))) p
  else
    DrawArc (center d) (2 * vec_magnitude (major_axis d))
            (ratio d * (2 * vec_magnitude (major_axis d)))
            (normalize_angle (atan2 (y (major_axis d)) (x (major_axis d))))
            (Some (get_draw_angles (start_param d) (end_param d) (extrusion d))) p.

(** The calls of a SPLINE. *)
Definition spline_calls (e : DXFGraphic) (p : Properties) : list Event :=
  if has_spline_support then [DrawSpline (spline_construction_tool e) p]
  else polyline_calls
         (spline_approximate (spline_construction_tool e) (spline_resolution self))
         p.

(** The corner points of a 3DFACE, SOLID or TRACE as they are drawn. *)
Definition solid_points (e : DXFGraphic) : list Vector :=
  if (dxftype (data e) =? "TRACE")%string && has_extrusion (dxf (data e))
  then map (ocs_to_wcs (extrusion (dxf (data e)))) (get_tri_or_quad_points e)
  else get_tri_or_quad_points e.

(** The faces drawn for a MESH or for a POLYLINE that is a mesh. *)
Definition faces_drawn (e : DXFGraphic) : list (list Vector) :=
  if (dxftype (data e) =? "MESH")%string then mesh_faces e else polyface_faces e.

End HandlerCalls.

(** ** What a traversal leaves behind *)

(** The calls [draw_entity] may make: all but the ones [draw_entities] and
    [draw_layout] make themselves. *)
Definition is_inner_call (ev : Event) : bool :=
  match ev with
  | IsVisible _ | SetBackground _ | Finalize => false
  | _ => true
  end.

Definition is_visibility_query (ev : Event) : bool :=
  match ev with IsVisible _ => true | _ => false end.

Definition is_finalize (ev : Event) : bool :=
  match ev with Finalize => true | _ => false end.

Definition is_set_background (ev : Event) : bool :=
  match ev with SetBackground _ => true | _ => false end.

(** The exceptions the generators of the polylines of a tree raise;
    nothing catches them. *)
Fixpoint escaping_errors (e : DXFGraphic) : list Exn :=
  match e with
  | Entity d a c =>
      (if in_set (dxftype d) ["POLYLINE"; "LWPOLYLINE"]
       then match expansion_error d with Some exn => [exn] | None => [] end
       else [])
      ++ flat_map escaping_errors a
      ++ flat_map escaping_errors c
  end.


(** From [st] to [st'] calls were only added to the trace, none of them
    one of the top-level calls; what was on the ancestor list is still
    its beginning and what was on the context stack is still its end; the
    filter was only called again. *)
Definition grows (st st' : State) : Prop :=
  (exists evs, trace st' = trace st ++ evs /\ forallb is_inner_call evs = true)
  /\ (exists ps, parent_stack st' = parent_stack st ++ ps)
  /\ (exists cs, ctx_stack st' = cs ++ ctx_stack st)
  /\ (exists hs, filter_history st' = filter_history st ++ hs).

(** The result [r] of a computation started at or after [st]: the state
    has grown, a value returned satisfies [Q] and an exception raised
    satisfies [ok]. *)
Definition post (ok : Exn -> Prop) {A} (Q : A -> Prop) (st : State)
    (r : Outcome A * State) : Prop :=
  grows st (snd r)
  /\ match fst r with
     | Return a => Q a
     | Raise exn => ok exn
     end.

(** The postcondition that asks nothing of the value returned. *)
Definition anything {A} : A -> Prop := fun _ => True.

Definition keeps (ok : Exn -> Prop) {A} (Q : A -> Prop) (c : M A) : Prop :=
  forall st, post ok Q st (c st).

(** The top-level entities [draw_entities] asks the render context
    about. *)
Definition queried (entities : list DXFGraphic) : list DXFGraphic :=
  filter (fun e => negb (is_tag_storage (data e))) entities.

(** The entities a composite handler passes on to [draw_entity], in the
    order of the calls: the attribs and the block content of an INSERT
    (the attribs alone when the block does not expand), the vertices and
    segments of a polyline that is no mesh, the content of a dimension
    or table made opaque. *)
Definition drawn_children (e : DXFGraphic) : list DXFGraphic :=
  let d := data e in
  if (dxftype d =? "INSERT")%string then
    attribs e ++ match expansion_error d with
                 | Some _ => []
                 | None => virtual_children e
                 end
  else if in_set (dxftype d) ["POLYLINE"; "LWPOLYLINE"] then
    if (dxftype d =? "POLYLINE")%string
       && (is_polygon_mesh d || is_poly_face_mesh d)
    then []
    else virtual_children e
  else if in_set (dxftype d) DIMENSION_LIKE_TYPES && has_virtual_entities d then
    match expansion_error d with
    | Some _ => []
    | None => map (fun child => set_transparency child 0) (virtual_children e)
    end
  else [].

(** The block references the traversal of a tree reaches whose
    [virtual_entities()] raises. *)
Fixpoint unexpanded_inserts (e : DXFGraphic) : nat :=
  match e with
  | Entity d a c =>
      let below := fun l => list_sum (map unexpanded_inserts l) in
      if (dxftype d =? "INSERT")%string then
        (below a + match expansion_error d with
                   | Some _ => 1
                   | None => below c
                   end)%nat
      else if in_set (dxftype d) ["POLYLINE"; "LWPOLYLINE"] then
        if (dxftype d =? "POLYLINE")%string
           && (is_polygon_mesh d || is_poly_face_mesh d)
        then O
        else below c
      else if in_set (dxftype d) DIMENSION_LIKE_TYPES && has_virtual_entities d then
        match expansion_error d with
        | Some _ => O
        | None => below c
        end
      else O
  end.

(** From [st] to [st'] the render context and the ancestor list have
    grown by [n] entries, and [n] more [push_state] than [pop_state]
    calls were made. *)
Definition leaves (n : nat) (st st' : State) : Prop :=
  List.length (ctx_stack st') = (List.length (ctx_stack st) + n)%nat
  /\ List.length (parent_stack st') = (List.length (parent_stack st) + n)%nat
  /\ exists evs, trace st' = trace st ++ evs
                 /\ count is_push_state evs = (count is_pop_state evs + n)%nat.

(** Whenever the computation returns, it has left [n] entries. *)
Definition leaving (n : nat) {A} (c : M A) : Prop :=
  forall st a st', c st = (Return a, st') -> leaves n st st'.

(** ** Sample drawings *)

Module Drawings.

Import Sample.

Definition frontend : Frontend := Frontend_init None.

(** A frontend whose filter admits everything. *)
Definition admit_all : list DXFGraphic -> DXFGraphic -> bool := fun _ _ => true.
Definition filtering_frontend : Frontend := Frontend_init (Some admit_all).

(** A filter that is not deterministic: it answers yes on its odd calls
    and no on its even calls. *)
Definition alternating : list DXFGraphic -> DXFGraphic -> bool :=
  fun history _ => Nat.even (List.length history).
Definition alternating_frontend : Frontend := Frontend_init (Some alternating).

Definition point : DXFGraphic := leaf 3 "POINT" default_dxf.

(** An INSERT whose block cannot be expanded. *)
Definition broken_insert : DXFGraphic :=
  composite 2 "INSERT" [] [] (Some (ExpansionError "undefined block")).

(** A block reference holding [broken_insert] and, after it, a point. *)
Definition outer_insert : DXFGraphic :=
  composite 1 "INSERT" [] [broken_insert; point] None.

(** A full circle in the plane whose normal is the y axis. *)
Definition tilted_circle : DXFGraphic :=
  leaf 1 "CIRCLE" (with_extrusion default_dxf (Vec 0 1 0)).

(** A point whose transparency was set explicitly to one half. *)
Definition half_transparent_point : DXFGraphic :=
  Entity {| handle := 2; dxftype := "POINT"; is_tag_storage := false;
            dxf := default_dxf; transparency := Some 0x1p-1%float;
            has_virtual_entities := false; expansion_error := None;
            is_polygon_mesh := false; is_poly_face_mesh := false;
            paths := [] |} [] [].

Definition dimension : DXFGraphic :=
  composite 1 "DIMENSION" [] [half_transparent_point] None.

Definition wipeout : DXFGraphic := tag_storage 1 "WIPEOUT".

Definition image : DXFGraphic := leaf 1 "IMAGE" default_dxf.

Definition viewport : DXFGraphic :=
  leaf 1 "VIEWPORT" (viewport_dxf Z_AXIS (Vec 10 20 0) 4 2).

(** A triangle whose last edge ends 5e-13 away from the first vertex. *)
Definition nearly_closed_loop : BoundaryPath :=
  EdgePath [LineEdge (0, 0) (1, 0); LineEdge (1, 0) (1, 1);
            LineEdge (1, 1) (0x1.19799812dea11p-41, 0)]%float.

Definition nearly_closed_hatch : DXFGraphic := hatch 1 [nearly_closed_loop].

(** Two edges that meet at (1, 0), in a hatch at elevation 5. *)
Definition elevated_hatch : DXFGraphic :=
  Entity {| handle := 1; dxftype := "HATCH"; is_tag_storage := false;
            dxf := {| start := origin; end_ := origin; unit_vector := Vec 1 0 0;
                      extrusion := Z_AXIS; has_extrusion := false;
                      center := origin; radius := 1; start_angle := 0;
                      end_angle := 360; major_axis := Vec 1 0 0; ratio := 1;
                      start_param := 0; end_param := tau; location := origin;
                      elevation := Vec 0 0 5;
                      view_direction_vector := Z_AXIS; width := 1; height := 1 |};
            transparency := None; has_virtual_entities := false;
            expansion_error := None; is_polygon_mesh := false;
            is_poly_face_mesh := false;
            paths := [EdgePath [LineEdge (0, 0) (1, 0);
                                LineEdge (1, 0) (1, 1)]%float] |} [] [].

(** A frontend with a circle resolution of 2^63, and one whose
    resolution is too large for a float. *)
Definition fine_frontend : Frontend :=
  {| visibility_filter := None; circle_resolution := 2 ^ 63;
     approximation_max_sagitta := 0x1.47ae147ae147bp-7%float;
     spline_resolution := 100 |}.

Definition overflowing_frontend : Frontend :=
  {| visibility_filter := None; circle_resolution := 2 ^ 1024;
     approximation_max_sagitta := 0x1.47ae147ae147bp-7%float;
     spline_resolution := 100 |}.

(** An arc of 1e-15 degrees in the plane whose normal is the y axis. *)
Definition sliver : DXFGraphic :=
  Entity {| handle := 17; dxftype := "ARC"; is_tag_storage := false;
            dxf := {| start := origin; end_ := origin; unit_vector := Vec 1 0 0;
                      extrusion := Vec 0 1 0; has_extrusion := true;
                      center := origin; radius := 1; start_angle := 0;
                      end_angle := 0x1.203af9ee75616p-50;
                      major_axis := Vec 1 0 0; ratio := 1;
                      start_param := 0; end_param := tau; location := origin;
                      elevation := origin;
                      view_direction_vector := Z_AXIS; width := 1; height := 1 |};
            transparency := None; has_virtual_entities := false;
            expansion_error := None; is_polygon_mesh := false;
            is_poly_face_mesh := false; paths := [] |} [] [].

(** The closed unit square, in a hatch at elevation 5. *)
Definition elevated_square : DXFGraphic :=
  Entity {| handle := 16; dxftype := "HATCH"; is_tag_storage := false;
            dxf := {| start := origin; end_ := origin; unit_vector := Vec 1 0 0;
                      extrusion := Z_AXIS; has_extrusion := false;
                      center := origin; radius := 1; start_angle := 0;
                      end_angle := 360; major_axis := Vec 1 0 0; ratio := 1;
                      start_param := 0; end_param := tau; location := origin;
                      elevation := Vec 0 0 5;
                      view_direction_vector := Z_AXIS; width := 1; height := 1 |};
            transparency := None; has_virtual_entities := false;
            expansion_error := None; is_polygon_mesh := false;
            is_poly_face_mesh := false;
            paths := [EdgePath [LineEdge (0, 0) (1, 0); LineEdge (1, 0) (1, 1);
                                LineEdge (1, 1) (0, 1);
                                LineEdge (0, 1) (0, 0)]%float] |} [] [].

(** Builders of [ezdxf.disassemble] for the sample drawings. *)
#[export] Instance paths_lib : Disassemble.PathLib := {|
  Disassemble.polyline_path := fun _ => inr [];
  Disassemble.curve_path := fun _ => inr [];
  Disassemble.spline_path := fun _ => inr [];
  Disassemble.mesh_builder := fun _ => inl ValueError;
  Disassemble.distinct_corners := fun _ => inr []
|}.

(** The state after the traversal of a sequence of top-level entities. *)
Definition run (self : Frontend) (entities : list DXFGraphic) : State :=
  snd (draw_entities self entities initial_state).

(** More sample entities. *)

Definition construction_line : DXFGraphic := leaf 4 "XLINE" default_dxf.

Definition full_arc : DXFGraphic := leaf 5 "ARC" default_dxf.

Definition curve : DXFGraphic := leaf 6 "SPLINE" default_dxf.

Definition trace_strip : DXFGraphic := leaf 7 "TRACE" default_dxf.

Definition subdivision_mesh : DXFGraphic := leaf 8 "MESH" default_dxf.

(** A text in the plane whose normal is the y axis. *)
Definition tilted_text : DXFGraphic :=
  leaf 9 "TEXT" (with_extrusion default_dxf (Vec 0 1 0)).

(** A polyline whose generator yields a point and then raises. *)
Definition broken_polyline : DXFGraphic :=
  composite 10 "LWPOLYLINE" [] [point] (Some (ExpansionError "bad bulge")).

(** A dimension whose geometry block cannot be expanded. *)
Definition broken_dimension : DXFGraphic :=
  composite 11 "DIMENSION" [] [point] (Some (ExpansionError "no geometry block")).

(** A table object without a [virtual_entities] method. *)
Definition bare_table : DXFGraphic := leaf 12 "ACAD_TABLE" default_dxf.

Definition label : DXFGraphic := leaf 14 "ATTRIB" default_dxf.

(** A block reference with one attached attribute and one point in its
    block. *)
Definition labelled_insert : DXFGraphic :=
  composite 13 "INSERT" [label] [point] None.

(** The sample vector operations, with geometry for splines, solids,
    meshes and texts: three points on a curve, a unit square, two
    triangles, one chunk of text. *)
Definition surveyed : MathLib := {|
  vec_add := @vec_add math;
  vec_sub := @vec_sub math;
  vec_mul := @vec_mul math;
  vec_div := @vec_div math;
  vec_neg := @vec_neg math;
  vec_dot := @vec_dot math;
  vec_magnitude := @vec_magnitude math;
  vec_isclose := @vec_isclose math;
  ocs_to_wcs := @ocs_to_wcs math;
  from_arc := @from_arc math;
  ellipse_construction_tool := @ellipse_construction_tool math;
  spline_construction_tool := @spline_construction_tool math;
  ellipse_vertex := @ellipse_vertex math;
  spline_approximate := fun _ _ => [origin; Vec 1 1 0; Vec 2 0 0];
  atan2 := @atan2 math;
  normalize_angle := @normalize_angle math;
  get_draw_angles := @get_draw_angles math;
  get_tri_or_quad_points :=
    fun _ => [origin; Vec 1 0 0; Vec 1 1 0; Vec 0 1 0];
  simplified_text_chunks := fun _ => [("A", [], 1%float)];
  mesh_faces :=
    fun _ => [[origin; Vec 1 0 0; Vec 1 1 0]; [origin; Vec 1 1 0; Vec 0 1 0]];
  polyface_faces := @polyface_faces math;
  normalized_paths := @normalized_paths math
|}.

(** A hatch whose second boundary path kept an arc edge. *)
Definition unreduced_hatch : DXFGraphic :=
  hatch 15 [EdgePath [LineEdge (0, 0) (1, 0); LineEdge (1, 0) (0, 0)]%float;
            EdgePath [LineEdge (0, 0) (1, 0); CurvedEdge "ArcEdge"]%float;
            EdgePath []].

End Drawings.

(** * Properties of the frontend *)

(** ** Laws of the monad *)

Lemma bind_ext {A B} (c : M A) (k1 k2 : A -> M B) (st : State) :
  (forall a st', k1 a st' = k2 a st') -> bind c k1 st = bind c k2 st.
Proof.
  intros H. unfold bind. destruct (c st) as [[a|exn] st']; [apply H | reflexivity].
Qed.

Lemma bind_assoc {A B C} (c : M A) (k : A -> M B) (k' : B -> M C) (st : State) :
  bind (bind c k) k' st = bind c (fun a => bind (k a) k') st.
Proof.
  unfold bind. destruct (c st) as [[a|exn] st']; reflexivity.
Qed.

Lemma for_each_ext {A} (l : list A) (f g : A -> M unit) :
  (forall a st, In a l -> f a st = g a st) ->
  forall st, for_each l f st = for_each l g st.
Proof.
  induction l as [|a l IH]; intros H st; simpl; [reflexivity|].
  unfold bind. rewrite (H a st (or_introl eq_refl)).
  destruct (g a st) as [[[]|exn] st']; [|reflexivity].
  apply IH. intros b st'' Hb. apply H. right. exact Hb.
Qed.

Lemma for_each_app {A} (l1 l2 : list A) (f : A -> M unit) (st : State) :
  for_each (l1 ++ l2) f st = (for_each l1 f ;; for_each l2 f) st.
Proof.
  revert st. induction l1 as [|a l1 IH]; intros st; simpl.
  - reflexivity.
  - rewrite bind_assoc. apply bind_ext. intros _ st'. apply IH.
Qed.

(** ** Depth of entity trees *)

Lemma depth_Entity (d : EntityData) (a c : list DXFGraphic) :
  depth (Entity d a c) = S (Nat.max (depth_list a) (depth_list c)).
Proof.
  assert (Hl : forall l,
            (fix dl (l : list DXFGraphic) : nat :=
               match l with [] => O | h :: t => Nat.max (depth h) (dl t) end) l
            = depth_list l).
  { induction l as [|h t IH]; simpl; [reflexivity | now rewrite IH]. }
  simpl. now rewrite !Hl.
Qed.

Lemma depth_In (e : DXFGraphic) (l : list DXFGraphic) :
  In e l -> (depth e <= depth_list l)%nat.
Proof.
  induction l as [|h t IH]; simpl; [tauto|].
  intros [->|H]; [lia | specialize (IH H); lia].
Qed.

Lemma depth_attribs (e c : DXFGraphic) :
  In c (attribs e) -> (depth c < depth e)%nat.
Proof.
  destruct e as [d a cs]. rewrite depth_Entity. simpl.
  intros H. apply depth_In in H. lia.
Qed.

Lemma depth_virtual_children (e c : DXFGraphic) :
  In c (virtual_children e) -> (depth c < depth e)%nat.
Proof.
  destruct e as [d a cs]. rewrite depth_Entity. simpl.
  intros H. apply depth_In in H. lia.
Qed.

Lemma depth_set_transparency (e : DXFGraphic) (v : float) :
  depth (set_transparency e v) = depth e.
Proof. destruct e as [d a c]. simpl set_transparency. now rewrite !depth_Entity. Qed.

Lemma depth_pos (e : DXFGraphic) : (0 < depth e)%nat.
Proof. destruct e. rewrite depth_Entity. lia. Qed.

(** ** The recursion equation of [draw_entity] *)

Section Unfolding.

Context {ML : MathLib} {RC : RenderContext} {BE : DrawingBackend}.
Variable self : Frontend.

(** The handlers call [self.draw_entity] on strictly shallower entities
    only. *)
Lemma draw_polyline_entity_ext (f g : DXFGraphic -> M unit) (e : DXFGraphic) :
  (forall c st, (depth c < depth e)%nat -> f c st = g c st) ->
  forall st, draw_polyline_entity self f e st = draw_polyline_entity self g e st.
Proof.
  intros H st. unfold draw_polyline_entity.
  destruct (_ && _); [reflexivity|].
  apply bind_ext; intros _ st1.
  apply bind_ext; intros ps st2.
  apply bind_ext; intros _ st3.
  unfold bind at 1 3.
  rewrite (for_each_ext (virtual_children e) f g); [reflexivity|].
  intros c st' Hc. apply H. now apply depth_virtual_children.
Qed.

Lemma draw_composite_entity_ext (f g : DXFGraphic -> M unit) (e : DXFGraphic) :
  (forall c st, (depth c < depth e)%nat -> f c st = g c st) ->
  forall st, draw_composite_entity self f e st = draw_composite_entity self g e st.
Proof.
  intros H st. unfold draw_composite_entity.
  destruct (_ =? _)%string.
  - apply bind_ext; intros props st1.
    apply bind_ext; intros _ st2.
    apply bind_ext; intros _ st3.
    unfold bind at 1 4.
    rewrite (for_each_ext (attribs e) f g)
      by (intros c st' Hc; apply H; now apply depth_attribs).
    destruct (for_each (attribs e) g st3) as [[[]|exn] st4]; [|reflexivity].
    destruct (expansion_error (data e)); [reflexivity|].
    unfold bind at 1 3.
    rewrite (for_each_ext (virtual_children e) f g); [reflexivity|].
    intros c st' Hc. apply H. now apply depth_virtual_children.
  - destruct (has_virtual_entities (data e)); [|reflexivity].
    destruct (expansion_error (data e)); [reflexivity|].
    apply bind_ext; intros _ st1.
    unfold bind at 1 2.
    rewrite (for_each_ext _ f g); [reflexivity|].
    intros c st' Hc. apply in_map_iff in Hc as [c0 [<- Hc0]].
    apply H. rewrite depth_set_transparency.
    now apply depth_virtual_children.
Qed.

Lemma dispatch_ext (f g : DXFGraphic -> M unit) (e : DXFGraphic) :
  (forall c st, (depth c < depth e)%nat -> f c st = g c st) ->
  forall st, dispatch self f e st = dispatch self g e st.
Proof.
  intros H st. unfold dispatch.
  repeat match goal with
         | |- (if ?b then _ else _) _ = _ => destruct b; try reflexivity
         end.
  - now apply draw_polyline_entity_ext.
  - now apply draw_composite_entity_ext.
Qed.

Lemma draw_entity_body_ext (f g : DXFGraphic -> M unit) (e : DXFGraphic) :
  (forall c st, (depth c < depth e)%nat -> f c st = g c st) ->
  forall st, draw_entity_body self f e st = draw_entity_body self g e st.
Proof.
  intros H st. unfold draw_entity_body.
  apply bind_ext; intros parents st1.
  apply bind_ext; intros _ st2.
  unfold bind. now rewrite (dispatch_ext f g e H).
Qed.

Lemma draw_entity_rec_frames (n : nat) :
  forall m e st, (depth e <= n)%nat -> (depth e <= m)%nat ->
    draw_entity_rec self n e st = draw_entity_rec self m e st.
Proof.
  induction n as [|n IH]; intros m e st Hn Hm.
  - pose proof (depth_pos e). lia.
  - destruct m as [|m]; [pose proof (depth_pos e); lia|].
    simpl. apply draw_entity_body_ext.
    intros c st' Hc. apply IH; lia.
Qed.

(** [draw_entity] satisfies the equation the source defines it by. *)
Lemma draw_entity_eq (e : DXFGraphic) (st : State) :
  draw_entity self e st = draw_entity_body self (draw_entity self) e st.
Proof.
  unfold draw_entity at 1.
  destruct (depth e) as [|n] eqn:Hd; [pose proof (depth_pos e); lia|].
  simpl. apply draw_entity_body_ext.
  intros c st' Hc. unfold draw_entity.
  apply draw_entity_rec_frames; lia.
Qed.

End Unfolding.

(** ** Reading traces *)

Lemma emit_spec (ev : Event) (st : State) :
  emit ev st = (Return tt, add_events st [ev]).
Proof. reflexivity. Qed.

Lemma add_events_nil (st : State) : add_events st [] = st.
Proof. destruct st. unfold add_events. simpl. now rewrite app_nil_r. Qed.

Lemma add_events_app (st : State) (evs1 evs2 : list Event) :
  add_events (add_events st evs1) evs2 = add_events st (evs1 ++ evs2).
Proof. unfold add_events. simpl. now rewrite app_assoc. Qed.

Ltac split_orb H :=
  repeat match type of H with
         | (_ || _)%bool = false =>
             let H1 := fresh "Hne" in
             apply orb_false_iff in H; destruct H as [H1 H]
         end.

Section LeafClaims.

Context {ML : MathLib} {RC : RenderContext} {BE : DrawingBackend}.
Variable self : Frontend.

Lemma dispatch_unhandled (f : DXFGraphic -> M unit) (e : DXFGraphic) :
  in_set (dxftype (data e)) HANDLED_TYPES = false ->
  dispatch self f e = emit (IgnoredEntity e).
Proof.
  intros H. unfold in_set in H. cbn [HANDLED_TYPES COMPOSITE_ENTITY_TYPES app existsb] in H.
  split_orb H.
  unfold dispatch, in_set. cbn [COMPOSITE_ENTITY_TYPES existsb].
  repeat match goal with
         | Hx : (dxftype (data e) =? _)%string = false |- _ => rewrite Hx; clear Hx
         end.
  reflexivity.
Qed.

(** C6. For every entity whose dxftype no branch of [draw_entity] handles,
    [draw_entity] makes exactly three backend calls: it sets the entity
    current (with the ancestor chain), reports it through [ignored_entity]
    once, and clears the current entity; none of them is a draw call. *)
Theorem unsupported_kind_is_ignored (e : DXFGraphic) (st : State) :
  in_set (dxftype (data e)) HANDLED_TYPES = false ->
  let calls := [SetCurrentEntity (Some e) (parent_stack st);
                IgnoredEntity e;
                SetCurrentEntity None []] in
  draw_entity self e st = (Return tt, add_events st calls)
  /\ count is_ignored_entity calls = 1%nat
  /\ count is_draw_call calls = 0%nat.
Proof.
  intros H calls. split; [|split; reflexivity].
  rewrite draw_entity_eq. unfold draw_entity_body.
  rewrite (dispatch_unhandled _ e H).
  unfold bind, parent_stack_tuple. rewrite !emit_spec, !add_events_app.
  reflexivity.
Qed.

(** The state in which the loop of [draw_entities] goes on after an
    opaque entity. *)
Lemma draw_top_level_tag_storage (e : DXFGraphic) (st : State) :
  is_tag_storage (data e) = true ->
  draw_top_level_entity self e st
  = (Return tt, add_events st [Print (IgnoringUnsupported e)]).
Proof.
  intros H. unfold draw_top_level_entity. now rewrite H.
Qed.

(** C5, as amended. For every [DXFTagStorage] object in the sequence given
    to [draw_entities], the frontend prints one informational line and
    makes no call at all on the backend or on the render context for it
    (no [ignored_entity], no draw call, no property resolution, no
    recursion); the entities before it and after it are traversed as
    usual. *)
Theorem tag_storage_is_skipped (before after : list DXFGraphic)
    (e : DXFGraphic) (st : State) :
  is_tag_storage (data e) = true ->
  draw_top_level_entity self e st
  = (Return tt, add_events st [Print (IgnoringUnsupported e)])
  /\ draw_entities self (before ++ e :: after) st
     = (draw_entities self before ;;
        print (IgnoringUnsupported e) ;;
        draw_entities self after) st.
Proof.
  intros H. split; [now apply draw_top_level_tag_storage|].
  unfold draw_entities. rewrite for_each_app.
  apply bind_ext; intros _ st1. simpl.
  unfold bind. now rewrite (draw_top_level_tag_storage e st1 H).
Qed.




End LeafClaims.

(** ** Property resolution and leaf entities *)

Lemma for_each_emit {A} (l : list A) (g : A -> Event) (st : State) :
  for_each l (fun a => emit (g a)) st = (Return tt, add_events st (map g l)).
Proof.
  revert st. induction l as [|a l IH]; intros st; simpl.
  - now rewrite add_events_nil.
  - unfold bind. rewrite emit_spec, IH, add_events_app. reflexivity.
Qed.

Lemma for_each_emit_pairs {A B} (l : list (A * B)) (g : A -> B -> Event)
    (st : State) :
  for_each l (fun '(a, b) => emit (g a b)) st
  = (Return tt, add_events st (map (fun '(a, b) => g a b) l)).
Proof.
  rewrite <- for_each_emit. apply for_each_ext. now intros [a b].
Qed.

Lemma linspace_from_length (s d : float) (n : nat) :
  List.length (linspace_from s d n) = n.
Proof. revert s. induction n; intros s; simpl; [reflexivity | now rewrite IHn]. Qed.

Lemma linspace_from_step (d : float) (n : nat) :
  forall s i, (S i < n)%nat ->
    nth (S i) (linspace_from s d n) 0%float
    = (nth i (linspace_from s d n) 0 + d)%float.
Proof.
  induction n as [|n IH]; intros s i Hi; [lia|].
  destruct i as [|i].
  - destruct n as [|n]; [lia|]. reflexivity.
  - cbn [linspace_from nth]. apply IH. lia.
Qed.

Lemma consecutive_pairs_length {A} (l : list A) :
  List.length (consecutive_pairs l) = (List.length l - 1)%nat.
Proof.
  unfold consecutive_pairs. rewrite length_combine.
  destruct l as [|a l]; cbn [tl List.length]; [reflexivity|].
  rewrite Nat.sub_1_r. cbn [Nat.pred]. apply Nat.min_r. apply Nat.le_succ_diag_r.
Qed.

Section Resolution.

Context {ML : MathLib} {RC : RenderContext} {BE : DrawingBackend}.
Variable self : Frontend.

Lemma _resolve_properties_spec (e : DXFGraphic) (st : State) :
  _resolve_properties self e st = (Return (resolved self e st), after_resolve self e st).
Proof.
  unfold _resolve_properties, resolved, after_resolve, resolution_filter_calls,
    bind, ctx_resolve_all.
  rewrite emit_spec.
  destruct (visibility_filter self) as [f|]; cbn.
  - reflexivity.
  - now rewrite app_nil_r.
Qed.

Lemma after_leaf_eq (e : DXFGraphic) (st : State) (calls : list Event) :
  add_events
    (add_events
       (after_resolve self e
          (add_events st [SetCurrentEntity (Some e) (parent_stack st)]))
       calls)
    [SetCurrentEntity None []]
  = after_leaf self e st calls.
Proof.
  unfold add_events, after_resolve, after_leaf. cbn. f_equal.
  now rewrite <- !app_assoc.
Qed.

(** The frame [draw_entity] puts around a handler that resolves the
    properties of its entity and then only makes the calls [calls p]. *)
Lemma draw_entity_leaf (e : DXFGraphic) (st : State)
    (calls : Properties -> list Event) :
  (forall f st', dispatch self f e st'
                 = (p <- _resolve_properties self e ;;
                    fun st'' => (Return tt, add_events st'' (calls p))) st') ->
  draw_entity self e st = (Return tt, after_leaf self e st (calls (resolved self e st))).
Proof.
  intros H. rewrite draw_entity_eq. unfold draw_entity_body.
  unfold bind at 1. unfold parent_stack_tuple.
  unfold bind at 1. rewrite emit_spec.
  unfold bind at 1. rewrite H.
  unfold bind at 1. rewrite _resolve_properties_spec.
  rewrite emit_spec, after_leaf_eq. reflexivity.
Qed.

Lemma draw_elliptic_arc_entity_3d_spec (e : DXFGraphic) (st : State) (segments : Z) :
  in_set (dxftype (data e)) ["CIRCLE"; "ARC"; "ELLIPSE"] = true ->
  elliptic_arc_segments self (construction_ellipse e) = inr segments ->
  let ce := construction_ellipse e in
  let points :=
    map (ellipse_vertex ce)
        (linspace (ce_start_param ce) (ce_end_param ce) (Z.max 4 (segments + 1))) in
  draw_elliptic_arc_entity_3d self e st
  = (p <- _resolve_properties self e ;;
     fun st' => (Return tt, add_events st' (polyline_calls points p))) st.
Proof.
  intros Hk Hint ce points. subst points ce.
  unfold draw_elliptic_arc_entity_3d.
  apply bind_ext; intros p st1.
  unfold construction_ellipse, in_set in *. cbn [existsb] in *.
  destruct (dxftype (data e) =? "CIRCLE")%string;
    [|destruct (dxftype (data e) =? "ARC")%string;
      [|destruct (dxftype (data e) =? "ELLIPSE")%string; [|discriminate]]];
    cbn [orb];
    unfold bind at 1; unfold ret at 1;
    unfold elliptic_arc_point_count;
    cbv iota in Hint; rewrite Hint; unfold bind at 1; unfold lift, ret at 1;
    unfold bind at 1; rewrite emit_spec;
    unfold bind at 1; rewrite for_each_emit_pairs;
    rewrite emit_spec, !add_events_app; reflexivity.
Qed.

Lemma dispatch_elliptic_arc_3d (f : DXFGraphic -> M unit) (e : DXFGraphic) :
  in_set (dxftype (data e)) ["CIRCLE"; "ARC"; "ELLIPSE"] = true ->
  is_spatial (extrusion (dxf (data e))) = true ->
  dispatch self f e = draw_elliptic_arc_entity_3d self e.
Proof.
  intros Hk Hs. unfold dispatch. rewrite Hk, Hs.
  unfold in_set in Hk. cbn [existsb] in Hk.
  repeat (apply orb_true_iff in Hk; destruct Hk as [Hk|Hk]);
    try discriminate;
    apply String.eqb_eq in Hk; rewrite Hk; reflexivity.
Qed.

(** C3, as amended. For every CIRCLE, ARC or ELLIPSE entity whose
    extrusion is tilted out of plane, for every resolution that converts
    to a float and every parameter span whose product with it [int]
    accepts, with [segments] the integer part of
    (end_param - start_param) / tau * circle_resolution, [draw_entity]
    samples the construction ellipse at exactly max(4, segments + 1)
    parameters: the first one is start_param and each next one is the
    previous one plus the constant step
    (end_param - start_param) / (count - 1); after resolving properties it
    makes one [start_polyline] call, one [draw_line] call per pair of
    consecutive points (one less than there are points) and one
    [end_polyline] call. *)
Theorem tilted_arc_is_sampled (e : DXFGraphic) (st : State) (segments : Z) :
  in_set (dxftype (data e)) ["CIRCLE"; "ARC"; "ELLIPSE"] = true ->
  is_spatial (extrusion (dxf (data e))) = true ->
  elliptic_arc_segments self (construction_ellipse e) = inr segments ->
  let ce := construction_ellipse e in
  let n := Z.max 4 (segments + 1) in
  let params := linspace (ce_start_param ce) (ce_end_param ce) n in
  let points := map (ellipse_vertex ce) params in
  let lines :=
    map (fun '(a, b) => DrawLine a b (resolved self e st)) (consecutive_pairs points) in
  draw_entity self e st
  = (Return tt, after_leaf self e st ([StartPolyline] ++ lines ++ [EndPolyline]))
  /\ Z.of_nat (List.length points) = n
  /\ nth 0 params 0%float = ce_start_param ce
  /\ (forall i, (S i < List.length params)%nat ->
        nth (S i) params 0%float
        = (nth i params 0
           + linspace_step (ce_start_param ce) (ce_end_param ce) n)%float)
  /\ List.length lines = (List.length points - 1)%nat.
Proof.
  intros Hk Hs Hint ce n params points lines.
  assert (Hn : 4 <= n) by (subst n; lia).
  assert (Hparams : params
                    = linspace_from (ce_start_param ce)
                        (linspace_step (ce_start_param ce) (ce_end_param ce) n)
                        (Z.to_nat n)).
  { subst params. unfold linspace.
    destruct (n =? 1) eqn:E; [apply Z.eqb_eq in E; lia | reflexivity]. }
  split; [|split; [|split; [|split]]].
  - apply (draw_entity_leaf e st (polyline_calls points)).
    intros f st'. rewrite (dispatch_elliptic_arc_3d f e Hk Hs).
    apply (draw_elliptic_arc_entity_3d_spec e st' Hk Hint).
  - subst points. rewrite length_map, Hparams, linspace_from_length. lia.
  - rewrite Hparams. destruct (Z.to_nat n) eqn:E; [lia | reflexivity].
  - intros i Hi. rewrite Hparams in *. rewrite linspace_from_length in Hi.
    now apply linspace_from_step.
  - subst lines. now rewrite length_map, consecutive_pairs_length.
Qed.

End Resolution.

(** ** Hatch boundaries *)

Lemma for_each_calls {A} (l : list A) (body : A -> M unit)
    (calls : A -> list Event) :
  (forall a st, In a l -> body a st = (Return tt, add_events st (calls a))) ->
  forall st, for_each l body st = (Return tt, add_events st (flat_map calls l)).
Proof.
  induction l as [|a l IH]; intros H st; simpl.
  - now rewrite add_events_nil.
  - unfold bind. rewrite (H a st (or_introl eq_refl)).
    rewrite IH by (intros b st' Hb; apply H; now right).
    now rewrite add_events_app.
Qed.

Section HatchLoop.

Context {ML : MathLib}.
Variable ocs : Vector.
Variable elevation : float.

Lemma bridge_length_le (last : option Vector) (v : Vector) :
  (List.length (bridge last v) <= 1)%nat.
Proof. unfold bridge. destruct last as [l|]; [destruct (vec_isclose l v)|]; simpl; lia. Qed.

Lemma gap_warning_length (last : option Vector) (s e : float * float) :
  List.length (gap_warning ocs elevation last s e) = List.length (bridge last (start_vertex ocs elevation s)).
Proof.
  unfold gap_warning, bridge.
  destruct last as [l|]; [destruct (vec_isclose l _)|]; reflexivity.
Qed.

Lemma loop_warnings_length (edges : list Edge) :
  forall last, List.length (loop_warnings ocs elevation last edges) = gaps ocs elevation last edges.
Proof.
  induction edges as [|[s e|t] rest IH]; intros last; simpl; try reflexivity.
  now rewrite length_app, gap_warning_length, IH.
Qed.

Lemma loop_vertices_length (edges : list Edge) :
  forallb is_line_edge edges = true ->
  forall last,
    List.length (loop_vertices ocs elevation last edges)
    = (List.length edges + gaps ocs elevation last edges)%nat.
Proof.
  induction edges as [|[s e|t] rest IH]; intros H last; simpl in *;
    try reflexivity; try discriminate.
  rewrite length_app. simpl. rewrite IH by exact H. lia.
Qed.

Lemma loop_last_some (edges : list Edge) (l : Vector) :
  exists l', loop_last ocs elevation (Some l) edges = Some l'.
Proof.
  revert l. induction edges as [|[s e|t] rest IH]; intros l; simpl; eauto.
Qed.

(** The vertices and warnings of a loop made of two parts. *)
Lemma loop_vertices_app (edges1 edges2 : list Edge) :
  forallb is_line_edge edges1 = true ->
  forall last,
    loop_vertices ocs elevation last (edges1 ++ edges2)
    = loop_vertices ocs elevation last edges1 ++ loop_vertices ocs elevation (loop_last ocs elevation last edges1) edges2.
Proof.
  induction edges1 as [|[s e|t] rest IH]; intros H last; simpl in *;
    try reflexivity; try discriminate.
  rewrite IH by exact H. now rewrite <- app_assoc.
Qed.

Lemma loop_warnings_app (edges1 edges2 : list Edge) :
  forallb is_line_edge edges1 = true ->
  forall last,
    loop_warnings ocs elevation last (edges1 ++ edges2)
    = loop_warnings ocs elevation last edges1 ++ loop_warnings ocs elevation (loop_last ocs elevation last edges1) edges2.
Proof.
  induction edges1 as [|[s e|t] rest IH]; intros H last; simpl in *;
    try reflexivity; try discriminate.
  rewrite IH by exact H. now rewrite <- app_assoc.
Qed.

Lemma loop_last_snoc (edges : list Edge) (s e : float * float) :
  forallb is_line_edge edges = true ->
  forall last, loop_last ocs elevation last (edges ++ [LineEdge s e]) = Some (end_vertex ocs elevation e).
Proof.
  induction edges as [|[s' e'|t] rest IH]; intros H last; simpl in *;
    try reflexivity; try discriminate.
  now apply IH.
Qed.

(** The loop of the source computes these vertices and prints these
    warnings. *)
Lemma hatch_edge_loop_spec (edges : list Edge) :
  forallb is_line_edge edges = true ->
  forall vertices last st,
    hatch_edge_loop ocs elevation edges vertices last st
    = (Return (vertices ++ loop_vertices ocs elevation last edges, loop_last ocs elevation last edges),
       add_events st (map Print (loop_warnings ocs elevation last edges))).
Proof.
  induction edges as [|[s e|t] rest IH]; intros H vertices last st;
    simpl in *; try discriminate.
  - now rewrite app_nil_r, add_events_nil.
  - unfold bind at 1. unfold bridge, gap_warning, start_vertex.
    destruct last as [l|].
    + destruct (vec_isclose l _); cbn [negb].
      * unfold ret at 1. rewrite IH by exact H.
        rewrite <- app_assoc. reflexivity.
      * unfold bind at 1. unfold print. rewrite emit_spec. unfold ret at 1.
        rewrite IH by exact H. rewrite add_events_app.
        rewrite <- !app_assoc. reflexivity.
    + unfold ret at 1. rewrite IH by exact H.
      rewrite <- app_assoc. reflexivity.
Qed.

Lemma draw_hatch_path_spec (properties : Properties) (p : BoundaryPath)
    (st : State) :
  is_line_edge_path p = true ->
  draw_hatch_path ocs elevation properties p st
  = (Return tt, add_events st (loop_calls ocs elevation properties p)).
Proof.
  destruct p as [edges|pts]; simpl; [|discriminate]. intros H.
  unfold bind. rewrite hatch_edge_loop_spec by exact H. cbn [app].
  unfold polygon, closing_vertex.
  destruct edges as [|[s e|t] rest]; simpl in *; try discriminate.
  - reflexivity.
  - destruct (loop_last_some rest (end_vertex ocs elevation e)) as [l' ->].
    rewrite emit_spec, add_events_app.
    destruct (vec_isclose l' _); [reflexivity|].
    now rewrite app_nil_r.
Qed.

End HatchLoop.

Section HatchClaims.

Context {ML : MathLib} {RC : RenderContext} {BE : DrawingBackend}.
Variable self : Frontend.
Variable ocs : Vector.
Variable elevation : float.

Lemma gaps_after (edges : list Edge) :
  forallb is_line_edge edges = true ->
  forall s0 e0,
    gaps ocs elevation (Some (end_vertex ocs elevation e0)) edges
    = discontinuities ocs elevation (LineEdge s0 e0 :: edges).
Proof.
  induction edges as [|[s e|t] rest IH]; intros H s0 e0; try discriminate.
  - reflexivity.
  - cbn [gaps]. rewrite (IH H s e).
    cbn [discontinuities]. f_equal.
    unfold bridge, contiguous. destruct (vec_isclose _ _); reflexivity.
Qed.

Lemma gaps_discontinuities (edges : list Edge) :
  forallb is_line_edge edges = true ->
  gaps ocs elevation None edges = discontinuities ocs elevation edges.
Proof.
  destruct edges as [|[s e|t] rest]; intros H; try discriminate.
  - reflexivity.
  - cbn [gaps bridge List.length Nat.add]. now apply gaps_after.
Qed.

Lemma loop_calls_warnings (p : Properties) (edges : list Edge) :
  count is_warning (loop_calls ocs elevation p (EdgePath edges))
  = gaps ocs elevation None edges.
Proof.
  unfold count, loop_calls. rewrite filter_app, length_app.
  rewrite <- loop_warnings_length.
  generalize (loop_warnings ocs elevation None edges) as ws.
  intros ws. replace (filter is_warning (map Print ws)) with (map Print ws).
  - rewrite length_map. destruct edges; simpl; lia.
  - induction ws as [|w ws IH]; simpl; [reflexivity | now rewrite <- IH].
Qed.

Lemma loop_calls_polygons (p : Properties) (edges : list Edge) :
  edges <> [] ->
  count is_draw_call (loop_calls ocs elevation p (EdgePath edges)) = 1%nat.
Proof.
  intros Hne. unfold count, loop_calls. rewrite filter_app, length_app.
  replace (filter is_draw_call (map Print (loop_warnings ocs elevation None edges)))
    with (@nil Event).
  - destruct edges; [contradiction | reflexivity].
  - generalize (loop_warnings ocs elevation None edges) as ws.
    induction ws as [|w ws IH]; simpl; [reflexivity | exact IH].
Qed.

End HatchClaims.

Section HatchTheorem.

Context {ML : MathLib} {RC : RenderContext} {BE : DrawingBackend}.
Variable self : Frontend.

Lemma dispatch_hatch (f : DXFGraphic -> M unit) (e : DXFGraphic) :
  dxftype (data e) = "HATCH" ->
  dispatch self f e = draw_hatch_entity self e.
Proof. intros H. unfold dispatch. rewrite H. reflexivity. Qed.

(** What [draw_hatch_entity] does, loop by loop. For every HATCH entity
    whose normalized boundary paths are edge paths of line edges,
    [draw_entity] does not fail, and for each loop: (1) at every place where the end point kept from one
    edge (world coordinates, z set to 0.0) is not close to the start point
    of the next edge, exactly one bridging vertex, that kept end point, is
    inserted before the start point and exactly one warning is printed,
    and nowhere else; (2) when the end point kept last is close to the
    first vertex, that end point (not the first vertex) is appended once
    more; (3) a loop with at least one edge yields exactly one
    [draw_filled_polygon] call and an empty loop none; (4) a loop without
    discontinuities prints no warning. *)
Theorem hatch_loops_are_bridged_and_closed (e : DXFGraphic) (st : State) :
  dxftype (data e) = "HATCH" ->
  forallb is_line_edge_path (normalized_paths (paths (data e))) = true ->
  let ocs := extrusion (dxf (data e)) in
  let elevation := z (elevation (dxf (data e))) in
  let loops := normalized_paths (paths (data e)) in
  let p := resolved self e st in
  draw_entity self e st
  = (Return tt, after_leaf self e st (flat_map (loop_calls ocs elevation p) loops))
  /\ (forall edges, In (EdgePath edges) loops ->
      let calls := loop_calls ocs elevation p (EdgePath edges) in
      let vertices := loop_vertices ocs elevation None edges in
      count is_warning calls = discontinuities ocs elevation edges
      /\ List.length vertices
         = (List.length edges + discontinuities ocs elevation edges)%nat
      /\ (discontinuities ocs elevation edges = O ->
          count is_warning calls = O /\ List.length vertices = List.length edges)
      /\ (edges = [] -> calls = [])
      /\ (edges <> [] ->
          count is_draw_call calls = 1%nat
          /\ In (DrawFilledPolygon (polygon ocs elevation edges) (ByProperties p))
                calls)
      /\ (forall first rest last,
            vertices = first :: rest ->
            loop_last ocs elevation None edges = Some last ->
            polygon ocs elevation edges
            = vertices ++ (if vec_isclose last first then [last] else []))
      /\ (forall edges1 s1 e1 s2 e2 edges2,
            edges = edges1 ++ LineEdge s1 e1 :: LineEdge s2 e2 :: edges2 ->
            let junction (A : Type) (b : A) : list A :=
              if contiguous ocs elevation e1 s2 then [] else [b] in
            vertices
            = loop_vertices ocs elevation None (edges1 ++ [LineEdge s1 e1])
              ++ junction _ (end_vertex ocs elevation e1)
              ++ start_vertex ocs elevation s2
                 :: loop_vertices ocs elevation
                      (Some (end_vertex ocs elevation e2)) edges2
            /\ loop_warnings ocs elevation None edges
               = loop_warnings ocs elevation None (edges1 ++ [LineEdge s1 e1])
                 ++ junction _ (HatchNotContiguous (end_vertex ocs elevation e1) s2 e2)
                 ++ loop_warnings ocs elevation
                      (Some (end_vertex ocs elevation e2)) edges2)).
Proof.
  intros Hk Hpaths ocs elevation loops p.
  assert (Hloops : forall q, In q loops -> is_line_edge_path q = true).
  { intros q Hq. rewrite forallb_forall in Hpaths. now apply Hpaths. }
  split.
  - apply (draw_entity_leaf self e st
             (fun p => flat_map (loop_calls ocs elevation p) loops)).
    intros f st'. rewrite (dispatch_hatch f e Hk).
    unfold draw_hatch_entity. apply bind_ext; intros q st1.
    apply for_each_calls. intros a st2 Ha.
    apply draw_hatch_path_spec. now apply Hloops.
  - intros edges Hin calls vertices.
    pose proof (Hloops _ Hin) as Hedges. cbn [is_line_edge_path] in Hedges.
    pose proof (gaps_discontinuities ocs elevation edges Hedges) as Hg.
    assert (Hw : count is_warning calls = discontinuities ocs elevation edges).
    { subst calls. now rewrite loop_calls_warnings. }
    assert (Hv : List.length vertices
                 = (List.length edges + discontinuities ocs elevation edges)%nat).
    { subst vertices. now rewrite loop_vertices_length, Hg. }
    split; [exact Hw|]. split; [exact Hv|].
    split; [intros H0; rewrite Hw, Hv, H0; split; lia|].
    split; [intros ->; reflexivity|].
    split.
    { intros Hne. split; [now apply loop_calls_polygons|].
      subst calls. unfold loop_calls. apply in_or_app. right.
      destruct edges; [contradiction | now left]. }
    split.
    { intros first rest last Hf Hl. unfold polygon, closing_vertex.
      subst vertices. rewrite Hf, Hl. reflexivity. }
    intros edges1 s1 e1 s2 e2 edges2 Heq junction.
    assert (H1 : forallb is_line_edge (edges1 ++ [LineEdge s1 e1]) = true).
    { rewrite Heq in Hedges. rewrite forallb_app in *.
      apply andb_true_iff in Hedges as [Ha _]. now rewrite Ha. }
    assert (Hsplit : edges = (edges1 ++ [LineEdge s1 e1]) ++ LineEdge s2 e2 :: edges2).
    { rewrite Heq, <- app_assoc. reflexivity. }
    assert (Hlast : loop_last ocs elevation None (edges1 ++ [LineEdge s1 e1])
                    = Some (end_vertex ocs elevation e1)).
    { apply loop_last_snoc. rewrite forallb_app in H1.
      now apply andb_true_iff in H1 as [Ha _]. }
    split.
    + subst vertices. rewrite Hsplit at 1.
      rewrite loop_vertices_app by exact H1. rewrite Hlast.
      cbn [loop_vertices]. subst junction. unfold bridge, contiguous.
      destruct (vec_isclose _ _); reflexivity.
    + rewrite Hsplit at 1.
      rewrite loop_warnings_app by exact H1. rewrite Hlast.
      cbn [loop_warnings]. subst junction. unfold gap_warning, contiguous.
      destruct (vec_isclose _ _); reflexivity.
Qed.

(** C7, what the code does where the claim fails. The loop keeps the end
    point of an edge with its z set to 0.0 ([.replace(z=0.0)]) and
    compares it with the start point of the next edge, which is left at
    the elevation of the hatch. So for every HATCH whose normalized
    boundary paths are edge paths of line edges, and every two
    consecutive edges of one of its loops that meet exactly (the second
    starts at the very point [p] where the first ends): whenever [p]
    flattened to z = 0.0 is not close to [p] at the elevation of the
    hatch, [draw_entity] prints the warning that the edges are not
    contiguous and inserts the flattened point as a bridging vertex before
    the start point, although the boundary has no gap there. *)
Theorem meeting_edges_are_reported_not_contiguous (e : DXFGraphic) (st : State)
    (edges1 edges2 : list Edge) (s1 p e2 : float * float) :
  dxftype (data e) = "HATCH" ->
  forallb is_line_edge_path (normalized_paths (paths (data e))) = true ->
  let ocs := extrusion (dxf (data e)) in
  let elevation := z (elevation (dxf (data e))) in
  let edges := edges1 ++ LineEdge s1 p :: LineEdge p e2 :: edges2 in
  In (EdgePath edges) (normalized_paths (paths (data e))) ->
  vec_isclose (end_vertex ocs elevation p) (start_vertex ocs elevation p) = false ->
  let st' := snd (draw_entity self e st) in
  fst (draw_entity self e st) = Return tt
  /\ In (Print (HatchNotContiguous (end_vertex ocs elevation p) p e2)) (trace st')
  /\ exists before after,
       In (DrawFilledPolygon
             (before ++ end_vertex ocs elevation p
                     :: start_vertex ocs elevation p :: after)
             (ByProperties (resolved self e st)))
          (trace st').
Proof.
  intros Hk Hpaths ocs elevation edges Hin Hfar st'.
  pose proof (hatch_loops_are_bridged_and_closed e st Hk Hpaths) as H.
  cbv zeta in H. destruct H as [Hrun Hloops].
  specialize (Hloops edges Hin). cbv zeta in Hloops.
  destruct Hloops as (_ & _ & _ & _ & _ & _ & Hj).
  destruct (Hj edges1 s1 p p e2 edges2 eq_refl) as [Hv Hw]. clear Hj.
  fold ocs elevation in Hv, Hw. unfold contiguous in Hv, Hw.
  rewrite Hfar in Hv, Hw.
  subst st'. rewrite Hrun. fold ocs elevation. cbn [fst snd].
  assert (Hcalls : forall ev,
            In ev (loop_calls ocs elevation (resolved self e st) (EdgePath edges)) ->
            In ev (trace (after_leaf self e st
                            (flat_map (loop_calls ocs elevation (resolved self e st))
                                      (normalized_paths (paths (data e))))))).
  { intros ev Hev. unfold after_leaf. cbn [trace].
    apply in_or_app. right. apply in_or_app. right.
    apply in_or_app. left. apply in_flat_map. now exists (EdgePath edges). }
  split; [reflexivity|]. split.
  - apply Hcalls. unfold loop_calls. apply in_or_app. left. apply in_map.
    fold edges in Hw. rewrite Hw.
    apply in_or_app. right. now left.
  - exists (loop_vertices ocs elevation None (edges1 ++ [LineEdge s1 p])),
           (loop_vertices ocs elevation (Some (end_vertex ocs elevation e2)) edges2
            ++ closing_vertex ocs elevation edges).
    apply Hcalls. unfold loop_calls. apply in_or_app. right.
    assert (Hne : edges <> []) by (subst edges; now destruct edges1).
    destruct edges as [|a l] eqn:E; [contradiction|]. rewrite <- E in *.
    left. unfold polygon. fold edges in Hv. rewrite Hv.
    cbn [app]. rewrite <- !app_assoc. reflexivity.
Qed.

End HatchTheorem.

(** ** Dimension-like composites *)

Section CompositeClaims.

Context {ML : MathLib} {RC : RenderContext} {BE : DrawingBackend}.
Variable self : Frontend.

Lemma dispatch_dimension_like (f : DXFGraphic -> M unit) (e : DXFGraphic) :
  in_set (dxftype (data e)) DIMENSION_LIKE_TYPES = true ->
  has_virtual_entities (data e) = true ->
  expansion_error (data e) = None ->
  dispatch self f e
  = (parent_stack_append e ;;
     for_each (map (fun child => set_transparency child 0) (virtual_children e)) f ;;
     parent_stack_pop).
Proof.
  intros Hk Hv Herr. unfold dispatch, draw_composite_entity.
  rewrite Hv, Herr.
  unfold in_set in Hk. cbn [DIMENSION_LIKE_TYPES existsb] in Hk.
  repeat (apply orb_true_iff in Hk; destruct Hk as [Hk|Hk]);
    try discriminate;
    apply String.eqb_eq in Hk; rewrite Hk; reflexivity.
Qed.

(** C4, as amended. For every dimension-like composite entity (DIMENSION,
    ARC_DIMENSION, LARGE_RADIAL_DIMENSION, ACAD_TABLE) whose expansion
    succeeds, [draw_entity] pushes the entity on the ancestor chain, draws
    in order one entity per child of the expansion and pops the chain; the
    entity drawn for a child is the child with its transparency set to
    0.0 (fully opaque), whatever the transparency of the child was, set
    explicitly or not. *)
Theorem dimension_children_are_made_opaque (e : DXFGraphic) (st : State) :
  in_set (dxftype (data e)) DIMENSION_LIKE_TYPES = true ->
  has_virtual_entities (data e) = true ->
  expansion_error (data e) = None ->
  let drawn := map (fun child => set_transparency child 0) (virtual_children e) in
  draw_entity self e st
  = (parents <- parent_stack_tuple ;;
     emit (SetCurrentEntity (Some e) parents) ;;
     (parent_stack_append e ;;
      for_each drawn (draw_entity self) ;;
      parent_stack_pop) ;;
     emit (SetCurrentEntity None [])) st
  /\ List.length drawn = List.length (virtual_children e)
  /\ (forall i child, nth_error (virtual_children e) i = Some child ->
        exists child',
          nth_error drawn i = Some child'
          /\ transparency (data child') = Some 0%float
          /\ handle (data child') = handle (data child)
          /\ dxftype (data child') = dxftype (data child)
          /\ dxf (data child') = dxf (data child)
          /\ attribs child' = attribs child
          /\ virtual_children child' = virtual_children child).
Proof.
  intros Hk Hv Herr drawn. split; [|split].
  - rewrite draw_entity_eq. unfold draw_entity_body.
    now rewrite (dispatch_dimension_like _ e Hk Hv Herr).
  - subst drawn. now rewrite length_map.
  - intros i child Hi. exists (set_transparency child 0).
    subst drawn. rewrite nth_error_map, Hi.
    destruct child as [d a c]. repeat split; reflexivity.
Qed.

End CompositeClaims.

(** ** The visibility filter *)

Lemma emits_ret (p : Properties) {A} (a : A) : emits_with p (ret a).
Proof.
  intros st. exists []. rewrite add_events_nil. split; [reflexivity | constructor].
Qed.

Lemma emits_raise (p : Properties) {A} (exn : Exn) : emits_with p (@raise A exn).
Proof.
  intros st. exists []. rewrite add_events_nil. split; [reflexivity | constructor].
Qed.

Lemma emits_emit (p : Properties) (ev : Event) :
  leaf_call p ev -> emits_with p (emit ev).
Proof. intros H st. exists [ev]. split; [reflexivity | now constructor]. Qed.

Lemma emits_bind (p : Properties) {A B} (c : M A) (k : A -> M B) :
  emits_with p c -> (forall a, emits_with p (k a)) -> emits_with p (bind c k).
Proof.
  intros Hc Hk st. unfold bind.
  destruct (Hc st) as [evs1 [E1 C1]].
  destruct (c st) as [[a|exn] st1]; simpl in E1; subst st1.
  - destruct (Hk a (add_events st evs1)) as [evs2 [E2 C2]].
    exists (evs1 ++ evs2). rewrite E2, add_events_app.
    split; [reflexivity | now apply Forall_app].
  - exists evs1. now split.
Qed.

Lemma emits_for_each (p : Properties) {A} (l : list A) (body : A -> M unit) :
  (forall a, emits_with p (body a)) -> emits_with p (for_each l body).
Proof.
  intros H. induction l as [|a l IH]; simpl.
  - apply emits_ret.
  - apply emits_bind; [apply H | intros _; exact IH].
Qed.

Lemma emits_lift (p : Properties) {A} (r : Exn + A) : emits_with p (lift r).
Proof. destruct r; [apply emits_raise | apply emits_ret]. Qed.

Ltac emits :=
  repeat first
    [ apply emits_ret
    | apply emits_raise
    | apply emits_lift
    | apply emits_emit; repeat split; cbn; intros ? [= <-]; reflexivity
    | apply emits_emit; repeat split; cbn; intros ? [=]
    | apply emits_for_each; intros
    | apply emits_bind; [|intros]
    | match goal with
      | |- emits_with _ (let '(_, _) := ?x in _) => destruct x
      | |- emits_with _ (if ?b then _ else _) => destruct b
      | |- emits_with _ (match ?x with _ => _ end) => destruct x
      end ].

Lemma filters_none (d : nat) {A} (c : M A) :
  (forall st, filter_history (snd (c st)) = filter_history st) ->
  filters_below d c.
Proof. intros H st. exists []. now rewrite app_nil_r, H. Qed.

Lemma filters_mono (d d' : nat) {A} (c : M A) :
  (d <= d')%nat -> filters_below d c -> filters_below d' c.
Proof.
  intros Hd H st. destruct (H st) as (hs & E & F). exists hs. split; [exact E|].
  eapply Forall_impl; [|exact F]. cbn. intros x Hx. lia.
Qed.

Lemma filters_bind (d : nat) {A B} (c : M A) (k : A -> M B) :
  filters_below d c -> (forall a, filters_below d (k a)) ->
  filters_below d (bind c k).
Proof.
  intros Hc Hk st. unfold bind.
  destruct (Hc st) as (hs1 & E1 & F1).
  destruct (c st) as [[a|exn] st1]; cbn [snd] in E1.
  - destruct (Hk a st1) as (hs2 & E2 & F2).
    exists (hs1 ++ hs2). rewrite E2, E1, app_assoc.
    split; [reflexivity | now apply Forall_app].
  - now exists hs1.
Qed.

Lemma filters_for_each (d : nat) {A} (l : list A) (body : A -> M unit) :
  (forall a, In a l -> filters_below d (body a)) ->
  filters_below d (for_each l body).
Proof.
  induction l as [|a l IH]; intros H; cbn [for_each].
  - now apply filters_none.
  - apply filters_bind; [apply H; now left|].
    intros _. apply IH. intros b Hb. apply H. now right.
Qed.

Lemma emits_filters (p : Properties) (d : nat) {A} (c : M A) :
  emits_with p c -> filters_below d c.
Proof.
  intros H. apply filters_none. intros st.
  destruct (H st) as (evs & E & _). now rewrite E.
Qed.

Section FilterClaims.

Context {ML : MathLib} {RC : RenderContext} {BE : DrawingBackend}.
Variable self : Frontend.

Lemma resolve_then (e : DXFGraphic) (k : Properties -> M unit) :
  (forall p, emits_with p (k p)) ->
  resolves_then_emits self e (bind (_resolve_properties self e) k).
Proof.
  intros H st. unfold bind. rewrite _resolve_properties_spec. apply H.
Qed.

Lemma hatch_edge_loop_emits (p : Properties) (ocs : Vector) (elevation : float)
    (edges : list Edge) :
  forall vertices last,
    emits_with p (hatch_edge_loop ocs elevation edges vertices last).
Proof.
  induction edges as [|[s e|t] rest IH]; intros vertices last; simpl.
  - apply emits_ret.
  - apply emits_bind; [|intros; apply IH]. unfold print. emits.
  - apply emits_raise.
Qed.

Lemma draw_line_entity_emits e : resolves_then_emits self e (draw_line_entity self e).
Proof. unfold draw_line_entity. cbv zeta. apply resolve_then. intros p. emits. Qed.

Lemma draw_text_entity_2d_emits e :
  resolves_then_emits self e (draw_text_entity_2d self e).
Proof. unfold draw_text_entity_2d. cbv zeta. apply resolve_then. intros p. emits. Qed.

Lemma draw_elliptic_arc_entity_3d_emits e :
  resolves_then_emits self e (draw_elliptic_arc_entity_3d self e).
Proof.
  unfold draw_elliptic_arc_entity_3d. cbv zeta. apply resolve_then. intros p. emits.
Qed.

Lemma draw_elliptic_arc_entity_2d_emits e :
  resolves_then_emits self e (draw_elliptic_arc_entity_2d self e).
Proof.
  unfold draw_elliptic_arc_entity_2d. cbv zeta. apply resolve_then. intros p. emits.
Qed.

Lemma draw_spline_entity_emits e : resolves_then_emits self e (draw_spline_entity self e).
Proof. unfold draw_spline_entity. cbv zeta. apply resolve_then. intros p. emits. Qed.

Lemma draw_point_entity_emits e : resolves_then_emits self e (draw_point_entity self e).
Proof. unfold draw_point_entity. apply resolve_then. intros p. emits. Qed.

Lemma draw_solid_entity_emits e : resolves_then_emits self e (draw_solid_entity self e).
Proof. unfold draw_solid_entity. cbv zeta. apply resolve_then. intros p. emits. Qed.

Lemma draw_hatch_entity_emits e : resolves_then_emits self e (draw_hatch_entity self e).
Proof.
  unfold draw_hatch_entity. cbv zeta. apply resolve_then. intros p.
  apply emits_for_each. intros [edges|pts]; simpl; [|apply emits_raise].
  apply emits_bind; [apply hatch_edge_loop_emits|]. intros [vertices last]. emits.
Qed.

Lemma draw_mesh_entity_emits e : resolves_then_emits self e (draw_mesh_entity self e).
Proof.
  unfold draw_mesh_entity, draw_mesh_builder_entity. apply resolve_then.
  intros p. emits.
Qed.

Lemma draw_polyline_mesh_emits (f : DXFGraphic -> M unit) e :
  dxftype (data e) = "POLYLINE" ->
  is_polygon_mesh (data e) || is_poly_face_mesh (data e) = true ->
  resolves_then_emits self e (draw_polyline_entity self f e).
Proof.
  intros Hk Hm. unfold draw_polyline_entity, draw_mesh_builder_entity.
  rewrite Hk, Hm. cbn [String.eqb Ascii.eqb Bool.eqb andb].
  apply resolve_then. intros p. emits.
Qed.

Lemma dispatch_resolves (f : DXFGraphic -> M unit) (e : DXFGraphic) :
  resolves_own_properties e = true ->
  resolves_then_emits self e (dispatch self f e).
Proof.
  unfold resolves_own_properties, dispatch, in_set.
  cbn [existsb COMPOSITE_ENTITY_TYPES]. intros H.
  repeat match goal with
         | |- context [(dxftype (data e) =? ?s)%string] =>
             let E := fresh "E" in
             destruct (dxftype (data e) =? s)%string eqn:E;
             [ apply String.eqb_eq in E; try rewrite E in H; try rewrite E;
               cbn [String.eqb Ascii.eqb Bool.eqb orb andb] in H |- *
             | clear E; cbn [orb andb] in H |- * ]
         end;
    try discriminate;
    try (apply draw_polyline_mesh_emits; assumption);
    try (destruct (is_spatial _); [cbn in H; try discriminate|]);
    auto using draw_line_entity_emits, draw_text_entity_2d_emits,
      draw_elliptic_arc_entity_3d_emits, draw_elliptic_arc_entity_2d_emits,
      draw_spline_entity_emits, draw_point_entity_emits, draw_solid_entity_emits,
      draw_hatch_entity_emits, draw_mesh_entity_emits.
Qed.

Lemma resolves_filters (e : DXFGraphic) (c : M unit) :
  resolves_then_emits self e c ->
  forall st, filter_history (snd (c st))
             = filter_history st ++ resolution_filter_calls self e.
Proof. intros H st. destruct (H st) as (evs & E & _). now rewrite E. Qed.

Lemma resolves_filters_below (e : DXFGraphic) (c : M unit) :
  resolves_then_emits self e c -> filters_below (S (depth e)) c.
Proof.
  intros H st. exists (resolution_filter_calls self e).
  split; [now apply resolves_filters|].
  unfold resolution_filter_calls. destruct (visibility_filter self); auto.
Qed.

(** The handler of a polyline that is no mesh evaluates the filter only
    where its children do. *)
Lemma draw_polyline_entity_filters (f : DXFGraphic -> M unit) (e : DXFGraphic) :
  (dxftype (data e) =? "POLYLINE")%string
  && (is_polygon_mesh (data e) || is_poly_face_mesh (data e)) = false ->
  (forall c, In c (virtual_children e) -> filters_below (depth e) (f c)) ->
  filters_below (depth e) (draw_polyline_entity self f e).
Proof.
  intros Hmesh Hf. unfold draw_polyline_entity. rewrite Hmesh.
  apply filters_bind; [now apply filters_none|]. intros _.
  apply filters_bind; [now apply filters_none|]. intros parents.
  apply filters_bind; [now apply filters_none|]. intros _.
  apply filters_bind; [now apply filters_for_each|]. intros _.
  destruct (expansion_error (data e)); [now apply filters_none|].
  apply filters_bind; [|intros _; now apply filters_none].
  apply filters_none. intros st. unfold parent_stack_pop.
  now destruct (parent_stack st).
Qed.

(** The handler of a dimension or table evaluates the filter only where
    its children do. *)
Lemma draw_dimension_like_filters (f : DXFGraphic -> M unit) (e : DXFGraphic) :
  (dxftype (data e) =? "INSERT")%string = false ->
  (forall c, In c (virtual_children e) ->
             filters_below (depth e) (f (set_transparency c 0))) ->
  filters_below (depth e) (draw_composite_entity self f e).
Proof.
  intros Hi Hf. unfold draw_composite_entity. rewrite Hi.
  destruct (has_virtual_entities (data e)); [|now apply filters_none].
  destruct (expansion_error (data e)); [now apply filters_none|].
  apply filters_bind; [now apply filters_none|]. intros _.
  apply filters_bind.
  - apply filters_for_each. intros c Hc.
    apply in_map_iff in Hc as (c0 & <- & Hc0). now apply Hf.
  - intros _. apply filters_none. intros st. unfold parent_stack_pop.
    now destruct (parent_stack st).
Qed.

(** The handler of a block reference evaluates the filter on the
    reference once, when it resolves its properties, and then only where
    its attribs and its content do. *)
Lemma draw_insert_filters (f : DXFGraphic -> M unit) (e : DXFGraphic) :
  dxftype (data e) = "INSERT" ->
  (forall c, In c (attribs e) -> filters_below (depth e) (f c)) ->
  (forall c, In c (virtual_children e) -> filters_below (depth e) (f c)) ->
  forall st, exists hs,
    filter_history (snd (draw_composite_entity self f e st))
    = filter_history st ++ resolution_filter_calls self e ++ hs
    /\ Forall (fun x => (depth x < depth e)%nat) hs.
Proof.
  intros Hk Ha Hc st. unfold draw_composite_entity. rewrite Hk.
  cbn [String.eqb Ascii.eqb Bool.eqb].
  unfold bind at 1. rewrite _resolve_properties_spec.
  match goal with
  | |- context [snd (?c ?s0)] =>
      assert (H : filters_below (depth e) c)
  end.
  { apply filters_bind; [now apply filters_none|]. intros _.
    apply filters_bind; [now apply filters_none|]. intros _.
    apply filters_bind; [now apply filters_for_each|]. intros _.
    destruct (expansion_error (data e)); [now apply filters_none|].
    apply filters_bind; [now apply filters_for_each|]. intros _.
    apply filters_bind.
    - apply filters_none. intros s. unfold parent_stack_pop.
      now destruct (parent_stack s).
    - intros _. apply filters_none. intros s. unfold ctx_pop_state.
      now destruct (ctx_stack s). }
  match goal with
  | |- context [snd (?c ?s0)] => destruct (H s0) as (hs & E & F)
  end.
  exists hs. rewrite E. cbn [filter_history after_resolve].
  now rewrite <- app_assoc.
Qed.

Lemma dispatch_composite (f : DXFGraphic -> M unit) (e : DXFGraphic) :
  in_set (dxftype (data e)) ["POLYLINE"; "LWPOLYLINE"] = false ->
  in_set (dxftype (data e)) COMPOSITE_ENTITY_TYPES = true ->
  dispatch self f e = draw_composite_entity self f e.
Proof.
  intros Hp Hk. unfold dispatch. rewrite Hp, Hk.
  unfold in_set in Hk. cbn [COMPOSITE_ENTITY_TYPES existsb] in Hk.
  repeat (apply orb_true_iff in Hk; destruct Hk as [Hk|Hk]);
    try discriminate Hk;
    apply String.eqb_eq in Hk; now rewrite Hk.
Qed.

Lemma dispatch_polyline_kind (f : DXFGraphic -> M unit) (e : DXFGraphic) :
  in_set (dxftype (data e)) ["POLYLINE"; "LWPOLYLINE"] = true ->
  dispatch self f e = draw_polyline_entity self f e.
Proof.
  intros Hk. unfold dispatch. rewrite Hk.
  unfold in_set in Hk. cbn [existsb] in Hk.
  repeat (apply orb_true_iff in Hk; destruct Hk as [Hk|Hk]);
    try discriminate Hk;
    apply String.eqb_eq in Hk; now rewrite Hk.
Qed.

(** Every filter call [dispatch] makes for [e] is on [e] or on an entity
    below it. *)
Lemma dispatch_filters (f : DXFGraphic -> M unit) (e : DXFGraphic) :
  (forall c, (depth c < depth e)%nat -> filters_below (depth e) (f c)) ->
  filters_below (S (depth e)) (dispatch self f e).
Proof.
  intros Hf.
  assert (Ha : forall c, In c (attribs e) -> filters_below (depth e) (f c)).
  { intros c Hc. apply Hf. now apply depth_attribs. }
  assert (Hc : forall c, In c (virtual_children e) -> filters_below (depth e) (f c)).
  { intros c Hin. apply Hf. now apply depth_virtual_children. }
  assert (Ho : forall c, In c (virtual_children e) ->
                 filters_below (depth e) (f (set_transparency c 0))).
  { intros c Hin. apply Hf. rewrite depth_set_transparency.
    now apply depth_virtual_children. }
  destruct (in_set (dxftype (data e)) ["POLYLINE"; "LWPOLYLINE"]) eqn:Hp.
  - rewrite (dispatch_polyline_kind f e Hp).
    destruct ((dxftype (data e) =? "POLYLINE")%string
              && (is_polygon_mesh (data e) || is_poly_face_mesh (data e))) eqn:Hm.
    + apply resolves_filters_below.
      apply andb_true_iff in Hm as [Hk Hm]. apply String.eqb_eq in Hk.
      now apply draw_polyline_mesh_emits.
    + apply filters_mono with (d := depth e); [lia|].
      now apply draw_polyline_entity_filters.
  - destruct (in_set (dxftype (data e)) COMPOSITE_ENTITY_TYPES) eqn:Hk.
    + rewrite (dispatch_composite f e Hp Hk).
      destruct (dxftype (data e) =? "INSERT")%string eqn:Hi.
      * apply String.eqb_eq in Hi. intros st.
        destruct (draw_insert_filters f e Hi Ha Hc st) as (hs & E & F).
        exists (resolution_filter_calls self e ++ hs). split; [exact E|].
        apply Forall_app. split.
        -- unfold resolution_filter_calls. destruct (visibility_filter self); auto.
        -- eapply Forall_impl; [|exact F]. cbn. intros x Hx. lia.
      * apply filters_mono with (d := depth e); [lia|].
        now apply draw_dimension_like_filters.
    + unfold dispatch. rewrite Hp, Hk.
      repeat match goal with
             | |- filters_below _ (if ?b then _ else _) => destruct b
             end;
        try (apply resolves_filters_below;
             auto using draw_line_entity_emits, draw_text_entity_2d_emits,
               draw_elliptic_arc_entity_3d_emits, draw_elliptic_arc_entity_2d_emits,
               draw_spline_entity_emits, draw_point_entity_emits,
               draw_solid_entity_emits, draw_hatch_entity_emits,
               draw_mesh_entity_emits; fail);
        try (now apply filters_none).
      apply (emits_filters (p := resolve_all [] e)).
      unfold draw_viewport_entity, print. cbv zeta. emits.
Qed.

Lemma draw_entity_rec_filters (n : nat) :
  forall e, filters_below (S (depth e)) (draw_entity_rec self n e).
Proof.
  induction n as [|n IH]; intros e; cbn [draw_entity_rec].
  - now apply filters_none.
  - unfold draw_entity_body.
    apply filters_bind; [now apply filters_none|]. intros parents.
    apply filters_bind; [now apply filters_none|]. intros _.
    apply filters_bind; [|intros _; now apply filters_none].
    apply dispatch_filters. intros c Hc.
    apply filters_mono with (d := S (depth c)); [lia | apply IH].
Qed.

(** Below a top-level entity every filter call is on a descendant. *)
Lemma draw_entity_filters_children (e c : DXFGraphic) :
  (depth c < depth e)%nat -> filters_below (depth e) (draw_entity self c).
Proof.
  intros Hc. apply filters_mono with (d := S (depth c)); [lia|].
  apply draw_entity_rec_filters.
Qed.

Lemma below_not_In (e : DXFGraphic) (hs : list DXFGraphic) :
  Forall (fun x => (depth x < depth e)%nat) hs -> ~ In e hs.
Proof.
  intros F Hin. rewrite Forall_forall in F. specialize (F e Hin). lia.
Qed.

(** What [dispatch] adds to the filter history for an entity whose
    handler resolves no properties of the entity. *)
Lemma dispatch_without_resolution (e : DXFGraphic) :
  resolves_own_properties e = false ->
  dxftype (data e) <> "INSERT" ->
  filters_below (depth e) (dispatch self (draw_entity self) e)
  /\ (in_set (dxftype (data e)) COMPOSITE_ENTITY_TYPES = false ->
      forall st, filter_history (snd (dispatch self (draw_entity self) e st))
                 = filter_history st).
Proof.
  intros Hres Hni.
  assert (Hc : forall c, In c (virtual_children e) ->
                 filters_below (depth e) (draw_entity self c)).
  { intros c Hin. apply draw_entity_filters_children.
    now apply depth_virtual_children. }
  assert (Ho : forall c, In c (virtual_children e) ->
                 filters_below (depth e) (draw_entity self (set_transparency c 0))).
  { intros c Hin. apply draw_entity_filters_children.
    rewrite depth_set_transparency. now apply depth_virtual_children. }
  destruct (in_set (dxftype (data e)) ["POLYLINE"; "LWPOLYLINE"]) eqn:Hp.
  - assert (Hk : in_set (dxftype (data e)) COMPOSITE_ENTITY_TYPES = true).
    { pose proof Hp as Hp'. unfold in_set in Hp'. cbn [existsb] in Hp'.
      repeat (apply orb_true_iff in Hp'; destruct Hp' as [Hp'|Hp']);
        try discriminate Hp';
        apply String.eqb_eq in Hp'; now rewrite Hp'. }
    split; [|intros Hn; rewrite Hn in Hk; discriminate].
    rewrite (dispatch_polyline_kind _ e Hp).
    apply draw_polyline_entity_filters; [|exact Hc].
    destruct ((dxftype (data e) =? "POLYLINE")%string
              && (is_polygon_mesh (data e) || is_poly_face_mesh (data e))) eqn:Hm;
      [|reflexivity].
    unfold resolves_own_properties in Hres. rewrite Hm in Hres.
    now rewrite !orb_true_r in Hres.
  - destruct (in_set (dxftype (data e)) COMPOSITE_ENTITY_TYPES) eqn:Hk.
    + split; [|discriminate].
      rewrite (dispatch_composite _ e Hp Hk).
      apply draw_dimension_like_filters; [|exact Ho].
      destruct (dxftype (data e) =? "INSERT")%string eqn:Hi; [|reflexivity].
      apply String.eqb_eq in Hi. contradiction.
    + assert (Hnone : forall st,
                filter_history (snd (dispatch self (draw_entity self) e st))
                = filter_history st).
      { unfold dispatch. rewrite Hp, Hk.
        unfold resolves_own_properties in Hres.
        apply orb_false_iff in Hres as [Hres _].
        apply orb_false_iff in Hres as [Hres H3].
        apply orb_false_iff in Hres as [H1 H2].
        rewrite H1.
        assert (Hkinds :
                  in_set (dxftype (data e)) ["CIRCLE"; "ARC"; "ELLIPSE"] = false
                  /\ (dxftype (data e) =? "SPLINE")%string = false
                  /\ (dxftype (data e) =? "POINT")%string = false
                  /\ (dxftype (data e) =? "HATCH")%string = false
                  /\ (dxftype (data e) =? "MESH")%string = false
                  /\ in_set (dxftype (data e)) ["3DFACE"; "SOLID"; "TRACE"] = false).
        { unfold in_set in *. cbn [existsb] in *. split_orb H3.
          repeat match goal with
                 | Hx : (dxftype (data e) =? _)%string = false |- _ =>
                     rewrite Hx; clear Hx
                 end.
          repeat split. }
        destruct Hkinds as (-> & -> & -> & -> & -> & ->).
        destruct (in_set (dxftype (data e)) ["TEXT"; "MTEXT"; "ATTRIB"]) eqn:Ht.
        - cbn [andb] in H2. apply negb_false_iff in H2. rewrite H2.
          reflexivity.
        - destruct (dxftype (data e) =? "VIEWPORT")%string; [|reflexivity].
          intros st.
          assert (Hv : emits_with (resolve_all [] e) (draw_viewport_entity e)).
          { unfold draw_viewport_entity, print. cbv zeta. emits. }
          destruct (Hv st) as (evs & E & _). now rewrite E. }
      split; [now apply filters_none | intros _; exact Hnone].
Qed.

(** The filter history after one round of the loop of [draw_entities]
    for an admitted entity: the call that admitted it, then the calls of
    its handler. *)
Lemma draw_top_level_entity_filters
    (f : list DXFGraphic -> DXFGraphic -> bool) (e : DXFGraphic) (st : State) :
  visibility_filter self = Some f ->
  is_tag_storage (data e) = false ->
  f (filter_history st) e = true ->
  exists s1,
    filter_history s1 = filter_history st ++ [e]
    /\ filter_history (snd (draw_top_level_entity self e st))
       = filter_history (snd (dispatch self (draw_entity self) e s1)).
Proof.
  intros Hf Htag Hadm.
  unfold draw_top_level_entity. rewrite Htag, Hf.
  unfold bind at 1. unfold call_visibility_filter. rewrite Hadm.
  unfold with_new_parent_stack. rewrite draw_entity_eq.
  unfold draw_entity_body. unfold bind at 1. unfold parent_stack_tuple.
  unfold bind at 1. rewrite emit_spec. unfold bind at 1.
  match goal with
  | |- context [dispatch self ?g e ?s] =>
      exists s; split; [reflexivity|];
      destruct (dispatch self g e s) as [[[]|exn] s2]; reflexivity
  end.
Qed.

(** C10, as amended. When a visibility filter is supplied, and a
    top-level entity that is not tag storage is admitted by it: (1) if
    the handler of the entity is a non-recursive one that resolves the
    properties of the entity (LINE, XLINE, RAY, planar TEXT, MTEXT and
    ATTRIB, CIRCLE, ARC, ELLIPSE, SPLINE, POINT, HATCH, MESH, 3DFACE, SOLID,
    TRACE, POLYLINE meshes), the filter is
    evaluated on the entity exactly twice, once to decide inclusion and
    once during property resolution; the properties every later call for
    the entity hands over have as [is_visible] the result of the second
    evaluation, not of the first; they are visible when the filter is
    deterministic; (2) for an INSERT the filter is evaluated on the entity
    exactly twice as well, and after that only on its attribs and on the
    content of its block; (3) for every other entity (VIEWPORT, tilted
    TEXT, MTEXT and ATTRIB, unsupported kinds, polylines that are no mesh,
    dimensions and tables) the filter is evaluated on the entity exactly
    once, to decide inclusion; the evaluations that follow are on the
    virtual entities of a polyline, dimension or table, and there are
    none for the other kinds. *)
Theorem filter_is_evaluated_again_on_resolution
    (f : list DXFGraphic -> DXFGraphic -> bool) (e : DXFGraphic) (st : State) :
  visibility_filter self = Some f ->
  is_tag_storage (data e) = false ->
  f (filter_history st) e = true ->
  let st' := snd (draw_top_level_entity self e st) in
  let second := f (filter_history st ++ [e]) e in
  (resolves_own_properties e = true ->
   exists calls,
     trace st'
     = trace st ++ [SetCurrentEntity (Some e) []; ResolveAll e] ++ calls
     /\ filter_history st' = filter_history st ++ [e; e]
     /\ (forall ev q, In ev calls -> event_properties ev = Some q ->
           is_visible q = second)
     /\ (deterministic f ->
         forall ev q, In ev calls -> event_properties ev = Some q ->
           is_visible q = true))
  /\ (dxftype (data e) = "INSERT" ->
      exists below,
        filter_history st' = filter_history st ++ [e; e] ++ below
        /\ ~ In e below)
  /\ (resolves_own_properties e = false ->
      dxftype (data e) <> "INSERT" ->
      exists below,
        filter_history st' = filter_history st ++ [e] ++ below
        /\ ~ In e below
        /\ (in_set (dxftype (data e)) COMPOSITE_ENTITY_TYPES = false ->
            below = [])).
Proof.
  intros Hf Htag Hadm st' second.
  split; [|split].
  - intros Hres.
    assert (Hrun : exists calls,
              trace st'
              = trace st ++ [SetCurrentEntity (Some e) []; ResolveAll e] ++ calls
              /\ filter_history st' = filter_history st ++ [e; e]
              /\ carry (set_is_visible (resolve_all (ctx_stack st) e) second) calls).
    { subst st'. remember (draw_top_level_entity self e st) as r eqn:Hr.
      unfold draw_top_level_entity in Hr. rewrite Htag, Hf in Hr.
      unfold bind at 1 in Hr. unfold call_visibility_filter in Hr.
      rewrite Hadm in Hr. unfold with_new_parent_stack in Hr.
      rewrite draw_entity_eq in Hr.
      unfold draw_entity_body in Hr. unfold bind at 1 in Hr.
      unfold parent_stack_tuple in Hr.
      unfold bind at 1 in Hr. rewrite emit_spec in Hr. cbn [parent_stack] in Hr.
      unfold bind at 1 in Hr.
      match type of Hr with
      | context [dispatch self ?g e ?s] =>
          destruct (dispatch_resolves g e Hres s) as [evs [E C]];
          destruct (dispatch self g e s) as [[[]|exn] st2]
      end; cbn [snd] in E; subst st2;
        unfold resolved in C; rewrite Hf in C; cbn in C.
      - exists (evs ++ [SetCurrentEntity None []]). rewrite emit_spec in Hr.
        subst r. unfold after_resolve, resolution_filter_calls. rewrite Hf. cbn.
        rewrite <- !app_assoc. repeat split.
        apply Forall_app. split; [exact C|]. constructor; [|constructor].
        repeat split. cbn. intros q [=].
      - exists evs. subst r. unfold after_resolve, resolution_filter_calls.
        rewrite Hf. cbn.
        rewrite <- !app_assoc. repeat split. exact C. }
    destruct Hrun as [calls [Ht [Hh Hc]]]. exists calls.
    split; [exact Ht|]. split; [exact Hh|].
    assert (Hsecond : forall ev q, In ev calls -> event_properties ev = Some q ->
                        is_visible q = second).
    { intros ev q Hin Hq. unfold carry in Hc. rewrite Forall_forall in Hc.
      rewrite (proj1 (Hc ev Hin) q Hq). reflexivity. }
    split; [exact Hsecond|].
    intros Hdet ev q Hin Hq. rewrite (Hsecond ev q Hin Hq).
    subst second. now rewrite (Hdet _ (filter_history st) e).
  - intros Hk.
    destruct (draw_top_level_entity_filters e st Hf Htag Hadm) as (s1 & H1 & Hh).
    subst st'. rewrite Hh.
    rewrite (dispatch_composite (draw_entity self) e)
      by (rewrite Hk; reflexivity).
    destruct (draw_insert_filters (draw_entity self) e Hk) with (st := s1)
      as (below & E & F).
    + intros c Hc. apply draw_entity_filters_children. now apply depth_attribs.
    + intros c Hc. apply draw_entity_filters_children.
      now apply depth_virtual_children.
    + exists below. split; [|now apply below_not_In].
      rewrite E, H1. unfold resolution_filter_calls. rewrite Hf.
      now rewrite <- !app_assoc.
  - intros Hres Hni.
    destruct (draw_top_level_entity_filters e st Hf Htag Hadm) as (s1 & H1 & Hh).
    destruct (dispatch_without_resolution e Hres Hni) as [Hbelow Hnone].
    destruct (Hbelow s1) as (below & E & F).
    exists below. subst st'. rewrite Hh, E, H1.
    split; [now rewrite <- app_assoc|]. split; [now apply below_not_In|].
    intros Hleaf. specialize (Hnone Hleaf s1). rewrite E in Hnone.
    rewrite <- (app_nil_r (filter_history s1)) in Hnone at 2.
    now apply app_inv_head in Hnone.
Qed.

End FilterClaims.

(** ** Block references whose expansion fails *)

Section InsertFailure.

Context {ML : MathLib} {RC : RenderContext} {BE : DrawingBackend}.
Variable self : Frontend.

Lemma dispatch_insert (f : DXFGraphic -> M unit) (e : DXFGraphic) :
  dxftype (data e) = "INSERT" ->
  dispatch self f e = draw_composite_entity self f e.
Proof. intros H. unfold dispatch. rewrite H. reflexivity. Qed.

(** C1, what the code does where the claim fails. For every INSERT
    without attached attributes whose [virtual_entities()] raises,
    [draw_entity] returns normally after one [push_state] call and no
    [pop_state] call: the render context keeps the pushed properties and
    the shared ancestor list keeps the entity. *)
Theorem insert_expansion_failure_leaks_state (e : DXFGraphic) (exn : Exn)
    (st : State) :
  dxftype (data e) = "INSERT" ->
  attribs e = [] ->
  expansion_error (data e) = Some exn ->
  let p := resolved self e st in
  let calls := [SetCurrentEntity (Some e) (parent_stack st); ResolveAll e;
                PushState p; Print (InsertChildrenFailed exn);
                SetCurrentEntity None []] in
  draw_entity self e st
  = (Return tt,
     {| trace := trace st ++ calls;
        ctx_stack := p :: ctx_stack st;
        parent_stack := parent_stack st ++ [e];
        filter_history := filter_history st ++ resolution_filter_calls self e |})
  /\ count is_push_state calls = 1%nat
  /\ count is_pop_state calls = 0%nat.
Proof.
  intros Hk Ha Herr p calls. split; [|split; reflexivity].
  rewrite draw_entity_eq. unfold draw_entity_body.
  rewrite (dispatch_insert _ e Hk). unfold draw_composite_entity.
  rewrite Hk, Ha, Herr. cbn [String.eqb Ascii.eqb Bool.eqb for_each].
  unfold bind at 1. unfold parent_stack_tuple.
  unfold bind at 1. rewrite emit_spec.
  unfold bind at 1. unfold bind at 1. rewrite _resolve_properties_spec.
  unfold bind, ctx_push_state, parent_stack_append, ret, print.
  rewrite !emit_spec. unfold add_events, after_resolve. cbn.
  subst p calls. unfold resolved. cbn.
  rewrite <- !app_assoc. reflexivity.
Qed.

End InsertFailure.

(** ** Traversals in which every block reference expands *)

Lemma count_app (p : Event -> bool) (l1 l2 : list Event) :
  count p (l1 ++ l2) = (count p l1 + count p l2)%nat.
Proof. unfold count. now rewrite filter_app, length_app. Qed.

Lemma balanced_step_refl (st : State) : balanced_step st st.
Proof.
  repeat split. exists []. now rewrite app_nil_r.
Qed.

Lemma balanced_step_trans (st1 st2 st3 : State) :
  balanced_step st1 st2 -> balanced_step st2 st3 -> balanced_step st1 st3.
Proof.
  intros (Hc1 & Hp1 & evs1 & Ht1 & Hn1) (Hc2 & Hp2 & evs2 & Ht2 & Hn2).
  split; [congruence|]. split; [congruence|].
  exists (evs1 ++ evs2). split.
  - now rewrite Ht2, Ht1, app_assoc.
  - rewrite !count_app. lia.
Qed.

Lemma balanced_step_events (st : State) (evs : list Event) :
  count is_push_state evs = count is_pop_state evs ->
  balanced_step st (add_events st evs).
Proof. intros H. repeat split. now exists evs. Qed.

Lemma bind_Return {A B} (c : M A) (k : A -> M B) (st st' : State) (b : B) :
  bind c k st = (Return b, st') ->
  exists a st1, c st = (Return a, st1) /\ k a st1 = (Return b, st').
Proof.
  unfold bind. destruct (c st) as [[a|exn] st1]; [|discriminate].
  intros H. now exists a, st1.
Qed.

Lemma balanced_ret {A} (a : A) : balanced (ret a).
Proof. intros st b st' [= _ <-]. apply balanced_step_refl. Qed.

Lemma balanced_raise {A} (exn : Exn) : balanced (@raise A exn).
Proof. intros st b st' [=]. Qed.

Lemma balanced_bind {A B} (c : M A) (k : A -> M B) :
  balanced c -> (forall a, balanced (k a)) -> balanced (bind c k).
Proof.
  intros Hc Hk st b st' H. apply bind_Return in H as (a & st1 & H1 & H2).
  eapply balanced_step_trans; [eapply Hc | eapply Hk]; eassumption.
Qed.

Lemma balanced_for_each {A} (l : list A) (body : A -> M unit) :
  (forall a, In a l -> balanced (body a)) -> balanced (for_each l body).
Proof.
  induction l as [|a l IH]; intros H; simpl.
  - apply balanced_ret.
  - apply balanced_bind; [apply H; now left|].
    intros _. apply IH. intros b Hb. apply H. now right.
Qed.

Lemma carry_counts (p : Properties) (evs : list Event) :
  carry p evs -> count is_push_state evs = O /\ count is_pop_state evs = O.
Proof.
  unfold carry, count. induction 1 as [|ev evs (_ & Hpush & Hpop) _ IH]; simpl.
  - now split.
  - now rewrite Hpush, Hpop.
Qed.

Lemma emits_balanced (p : Properties) {A} (c : M A) :
  emits_with p c -> balanced c.
Proof.
  intros H st a st' Hrun. destruct (H st) as (evs & E & C).
  rewrite Hrun in E. cbn in E. subst st'.
  apply balanced_step_events. destruct (carry_counts C) as [-> ->]. reflexivity.
Qed.

Lemma balanced_emit (ev : Event) :
  is_push_state ev = false -> is_pop_state ev = false -> balanced (emit ev).
Proof.
  intros Hpush Hpop st [] st' H. rewrite emit_spec in H. injection H as <-.
  apply balanced_step_events. unfold count. cbn. now rewrite Hpush, Hpop.
Qed.

Lemma removelast_snoc {A} (l : list A) (a : A) : removelast (l ++ [a]) = l.
Proof. apply removelast_last. Qed.

Ltac inv H := inversion H; subst; clear H.

Section Balance.

Context {ML : MathLib} {RC : RenderContext} {BE : DrawingBackend}.
Variable self : Frontend.

Lemma resolves_balanced (e : DXFGraphic) (c : M unit) :
  resolves_then_emits self e c -> balanced c.
Proof.
  intros H st a st' Hrun. destruct (H st) as (evs & E & C).
  rewrite Hrun in E. cbn in E. subst st'.
  repeat split. exists (ResolveAll e :: evs). split.
  - cbn. now rewrite <- app_assoc.
  - rewrite (count_app _ [ResolveAll e] evs), (count_app _ [ResolveAll e] evs).
    destruct (carry_counts C) as [-> ->]. reflexivity.
Qed.

Lemma draw_viewport_entity_balanced (e : DXFGraphic) :
  balanced (draw_viewport_entity e).
Proof.
  apply (emits_balanced (p := resolve_all [] e)).
  unfold draw_viewport_entity, print. cbv zeta. emits.
Qed.

(** The part of a composite handler between the append to the ancestor
    list and the pop from it. *)
Lemma framed_balanced (e : DXFGraphic) (inner : M unit) (st st' : State) :
  balanced inner ->
  (parent_stack_append e ;; inner ;; parent_stack_pop) st = (Return tt, st') ->
  balanced_step st st'.
Proof.
  intros Hinner H.
  apply bind_Return in H as (? & s1 & H1 & H).
  apply bind_Return in H as (? & s2 & H2 & H).
  inv H1. apply Hinner in H2 as (Hc & Hp & evs & Ht & Hn).
  cbn in Hc, Hp, Ht. unfold parent_stack_pop in H. rewrite Hp in H.
  destruct (parent_stack st ++ [e]) eqn:E; [now destruct (parent_stack st)|].
  rewrite <- E in H. rewrite removelast_snoc in H. inv H.
  cbn. repeat split; try assumption. now exists evs.
Qed.

Lemma draw_polyline_entity_balanced (f : DXFGraphic -> M unit) (e : DXFGraphic) :
  (forall c, In c (virtual_children e) -> balanced (f c)) ->
  balanced (draw_polyline_entity self f e).
Proof.
  intros Hf. unfold draw_polyline_entity.
  destruct (_ && _) eqn:Hmesh.
  - apply (resolves_balanced (e := e)). apply resolve_then. intros p.
    unfold draw_mesh_builder_entity. emits.
  - intros st [] st' H.
    apply bind_Return in H as (? & s1 & H1 & H). inv H1.
    apply bind_Return in H as (ps & s2 & H2 & H). inv H2.
    apply bind_Return in H as (? & s3 & H3 & H). inv H3.
    apply bind_Return in H as (? & s4 & H4 & H).
    apply (balanced_for_each _ _ Hf) in H4 as (Hc & Hp & evs & Ht & Hn).
    cbn in Hc, Hp, Ht.
    destruct (expansion_error (data e)); [discriminate|].
    apply bind_Return in H as (? & s5 & H5 & H). inv H.
    unfold parent_stack_pop in H5. rewrite Hp in H5.
    destruct (parent_stack st ++ [e]) eqn:E; [now destruct (parent_stack st)|].
    rewrite <- E in H5. rewrite removelast_snoc in H5. inv H5.
    cbn. split; [assumption|]. split; [reflexivity|].
    eexists. split.
    + rewrite Ht, <- !app_assoc. reflexivity.
    + rewrite !count_app, Hn. reflexivity.
Qed.

Lemma draw_composite_entity_balanced (f : DXFGraphic -> M unit) (e : DXFGraphic) :
  (dxftype (data e) = "INSERT" -> expansion_error (data e) = None) ->
  (forall c, In c (attribs e) -> balanced (f c)) ->
  (forall c, In c (virtual_children e) -> balanced (f c)) ->
  (forall c, In c (virtual_children e) -> balanced (f (set_transparency c 0))) ->
  balanced (draw_composite_entity self f e).
Proof.
  intros Hins Ha Hc Ho. unfold draw_composite_entity.
  destruct (dxftype (data e) =? "INSERT")%string eqn:Hk.
  - apply String.eqb_eq in Hk. rewrite (Hins Hk).
    intros st [] st' H.
    apply bind_Return in H as (p & s1 & H1 & H).
    rewrite _resolve_properties_spec in H1. inv H1.
    apply bind_Return in H as (? & s2 & H2 & H). inv H2.
    apply bind_Return in H as (? & s3 & H3 & H). inv H3.
    apply bind_Return in H as (? & s4 & H4 & H).
    apply (balanced_for_each _ _ Ha) in H4 as (Hc4 & Hp4 & evs4 & Ht4 & Hn4).
    apply bind_Return in H as (? & s5 & H5 & H).
    apply (balanced_for_each _ _ Hc) in H5 as (Hc5 & Hp5 & evs5 & Ht5 & Hn5).
    apply bind_Return in H as (? & s6 & H6 & H).
    cbn in Hc4, Hp4, Ht4.
    unfold parent_stack_pop in H6. rewrite Hp5, Hp4 in H6.
    destruct (parent_stack st ++ [e]) eqn:E; [now destruct (parent_stack st)|].
    rewrite <- E in H6. rewrite removelast_snoc in H6. inv H6.
    unfold ctx_pop_state in H. cbn in H. rewrite Hc5, Hc4 in H.
    inv H. cbn. split; [reflexivity|]. split; [reflexivity|].
    eexists. split.
    + rewrite Ht5, Ht4, <- !app_assoc. reflexivity.
    + rewrite !count_app, Hn4, Hn5. unfold count. cbn. lia.
  - destruct (has_virtual_entities (data e)); [|apply balanced_raise].
    destruct (expansion_error (data e)).
    + unfold print. now apply balanced_emit.
    + intros st [] st' H. eapply framed_balanced in H; [exact H|].
      apply balanced_for_each. intros c Hin.
      apply in_map_iff in Hin as (c0 & <- & Hin0). now apply Ho.
Qed.

Lemma inserts_expand_Entity (e : DXFGraphic) :
  inserts_expand e = true ->
  (dxftype (data e) = "INSERT" -> expansion_error (data e) = None)
  /\ (forall c, In c (attribs e) -> inserts_expand c = true)
  /\ (forall c, In c (virtual_children e) -> inserts_expand c = true).
Proof.
  destruct e as [d a c]. cbn [inserts_expand data attribs virtual_children].
  intros H. apply andb_true_iff in H as [H Hc].
  apply andb_true_iff in H as [Hd Ha].
  rewrite forallb_forall in Ha, Hc. repeat split; try assumption.
  intros Hk. rewrite Hk in Hd. cbn in Hd.
  now destruct (expansion_error d).
Qed.

Lemma inserts_expand_set_transparency (e : DXFGraphic) (v : float) :
  inserts_expand (set_transparency e v) = inserts_expand e.
Proof. destruct e as [d a c]. reflexivity. Qed.

Lemma dispatch_balanced (f : DXFGraphic -> M unit) (e : DXFGraphic) :
  inserts_expand e = true ->
  (forall c, inserts_expand c = true -> balanced (f c)) ->
  balanced (dispatch self f e).
Proof.
  intros He Hf. apply inserts_expand_Entity in He as (Hins & Ha & Hc).
  unfold dispatch.
  repeat match goal with
         | |- balanced (if ?b then _ else _) => destruct b
         end;
    try (now apply balanced_emit);
    try apply balanced_ret;
    try apply draw_viewport_entity_balanced;
    try (apply (resolves_balanced (e := e));
         auto using draw_line_entity_emits, draw_text_entity_2d_emits,
           draw_elliptic_arc_entity_3d_emits, draw_elliptic_arc_entity_2d_emits,
           draw_spline_entity_emits, draw_point_entity_emits,
           draw_solid_entity_emits, draw_hatch_entity_emits,
           draw_mesh_entity_emits; fail).
  - apply draw_polyline_entity_balanced. auto.
  - apply draw_composite_entity_balanced; auto.
    intros c Hin. apply Hf. rewrite inserts_expand_set_transparency. auto.
Qed.

Lemma draw_entity_rec_balanced (n : nat) :
  forall e, inserts_expand e = true -> balanced (draw_entity_rec self n e).
Proof.
  induction n as [|n IH]; intros e He; cbn [draw_entity_rec].
  - apply balanced_raise.
  - unfold draw_entity_body.
    apply balanced_bind; [intros st a st' [= _ <-]; apply balanced_step_refl|].
    intros parents. apply balanced_bind; [now apply balanced_emit|].
    intros _. apply balanced_bind; [now apply dispatch_balanced|].
    intros _. now apply balanced_emit.
Qed.

(** Where no block reference of the tree fails to expand, a call of
    [draw_entity] that returns has restored the render context and the
    ancestor list, and has made as many [push_state] as [pop_state]
    calls. *)
Theorem draw_entity_balanced (e : DXFGraphic) :
  inserts_expand e = true -> balanced (draw_entity self e).
Proof. intros He. now apply draw_entity_rec_balanced. Qed.

(** X12. Where no block reference of the sequence fails to expand, a
    traversal by [draw_entities] that returns has restored the render
    context and has made as many [push_state] as [pop_state] calls,
    whichever entities the filter or the layer state admitted. *)
Theorem draw_entities_balanced (entities : list DXFGraphic) (st st' : State) :
  forallb inserts_expand entities = true ->
  draw_entities self entities st = (Return tt, st') ->
  ctx_stack st' = ctx_stack st
  /\ exists evs, trace st' = trace st ++ evs
                 /\ count is_push_state evs = count is_pop_state evs.
Proof.
  revert st. unfold draw_entities.
  induction entities as [|e rest IH]; intros st Hall H; simpl in *.
  - inv H. split; [reflexivity|]. exists []. now rewrite app_nil_r.
  - apply andb_true_iff in Hall as [He Hrest].
    apply bind_Return in H as (? & s1 & H1 & H).
    destruct (IH s1 Hrest H) as (Hc & evs & Ht & Hn).
    assert (Hstep : ctx_stack s1 = ctx_stack st
                    /\ exists evs1, trace s1 = trace st ++ evs1
                       /\ count is_push_state evs1 = count is_pop_state evs1).
    { unfold draw_top_level_entity in H1.
      destruct (is_tag_storage (data e)).
      - inv H1. split; [reflexivity|]. now exists [Print (IgnoringUnsupported e)].
      - assert (Hdraw : forall s s', with_new_parent_stack (draw_entity self e) s
                                     = (Return tt, s') ->
                          ctx_stack s' = ctx_stack s
                          /\ exists evs1, trace s' = trace s ++ evs1
                             /\ count is_push_state evs1 = count is_pop_state evs1).
        { intros s s' Hd. unfold with_new_parent_stack in Hd.
          apply (draw_entity_balanced e He) in Hd as (Hc1 & _ & Hev). now split. }
        destruct (visibility_filter self) as [flt|].
        + apply bind_Return in H1 as (v & s0 & H0 & H1).
          unfold call_visibility_filter in H0. destruct v; inv H0.
          * destruct x0. apply Hdraw in H1. exact H1.
          * inv H1. split; [reflexivity|]. exists []. now rewrite app_nil_r.
        + apply bind_Return in H1 as (v & s0 & H0 & H1).
          unfold ctx_is_visible in H0. rewrite emit_spec in H0.
          destruct v; inv H0.
          * destruct x0. apply Hdraw in H1 as (Hc1 & evs1 & Ht1 & Hn1).
            split; [exact Hc1|]. exists (IsVisible e :: evs1). split.
            -- rewrite Ht1. cbn. now rewrite <- app_assoc.
            -- rewrite (count_app _ [IsVisible e] evs1),
                 (count_app _ [IsVisible e] evs1), Hn1. reflexivity.
          * inv H1. split; [reflexivity|]. now exists [IsVisible e]. }
    destruct Hstep as (Hc1 & evs1 & Ht1 & Hn1).
    split; [congruence|]. exists (evs1 ++ evs). split.
    + now rewrite Ht, Ht1, app_assoc.
    + rewrite !count_app. lia.
Qed.

End Balance.

(** ** Primitive extraction *)

Section ExtractionClaims.

Import Disassemble.
Context {PL : PathLib}.

Lemma make_primitive_unsupported (e : DXFGraphic) :
  unsupported e = true -> make_primitive e = inr empty_primitive.
Proof.
  unfold unsupported, make_primitive. cbv zeta.
  destruct (is_tag_storage (data e)); [reflexivity|].
  cbn [orb]. unfold in_set. cbn [SUPPORTED_TYPES existsb]. intros H.
  apply negb_true_iff in H. split_orb H.
  repeat match goal with
         | Hx : (dxftype (data e) =? _)%string = false |- _ => rewrite Hx; clear Hx
         end.
  reflexivity.
Qed.

Lemma to_primitives_unsupported (entities : list DXFGraphic) :
  forallb unsupported entities = true ->
  to_primitives entities = inr (map (fun _ => empty_primitive) entities).
Proof.
  induction entities as [|e rest IH]; intros H; simpl in *; [reflexivity|].
  apply andb_true_iff in H as [He Hrest].
  now rewrite (make_primitive_unsupported e He), (IH Hrest).
Qed.

Lemma to_vertices_empty (n : nat) :
  to_vertices (repeat empty_primitive n) = [].
Proof. induction n; simpl; [reflexivity | exact IHn]. Qed.

(** C9. For every entity of an unsupported kind (a tag storage object or
    an entity whose dxftype is none of the supported ones),
    [make_primitive] returns, without raising, the primitive whose path
    and mesh are both absent; the vertices of that primitive are the
    empty sequence; and the primitives of a batch of N such entities are N
    such primitives, with no vertex at all. *)
Theorem unsupported_entity_gives_empty_primitive (e : DXFGraphic) :
  unsupported e = true ->
  make_primitive e = inr empty_primitive
  /\ path empty_primitive = None
  /\ mesh empty_primitive = None
  /\ vertices empty_primitive = []
  /\ (forall entities,
        forallb unsupported entities = true ->
        exists primitives,
          to_primitives entities = inr primitives
          /\ List.length primitives = List.length entities
          /\ List.length (to_vertices primitives) = 0%nat)
  /\ (forall n,
        to_primitives (repeat e n) = inr (repeat empty_primitive n)
        /\ to_vertices (repeat empty_primitive n) = []).
Proof.
  intros H. split; [now apply make_primitive_unsupported|].
  repeat split.
  - intros entities Hall. exists (map (fun _ => empty_primitive) entities).
    split; [now apply to_primitives_unsupported|].
    split; [now rewrite length_map|].
    induction entities as [|a rest IH]; simpl in *; [reflexivity|].
    apply andb_true_iff in Hall as [_ Hrest]. now apply IH.
  - induction n as [|n IH]; simpl; [reflexivity|].
    now rewrite (make_primitive_unsupported e H), IH.
  - apply to_vertices_empty.
Qed.

End ExtractionClaims.

(** * Further properties of the frontend *)

(** ** The handlers of the simple entities *)

Ltac kind_cases Hk :=
  unfold in_set in Hk; cbn [existsb] in Hk;
  repeat (apply orb_true_iff in Hk; destruct Hk as [Hk|Hk]);
  try discriminate Hk;
  apply String.eqb_eq in Hk.

Section SimpleHandlers.

Context {ML : MathLib} {RC : RenderContext} {BE : DrawingBackend}.
Variable self : Frontend.

(** X1. For every LINE, XLINE and RAY, [draw_entity] returns normally
    after resolving the properties and making exactly one [draw_line]
    call: from start to end for a LINE; for an XLINE the segment of length
    25 along the unit vector (its z dropped) centered on the start point;
    for a RAY the segment from the start point to the start point plus
    that vector. The [TypeError] branch of the handler is never taken. *)
Theorem line_entities_draw_one_segment (e : DXFGraphic) (st : State) :
  in_set (dxftype (data e)) ["LINE"; "XLINE"; "RAY"] = true ->
  let d := dxf (data e) in
  let p := resolved self e st in
  draw_entity self e st
  = (Return tt,
     after_leaf self e st [DrawLine (fst (line_segment e)) (snd (line_segment e)) p])
  /\ (dxftype (data e) = "LINE" -> line_segment e = (start d, end_ d))
  /\ (dxftype (data e) = "XLINE" ->
      line_segment e = (vec_sub (start d) (vec_div (line_delta d) 2),
                        vec_add (start d) (vec_div (line_delta d) 2)))
  /\ (dxftype (data e) = "RAY" ->
      line_segment e = (start d, vec_add (start d) (line_delta d))).
Proof.
  intros Hk d p. split.
  - apply (draw_entity_leaf self e st
             (fun p => [DrawLine (fst (line_segment e)) (snd (line_segment e)) p])).
    intros f st'. unfold dispatch. rewrite Hk.
    unfold draw_line_entity, line_segment, line_delta. cbv zeta.
    apply bind_ext; intros q s.
    kind_cases Hk; rewrite Hk; cbn [String.eqb Ascii.eqb Bool.eqb in_set existsb orb];
      rewrite emit_spec; reflexivity.
  - unfold line_segment.
    split; [|split]; intros ->; reflexivity.
Qed.

(** X2. For every CIRCLE, ARC and ELLIPSE whose extrusion is close to +Z
    or to -Z, [draw_entity] returns normally after resolving the
    properties and making exactly one [draw_arc] call. A CIRCLE is drawn
    as a full ellipse (no draw angles) of width and height twice the
    radius; an ARC with the same sizes and the draw angles of its start
    and end angles converted to radians; an ELLIPSE with width twice the
    length of the major axis and height ratio times the width, at its
    stored center. The center of a CIRCLE or ARC is converted to world
    coordinates only when the entity has an extrusion attribute. *)
Theorem planar_arcs_draw_one_arc (e : DXFGraphic) (st : State) :
  in_set (dxftype (data e)) ["CIRCLE"; "ARC"; "ELLIPSE"] = true ->
  is_spatial (extrusion (dxf (data e))) = false ->
  let d := dxf (data e) in
  let p := resolved self e st in
  let center_wcs :=
    if has_extrusion d then ocs_to_wcs (extrusion d) (center d) else center d in
  draw_entity self e st = (Return tt, after_leaf self e st [arc_call e p])
  /\ (dxftype (data e) = "CIRCLE" ->
      arc_call e p = DrawArc center_wcs (2 * radius d) (2 * radius d) 0 None p)
  /\ (dxftype (data e) = "ARC" ->
      arc_call e p
      = DrawArc center_wcs (2 * radius d) (2 * radius d) 0
          (Some (get_draw_angles (radians (start_angle d)) (radians (end_angle d))
                                 (extrusion d))) p)
  /\ (dxftype (data e) = "ELLIPSE" ->
      arc_call e p
      = DrawArc (center d) (2 * vec_magnitude (major_axis d))
          (ratio d * (2 * vec_magnitude (major_axis d)))
          (normalize_angle (atan2 (y (major_axis d)) (x (major_axis d))))
          (Some (get_draw_angles (start_param d) (end_param d) (extrusion d))) p).
Proof.
  intros Hk Hs d p center_wcs. split.
  - apply (draw_entity_leaf self e st (fun p => [arc_call e p])).
    intros f st'. unfold dispatch. rewrite Hk, Hs.
    assert (Hnot : in_set (dxftype (data e)) ["LINE"; "XLINE"; "RAY"] = false
                   /\ in_set (dxftype (data e)) ["TEXT"; "MTEXT"; "ATTRIB"] = false).
    { kind_cases Hk; rewrite Hk; split; reflexivity. }
    destruct Hnot as [-> ->].
    unfold draw_elliptic_arc_entity_2d, arc_call. cbv zeta.
    apply bind_ext; intros q s.
    kind_cases Hk; rewrite Hk; cbn [String.eqb Ascii.eqb Bool.eqb];
      rewrite emit_spec; reflexivity.
  - unfold arc_call, _get_arc_wcs_center. fold d. subst center_wcs.
    split; [|split]; intros ->; reflexivity.
Qed.

(** X3. For every SPLINE, [draw_entity] returns normally after resolving
    the properties. When the backend has spline support it makes exactly
    one [draw_spline] call and no other call; otherwise it never calls
    [draw_spline]: it makes one [start_polyline] call, one [draw_line]
    call per pair of consecutive points of the approximation with
    [spline_resolution] segments, and one [end_polyline] call. *)
Theorem spline_is_passed_on_or_flattened (e : DXFGraphic) (st : State) :
  dxftype (data e) = "SPLINE" ->
  let p := resolved self e st in
  let spline := spline_construction_tool e in
  let points := spline_approximate spline (spline_resolution self) in
  draw_entity self e st = (Return tt, after_leaf self e st (spline_calls self e p))
  /\ (has_spline_support = true -> spline_calls self e p = [DrawSpline spline p])
  /\ (has_spline_support = false ->
      spline_calls self e p
      = [StartPolyline]
        ++ map (fun '(a, b) => DrawLine a b p) (consecutive_pairs points)
        ++ [EndPolyline]
      /\ count is_draw_call (spline_calls self e p) = (List.length points - 1)%nat).
Proof.
  intros Hk p spline points. split; [|split].
  - apply (draw_entity_leaf self e st (spline_calls self e)).
    intros f st'. unfold dispatch. rewrite Hk.
    cbn [in_set existsb String.eqb Ascii.eqb Bool.eqb orb].
    unfold draw_spline_entity, spline_calls, polyline_calls. cbv zeta.
    apply bind_ext; intros q s.
    destruct has_spline_support.
    + now rewrite emit_spec.
    + unfold bind. rewrite emit_spec, for_each_emit_pairs, emit_spec.
      now rewrite !add_events_app.
  - intros H. unfold spline_calls. now rewrite H.
  - intros H. unfold spline_calls, polyline_calls. rewrite H. split; [reflexivity|].
    fold spline points. unfold count.
    cbn [app filter is_draw_call]. rewrite filter_app. cbn [filter is_draw_call].
    rewrite app_nil_r, <- (consecutive_pairs_length points).
    rewrite <- (length_map (fun '(a, b) => DrawLine a b p) (consecutive_pairs points)).
    f_equal. generalize (consecutive_pairs points) as l.
    induction l as [|[a b] l IH]; cbn; [reflexivity | now rewrite IH].
Qed.

(** X4. For every 3DFACE, SOLID and TRACE, [draw_entity] returns
    normally after resolving the properties. A SOLID or TRACE gives
    exactly one [draw_filled_polygon] call on its corner points; a 3DFACE
    gives no polygon but one [draw_line] call per pair of consecutive
    corner points. Only the corners of a TRACE that has an extrusion
    attribute are converted to world coordinates; those of a SOLID and of
    a 3DFACE are drawn as stored. *)
Theorem solids_are_filled_and_faces_outlined (e : DXFGraphic) (st : State) :
  in_set (dxftype (data e)) ["3DFACE"; "SOLID"; "TRACE"] = true ->
  let p := resolved self e st in
  let points := solid_points e in
  let calls :=
    if in_set (dxftype (data e)) ["SOLID"; "TRACE"]
    then [DrawFilledPolygon points (ByProperties p)]
    else map (fun '(a, b) => DrawLine a b p) (consecutive_pairs points) in
  draw_entity self e st = (Return tt, after_leaf self e st calls)
  /\ (dxftype (data e) = "SOLID" ->
      calls = [DrawFilledPolygon (get_tri_or_quad_points e) (ByProperties p)])
  /\ (dxftype (data e) = "TRACE" ->
      calls = [DrawFilledPolygon
                 (if has_extrusion (dxf (data e))
                  then map (ocs_to_wcs (extrusion (dxf (data e))))
                           (get_tri_or_quad_points e)
                  else get_tri_or_quad_points e)
                 (ByProperties p)])
  /\ (dxftype (data e) = "3DFACE" ->
      calls = map (fun '(a, b) => DrawLine a b p)
                  (consecutive_pairs (get_tri_or_quad_points e))
      /\ List.length calls = (List.length (get_tri_or_quad_points e) - 1)%nat).
Proof.
  intros Hk p points calls. split.
  - apply (draw_entity_leaf self e st
             (fun p => if in_set (dxftype (data e)) ["SOLID"; "TRACE"]
                       then [DrawFilledPolygon points (ByProperties p)]
                       else map (fun '(a, b) => DrawLine a b p)
                                (consecutive_pairs points))).
    intros f st'.
    assert (Hd : dispatch self f e = draw_solid_entity self e).
    { unfold dispatch. kind_cases Hk; rewrite Hk; reflexivity. }
    rewrite Hd. unfold draw_solid_entity. cbv zeta.
    apply bind_ext; intros q s. subst points. unfold solid_points.
    destruct (in_set (dxftype (data e)) ["SOLID"; "TRACE"]).
    + now rewrite emit_spec.
    + now rewrite for_each_emit_pairs.
  - subst calls points. unfold solid_points.
    split; [|split]; intros Ht; rewrite Ht;
      cbn [in_set existsb String.eqb Ascii.eqb Bool.eqb orb andb]; try reflexivity.
    split; [reflexivity|]. now rewrite length_map, consecutive_pairs_length.
Qed.

(** X5. For every MESH, and for every POLYLINE that is a polygon mesh or
    a polyface mesh, [draw_entity] returns normally after resolving the
    properties and making one [draw_filled_polygon] call per face, in the
    order of the faces; a mesh POLYLINE is not expanded into virtual
    entities and the ancestor list is not touched. *)
Theorem meshes_draw_one_polygon_per_face (e : DXFGraphic) (st : State) :
  dxftype (data e) = "MESH"
  \/ (dxftype (data e) = "POLYLINE"
      /\ is_polygon_mesh (data e) || is_poly_face_mesh (data e) = true) ->
  let p := resolved self e st in
  let calls :=
    map (fun face => DrawFilledPolygon face (ByProperties p)) (faces_drawn e) in
  draw_entity self e st = (Return tt, after_leaf self e st calls)
  /\ List.length calls = List.length (faces_drawn e)
  /\ count is_draw_call calls = List.length (faces_drawn e).
Proof.
  intros Hk p calls. split; [|split].
  - apply (draw_entity_leaf self e st
             (fun p => map (fun face => DrawFilledPolygon face (ByProperties p))
                           (faces_drawn e))).
    intros f st'. unfold dispatch, faces_drawn.
    destruct Hk as [Hk|[Hk Hm]]; rewrite Hk;
      cbn [in_set existsb String.eqb Ascii.eqb Bool.eqb orb].
    + unfold draw_mesh_entity, draw_mesh_builder_entity.
      apply bind_ext; intros q s. now rewrite for_each_emit.
    + unfold draw_polyline_entity, draw_mesh_builder_entity. rewrite Hk, Hm.
      cbn [String.eqb Ascii.eqb Bool.eqb andb].
      apply bind_ext; intros q s. now rewrite for_each_emit.
  - subst calls. now rewrite length_map.
  - subst calls. unfold count. generalize (faces_drawn e) as l.
    induction l as [|a l IH]; cbn; [reflexivity | now rewrite IH].
Qed.

(** X6. For every TEXT, MTEXT and ATTRIB: when the extrusion is close to
    +Z or to -Z, [draw_entity] resolves the properties and makes one
    [draw_text] call per chunk of the simplified text, in order; when the
    extrusion is tilted, it makes no call at all between setting the
    entity current and clearing it: nothing is drawn, no properties are
    resolved, and the entity is not reported as ignored. *)
Theorem text_is_drawn_in_plane_only (e : DXFGraphic) (st : State) :
  in_set (dxftype (data e)) ["TEXT"; "MTEXT"; "ATTRIB"] = true ->
  let p := resolved self e st in
  let chunks := simplified_text_chunks e in
  (is_spatial (extrusion (dxf (data e))) = false ->
   draw_entity self e st
   = (Return tt,
      after_leaf self e st
        (map (fun '(line, transform, cap_height) =>
                DrawText line transform p cap_height) chunks)))
  /\ (is_spatial (extrusion (dxf (data e))) = true ->
      draw_entity self e st
      = (Return tt,
         add_events st [SetCurrentEntity (Some e) (parent_stack st);
                        SetCurrentEntity None []])).
Proof.
  intros Hk p chunks.
  assert (Hnot : in_set (dxftype (data e)) ["LINE"; "XLINE"; "RAY"] = false).
  { kind_cases Hk; rewrite Hk; reflexivity. }
  split; intros Hs.
  - apply (draw_entity_leaf self e st
             (fun p => map (fun '(line, transform, cap_height) =>
                              DrawText line transform p cap_height) chunks)).
    intros f st'. unfold dispatch. rewrite Hnot, Hk, Hs.
    unfold draw_text_entity_2d. cbv zeta. rewrite Hk.
    apply bind_ext; intros q s. subst chunks.
    generalize (simplified_text_chunks e) as l. intros l. revert s.
    induction l as [|[[line tr] h] l IH]; intros s; cbn [for_each map].
    + now rewrite add_events_nil.
    + unfold bind. rewrite emit_spec, IH, add_events_app. reflexivity.
  - rewrite draw_entity_eq. unfold draw_entity_body, dispatch.
    rewrite Hnot, Hk, Hs. unfold draw_text_entity_3d, bind, parent_stack_tuple, ret.
    rewrite !emit_spec, add_events_app. reflexivity.
Qed.

End SimpleHandlers.

(** ** What every traversal keeps *)

Lemma grows_refl (st : State) : grows st st.
Proof.
  repeat split; [exists [] | exists [] | exists [] | exists []];
    rewrite ?app_nil_r; auto.
Qed.

Lemma grows_trans (st1 st2 st3 : State) :
  grows st1 st2 -> grows st2 st3 -> grows st1 st3.
Proof.
  intros ((e1 & Ht1 & Hi1) & (p1 & Hp1) & (c1 & Hc1) & (h1 & Hh1))
         ((e2 & Ht2 & Hi2) & (p2 & Hp2) & (c2 & Hc2) & (h2 & Hh2)).
  repeat split.
  - exists (e1 ++ e2). rewrite Ht2, Ht1, app_assoc, forallb_app, Hi1, Hi2. auto.
  - exists (p1 ++ p2). now rewrite Hp2, Hp1, app_assoc.
  - exists (c2 ++ c1). now rewrite Hc2, Hc1, app_assoc.
  - exists (h1 ++ h2). now rewrite Hh2, Hh1, app_assoc.
Qed.

Lemma grows_events (st : State) (evs : list Event) :
  forallb is_inner_call evs = true -> grows st (add_events st evs).
Proof.
  intros H. repeat split; cbn.
  - now exists evs.
  - exists []. now rewrite app_nil_r.
  - now exists [].
  - exists []. now rewrite app_nil_r.
Qed.

Lemma removelast_keeps_prefix {A} (l ps : list A) (a : A) :
  exists ps', removelast ((l ++ [a]) ++ ps) = l ++ ps'.
Proof.
  destruct ps as [|b ps] using rev_ind.
  - exists []. now rewrite !app_nil_r, removelast_last.
  - exists (a :: ps). rewrite app_assoc, removelast_last.
    now rewrite <- app_assoc.
Qed.

Lemma tl_keeps_suffix {A} (cs l : list A) (a : A) :
  exists cs', tl (cs ++ a :: l) = cs' ++ l.
Proof.
  destruct cs as [|b cs]; cbn.
  - now exists [].
  - exists (cs ++ [a]). now rewrite <- app_assoc.
Qed.

Section Keeping.

Context {ML : MathLib} {RC : RenderContext} {BE : DrawingBackend}.
Variable self : Frontend.
Variable ok : Exn -> Prop.
Hypothesis ok_TypeError : forall t, ok (TypeError t).
Hypothesis ok_AssertionError : ok AssertionError.
Hypothesis ok_ValueError : ok ValueError.
Hypothesis ok_OverflowError : ok OverflowError.

Lemma keeps_ret {A} (Q : A -> Prop) (a : A) : Q a -> keeps ok Q (ret a).
Proof. intros H st. split; [apply grows_refl | exact H]. Qed.

Lemma keeps_raise {A} (Q : A -> Prop) (exn : Exn) :
  ok exn -> keeps ok Q (@raise A exn).
Proof. intros H st. split; [apply grows_refl | exact H]. Qed.

Lemma keeps_emit (ev : Event) :
  is_inner_call ev = true -> keeps ok anything (emit ev).
Proof.
  intros H st. rewrite emit_spec. split; [|exact I].
  apply grows_events. cbn. now rewrite H.
Qed.

Lemma post_bind {A B} (Q : A -> Prop) (Q' : B -> Prop) (c : M A) (k : A -> M B)
    (st s : State) :
  keeps ok Q c -> grows st s ->
  (forall a s1, Q a -> grows st s1 -> grows s s1 -> post ok Q' st (k a s1)) ->
  post ok Q' st (bind c k s).
Proof.
  intros Hc Hg Hk. unfold bind. destruct (Hc s) as [Hg1 Ho].
  destruct (c s) as [[a|exn] s1]; cbn [fst snd] in *.
  - apply Hk; [exact Ho | eapply grows_trans; eassumption | exact Hg1].
  - split; [eapply grows_trans; eassumption | exact Ho].
Qed.

Lemma keeps_bind {A B} (Q : A -> Prop) (Q' : B -> Prop) (c : M A) (k : A -> M B) :
  keeps ok Q c -> (forall a, Q a -> keeps ok Q' (k a)) -> keeps ok Q' (bind c k).
Proof.
  intros Hc Hk st.
  apply post_bind with (Q := Q); [exact Hc | apply grows_refl |].
  intros a s1 Ha Hg _. destruct (Hk a Ha s1) as [Hg1 Ho].
  split; [eapply grows_trans; eassumption | exact Ho].
Qed.

Lemma keeps_for_each {A} (l : list A) (body : A -> M unit) :
  (forall a, In a l -> keeps ok anything (body a)) ->
  keeps ok anything (for_each l body).
Proof.
  induction l as [|a l IH]; intros H; simpl.
  - now apply keeps_ret.
  - apply (keeps_bind (Q := anything)); [apply H; now left|].
    intros _ _. apply IH. intros b Hb. apply H. now right.
Qed.

Lemma keeps_resolve (e : DXFGraphic) :
  keeps ok anything (_resolve_properties self e).
Proof.
  intros st. rewrite _resolve_properties_spec. split; [|exact I].
  repeat split; cbn.
  - now exists [ResolveAll e].
  - exists []. now rewrite app_nil_r.
  - now exists [].
  - now exists (resolution_filter_calls self e).
Qed.

Lemma int_raises (x : float) (exn : Exn) : int x = inl exn -> ok exn.
Proof.
  unfold int. destruct (Prim2SF x); intros [= <-]; assumption.
Qed.

Lemma keeps_point_count (ce : ConstructionEllipse) :
  keeps ok anything (lift (elliptic_arc_point_count self ce)).
Proof.
  unfold elliptic_arc_point_count, elliptic_arc_segments, int_as_float.
  destruct (PrimFloat.is_infinity _); cbn [lift]; [now apply keeps_raise|].
  destruct (int _) as [exn|n] eqn:E; cbn [lift].
  - apply keeps_raise. now apply int_raises in E.
  - now apply keeps_ret.
Qed.

Ltac keeping :=
  repeat first
    [ apply keeps_ret; exact I
    | apply keeps_raise; auto; fail
    | apply keeps_resolve
    | apply keeps_point_count
    | apply keeps_emit; reflexivity
    | apply keeps_for_each; intros
    | apply (keeps_bind (Q := anything)); [|intros]
    | match goal with
      | |- keeps _ _ (let '(_, _) := ?x in _) => destruct x
      | |- keeps _ _ (if ?b then _ else _) => destruct b
      | |- keeps _ _ (match ?x with _ => _ end) => destruct x
      end ].

Lemma keeps_line (e : DXFGraphic) : keeps ok anything (draw_line_entity self e).
Proof. unfold draw_line_entity. cbv zeta. keeping. Qed.

Lemma keeps_text_2d (e : DXFGraphic) :
  keeps ok anything (draw_text_entity_2d self e).
Proof. unfold draw_text_entity_2d. cbv zeta. keeping. Qed.

Lemma keeps_arc_3d (e : DXFGraphic) :
  keeps ok anything (draw_elliptic_arc_entity_3d self e).
Proof. unfold draw_elliptic_arc_entity_3d. cbv zeta. keeping. Qed.

Lemma keeps_arc_2d (e : DXFGraphic) :
  keeps ok anything (draw_elliptic_arc_entity_2d self e).
Proof. unfold draw_elliptic_arc_entity_2d. cbv zeta. keeping. Qed.

Lemma keeps_spline (e : DXFGraphic) : keeps ok anything (draw_spline_entity self e).
Proof. unfold draw_spline_entity. cbv zeta. keeping. Qed.

Lemma keeps_point (e : DXFGraphic) : keeps ok anything (draw_point_entity self e).
Proof. unfold draw_point_entity. keeping. Qed.

Lemma keeps_solid (e : DXFGraphic) : keeps ok anything (draw_solid_entity self e).
Proof. unfold draw_solid_entity. cbv zeta. keeping. Qed.

Lemma keeps_mesh (e : DXFGraphic) : keeps ok anything (draw_mesh_entity self e).
Proof. unfold draw_mesh_entity, draw_mesh_builder_entity. keeping. Qed.

Lemma keeps_viewport (e : DXFGraphic) :
  keeps ok anything (draw_viewport_entity e).
Proof. unfold draw_viewport_entity, print. cbv zeta. keeping. Qed.

(** The loop over the edges of a hatch path never ends with vertices and
    without a last vertex. *)
Lemma keeps_hatch_edge_loop (ocs : Vector) (elevation : float) (edges : list Edge) :
  forall vertices last,
    (vertices <> [] -> last <> None) ->
    keeps ok (fun r => fst r <> [] -> snd r <> None)
          (hatch_edge_loop ocs elevation edges vertices last).
Proof.
  induction edges as [|[s e|t] rest IH]; intros vertices last Hpre; simpl.
  - now apply keeps_ret.
  - apply (keeps_bind (Q := anything)).
    + unfold print. keeping.
    + intros vs _. apply IH. discriminate.
  - now apply keeps_raise.
Qed.

Lemma keeps_hatch (e : DXFGraphic) : keeps ok anything (draw_hatch_entity self e).
Proof.
  unfold draw_hatch_entity. cbv zeta.
  apply (keeps_bind (Q := anything)); [apply keeps_resolve|]. intros p _.
  apply keeps_for_each. intros [edges|pts] _; simpl; [|now apply keeps_raise].
  eapply keeps_bind; [apply keeps_hatch_edge_loop; now intros []|].
  intros [vertices last] Hq. cbn [fst snd] in Hq.
  destruct vertices as [|v vs]; [now apply keeps_ret|].
  destruct last as [l|]; [apply keeps_emit; reflexivity|].
  exfalso. now apply Hq.
Qed.

Lemma escaping_errors_Entity (d : EntityData) (a c : list DXFGraphic) :
  escaping_errors (Entity d a c)
  = (if in_set (dxftype d) ["POLYLINE"; "LWPOLYLINE"]
     then match expansion_error d with Some exn => [exn] | None => [] end
     else [])
    ++ flat_map escaping_errors a ++ flat_map escaping_errors c.
Proof. reflexivity. Qed.

Lemma escaping_errors_parts (e : DXFGraphic) :
  Forall ok (escaping_errors e) ->
  (forall exn, in_set (dxftype (data e)) ["POLYLINE"; "LWPOLYLINE"] = true ->
               expansion_error (data e) = Some exn -> ok exn)
  /\ (forall c, In c (attribs e) -> Forall ok (escaping_errors c))
  /\ (forall c, In c (virtual_children e) -> Forall ok (escaping_errors c)).
Proof.
  destruct e as [d a c]. rewrite escaping_errors_Entity.
  cbn [data attribs virtual_children]. intros H.
  apply Forall_app in H as [Hd H]. apply Forall_app in H as [Ha Hc].
  split; [|split].
  - intros exn Hk He. rewrite Hk, He in Hd. now inversion Hd.
  - intros x Hx. rewrite Forall_forall in *. intros exn Hexn.
    apply Ha. apply in_flat_map. now exists x.
  - intros x Hx. rewrite Forall_forall in *. intros exn Hexn.
    apply Hc. apply in_flat_map. now exists x.
Qed.

Lemma escaping_errors_set_transparency (e : DXFGraphic) (v : float) :
  escaping_errors (set_transparency e v) = escaping_errors e.
Proof. destruct e as [d a c]. reflexivity. Qed.

Lemma keeps_polyline (f : DXFGraphic -> M unit) (e : DXFGraphic) :
  (forall c, In c (virtual_children e) -> keeps ok anything (f c)) ->
  (forall exn, expansion_error (data e) = Some exn -> ok exn) ->
  keeps ok anything (draw_polyline_entity self f e).
Proof.
  intros Hf Herr. unfold draw_polyline_entity.
  destruct (_ && _).
  - unfold draw_mesh_builder_entity. keeping.
  - intros st.
    unfold bind at 1, parent_stack_append. cbv beta iota.
    unfold bind at 1, parent_stack_tuple. cbv beta iota.
    unfold bind at 1. rewrite emit_spec. cbv beta iota.
    apply post_bind with (Q := anything);
      [apply keeps_for_each; exact Hf | |].
    { repeat split; cbn.
      - now eexists.
      - now exists [e].
      - now exists [].
      - exists []. now rewrite app_nil_r. }
    intros _ s4 _ Hg4 Hl4.
    destruct (expansion_error (data e)) as [exn|].
    + split; [exact Hg4 | now apply Herr].
    + destruct Hl4 as (_ & (ps & Hp) & _ & _). cbn in Hp.
      destruct Hg4 as ((evs & Ht & Hi) & _ & (cs & Hc) & (hs & Hh)).
      unfold bind, parent_stack_pop. rewrite Hp.
      destruct ((parent_stack st ++ [e]) ++ ps) as [|x l] eqn:El.
      { exfalso. destruct (parent_stack st); discriminate El. }
      rewrite <- El.
      destruct (removelast_keeps_prefix (parent_stack st) ps e) as [ps' ->].
      rewrite emit_spec. split; [|exact I]. repeat split; cbn.
      * exists (evs ++ [SetCurrentEntity None []]).
        rewrite Ht, <- app_assoc, forallb_app, Hi. auto.
      * now exists ps'.
      * now exists cs.
      * now exists hs.
Qed.

Lemma keeps_composite (f : DXFGraphic -> M unit) (e : DXFGraphic) :
  (forall c, In c (attribs e) -> keeps ok anything (f c)) ->
  (forall c, In c (virtual_children e) -> keeps ok anything (f c)) ->
  (forall c, In c (virtual_children e) ->
             keeps ok anything (f (set_transparency c 0))) ->
  keeps ok anything (draw_composite_entity self f e).
Proof.
  intros Ha Hc Ho. unfold draw_composite_entity.
  destruct (dxftype (data e) =? "INSERT")%string.
  - intros st.
    unfold bind at 1. rewrite _resolve_properties_spec.
    unfold bind at 1, ctx_push_state. cbv beta iota.
    unfold bind at 1, parent_stack_append. cbv beta iota.
    cbn [trace ctx_stack parent_stack filter_history after_resolve].
    apply post_bind with (Q := anything);
      [apply keeps_for_each; exact Ha | |].
    { repeat split; cbn.
      - eexists. rewrite <- app_assoc. split; [reflexivity | reflexivity].
      - now exists [e].
      - now exists [resolved self e st].
      - now eexists. }
    intros _ s4 _ Hg4 Hl4.
    destruct (expansion_error (data e)) as [exn|].
    + unfold print. rewrite emit_spec. split; [|exact I].
      eapply grows_trans; [exact Hg4 | now apply grows_events].
    + apply post_bind with (Q := anything);
        [apply keeps_for_each; exact Hc | exact Hg4 |].
      intros _ s5 _ Hg5 Hl5.
      destruct Hl4 as (_ & (ps4 & Hp4) & (cs4 & Hc4) & _). cbn in Hp4, Hc4.
      destruct Hl5 as (_ & (ps5 & Hp5) & (cs5 & Hc5) & _).
      destruct Hg5 as ((evs & Ht & Hi) & _ & _ & (hs & Hh)).
      unfold bind, parent_stack_pop. rewrite Hp5, Hp4, <- app_assoc.
      destruct ((parent_stack st ++ [e]) ++ ps4 ++ ps5) as [|x l] eqn:El.
      { exfalso. destruct (parent_stack st); discriminate El. }
      rewrite <- El.
      destruct (removelast_keeps_prefix (parent_stack st) (ps4 ++ ps5) e)
        as [ps' ->].
      unfold ctx_pop_state. cbn [ctx_stack trace parent_stack filter_history].
      rewrite Hc5, Hc4, app_assoc.
      destruct ((cs5 ++ cs4) ++ resolved self e st :: ctx_stack st)
        as [|y r] eqn:Er.
      { exfalso. destruct (cs5 ++ cs4); discriminate Er. }
      destruct (tl_keeps_suffix (cs5 ++ cs4) (ctx_stack st) (resolved self e st))
        as [cs' Hcs']. rewrite Er in Hcs'. cbn [tl] in Hcs'. subst r.
      split; [|exact I]. repeat split; cbn.
      * exists (evs ++ [PopState]).
        rewrite Ht, <- app_assoc, forallb_app, Hi. auto.
      * now exists ps'.
      * now exists cs'.
      * now exists hs.
  - destruct (has_virtual_entities (data e)); [|now apply keeps_raise].
    destruct (expansion_error (data e)) as [exn|].
    + unfold print. now apply keeps_emit.
    + intros st. unfold bind at 1, parent_stack_append. cbv beta iota.
      apply post_bind with (Q := anything).
      { apply keeps_for_each. intros c Hin.
        apply in_map_iff in Hin as (c0 & <- & Hin0). now apply Ho. }
      { repeat split; cbn.
        - exists []. now rewrite app_nil_r.
        - now exists [e].
        - now exists [].
        - exists []. now rewrite app_nil_r. }
      intros _ s4 _ Hg4 Hl4.
      destruct Hl4 as (_ & (ps & Hp) & _ & _). cbn in Hp.
      destruct Hg4 as ((evs & Ht & Hi) & _ & (cs & Hc4) & (hs & Hh)).
      unfold parent_stack_pop. rewrite Hp.
      destruct ((parent_stack st ++ [e]) ++ ps) as [|x l] eqn:El.
      { exfalso. destruct (parent_stack st); discriminate El. }
      rewrite <- El.
      destruct (removelast_keeps_prefix (parent_stack st) ps e) as [ps' ->].
      split; [|exact I]. repeat split; cbn.
      * now exists evs.
      * now exists ps'.
      * now exists cs.
      * now exists hs.
Qed.

Lemma keeps_dispatch (f : DXFGraphic -> M unit) (e : DXFGraphic) :
  Forall ok (escaping_errors e) ->
  (forall c, (depth c < depth e)%nat -> Forall ok (escaping_errors c) ->
             keeps ok anything (f c)) ->
  keeps ok anything (dispatch self f e).
Proof.
  intros He Hf. apply escaping_errors_parts in He as (Hown & Ha & Hc).
  unfold dispatch.
  repeat match goal with
         | |- keeps _ _ (if ?b then _ else _) =>
             let E := fresh "E" in destruct b eqn:E
         end;
    auto using keeps_line, keeps_text_2d, keeps_arc_3d, keeps_arc_2d,
      keeps_spline, keeps_point, keeps_solid, keeps_hatch, keeps_mesh,
      keeps_viewport.
  - now apply keeps_ret.
  - apply keeps_polyline.
    + intros c Hin. apply Hf; [now apply depth_virtual_children | now apply Hc].
    + intros exn Hexn. now apply Hown.
  - apply keeps_composite.
    + intros c Hin. apply Hf; [now apply depth_attribs | now apply Ha].
    + intros c Hin. apply Hf; [now apply depth_virtual_children | now apply Hc].
    + intros c Hin. apply Hf.
      * rewrite depth_set_transparency. now apply depth_virtual_children.
      * rewrite escaping_errors_set_transparency. now apply Hc.
  - now apply keeps_emit.
Qed.

Lemma keeps_draw_entity_rec (n : nat) :
  forall e, (depth e <= n)%nat -> Forall ok (escaping_errors e) ->
            keeps ok anything (draw_entity_rec self n e).
Proof.
  induction n as [|n IH]; intros e Hd He.
  - pose proof (depth_pos e). lia.
  - cbn [draw_entity_rec]. unfold draw_entity_body.
    apply (keeps_bind (Q := anything)).
    { intros st. split; [apply grows_refl | exact I]. }
    intros parents _. apply (keeps_bind (Q := anything)); [now apply keeps_emit|].
    intros _ _. apply (keeps_bind (Q := anything)).
    + apply keeps_dispatch; [exact He|]. intros c Hc Hec. apply IH; [lia | exact Hec].
    + intros _ _. now apply keeps_emit.
Qed.

Lemma keeps_draw_entity (e : DXFGraphic) :
  Forall ok (escaping_errors e) -> keeps ok anything (draw_entity self e).
Proof. intros He. now apply keeps_draw_entity_rec. Qed.


End Keeping.

Lemma inner_calls_counts (evs : list Event) :
  forallb is_inner_call evs = true ->
  count is_visibility_query evs = O
  /\ count is_finalize evs = O
  /\ count is_set_background evs = O.
Proof.
  unfold count. induction evs as [|ev evs IH]; cbn; [auto|].
  intros H. apply andb_true_iff in H as [Hev H].
  destruct (IH H) as (H1 & H2 & H3).
  destruct ev; cbn in *; try discriminate; auto.
Qed.

Section Kept.

Context {ML : MathLib} {RC : RenderContext} {BE : DrawingBackend}.
Variable self : Frontend.

Lemma draw_entity_grows (e : DXFGraphic) (st : State) :
  grows st (snd (draw_entity self e st)).
Proof.
  assert (H : keeps (fun _ => True) anything (draw_entity self e)).
  { apply keeps_draw_entity; auto. apply Forall_forall. auto. }
  apply H.
Qed.

(** X7. For every entity tree and every state, whether [draw_entity]
    returns or raises: it only adds calls to the trace, and none of them
    is [ctx.is_visible], [set_background] or [finalize]; what the caller
    had on the ancestor list is still the beginning of the list and what
    it had on the context stack is still the end of the stack (a frame
    never pops what an enclosing frame pushed); the filter history only
    grows. *)
Theorem draw_entity_keeps_what_the_caller_had (e : DXFGraphic) (st : State) :
  let st' := snd (draw_entity self e st) in
  (exists evs, trace st' = trace st ++ evs
               /\ count is_visibility_query evs = O
               /\ count is_finalize evs = O
               /\ count is_set_background evs = O)
  /\ (exists ps, parent_stack st' = parent_stack st ++ ps)
  /\ (exists cs, ctx_stack st' = cs ++ ctx_stack st)
  /\ (exists hs, filter_history st' = filter_history st ++ hs).
Proof.
  destruct (draw_entity_grows e st) as ((evs & Ht & Hi) & Hp & Hc & Hh).
  split; [|now repeat split].
  exists evs. split; [exact Ht|]. now apply inner_calls_counts.
Qed.


(** What one round of the loop of [draw_entities] adds. *)
Lemma draw_top_level_entity_adds (e : DXFGraphic) (st : State) :
  exists evs,
    trace (snd (draw_top_level_entity self e st)) = trace st ++ evs
    /\ count is_finalize evs = O
    /\ count is_set_background evs = O
    /\ count is_visibility_query evs
       = match visibility_filter self with
         | Some _ => O
         | None => if is_tag_storage (data e) then O else 1%nat
         end.
Proof.
  assert (Hdraw : forall s,
            exists evs,
              trace (snd (with_new_parent_stack (draw_entity self e) s))
              = trace s ++ evs
              /\ count is_visibility_query evs = O
              /\ count is_finalize evs = O
              /\ count is_set_background evs = O).
  { intros s. unfold with_new_parent_stack.
    match goal with
    | |- context [draw_entity self e ?s0] =>
        destruct (draw_entity_grows e s0) as ((evs & Ht & Hi) & _)
    end.
    exists evs. split; [exact Ht | now apply inner_calls_counts]. }
  unfold draw_top_level_entity.
  destruct (is_tag_storage (data e)).
  - exists [Print (IgnoringUnsupported e)]. cbn.
    destruct (visibility_filter self); auto.
  - destruct (visibility_filter self) as [f|].
    + unfold bind, call_visibility_filter. destruct (f (filter_history st) e).
      * match goal with
        | |- context [with_new_parent_stack _ ?s0] =>
            destruct (Hdraw s0) as (evs & Ht & Hv & Hf & Hb)
        end.
        exists evs. now repeat split.
      * exists []. cbn. now rewrite app_nil_r.
    + unfold bind, ctx_is_visible. rewrite emit_spec.
      destruct (is_visible_in (ctx_stack st) e).
      * match goal with
        | |- context [with_new_parent_stack _ ?s0] =>
            destruct (Hdraw s0) as (evs & Ht & Hv & Hf & Hb)
        end.
        exists (IsVisible e :: evs). cbn in Ht. rewrite Ht, <- app_assoc.
        split; [reflexivity|].
        rewrite !(count_app _ [IsVisible e] evs), Hv, Hf, Hb. auto.
      * now exists [IsVisible e].
Qed.

Lemma draw_entities_adds (entities : list DXFGraphic) :
  forall st,
  exists evs,
    trace (snd (draw_entities self entities st)) = trace st ++ evs
    /\ count is_finalize evs = O
    /\ count is_set_background evs = O
    /\ (visibility_filter self <> None -> count is_visibility_query evs = O)
    /\ (visibility_filter self = None ->
        (count is_visibility_query evs <= List.length (queried entities))%nat
        /\ (fst (draw_entities self entities st) = Return tt ->
            count is_visibility_query evs = List.length (queried entities))).
Proof.
  unfold draw_entities.
  induction entities as [|e rest IH]; intros st; cbn [for_each].
  - exists []. cbn. rewrite app_nil_r. repeat split; auto.
  - unfold bind.
    destruct (draw_top_level_entity_adds e st) as (evs1 & Ht1 & Hf1 & Hb1 & Hv1).
    destruct (draw_top_level_entity self e st) as [[[]|exn] s1]; cbn [snd] in Ht1.
    + destruct (IH s1) as (evs & Ht & Hf & Hb & Hsome & Hnone).
      exists (evs1 ++ evs). rewrite Ht, Ht1, app_assoc, !count_app.
      split; [reflexivity|]. split; [lia|]. split; [lia|]. split.
      * intros Hn. rewrite (Hsome Hn).
        destruct (visibility_filter self); [lia | contradiction].
      * intros Hn. destruct (Hnone Hn) as [Hle Heq]. rewrite Hn in Hv1.
        unfold queried in *. cbn [filter].
        destruct (is_tag_storage (data e)); cbn [negb List.length];
          (split; [lia | intros Hr; rewrite (Heq Hr); lia]).
    + exists evs1. split; [exact Ht1|]. split; [exact Hf1|]. split; [exact Hb1|].
      split.
      * intros Hn. destruct (visibility_filter self); [exact Hv1 | contradiction].
      * intros Hn. rewrite Hn in Hv1. unfold queried. cbn [filter fst].
        split; [|discriminate].
        destruct (is_tag_storage (data e)); cbn [negb List.length]; lia.
Qed.

(** X9. In every traversal, [ctx.is_visible] is only asked about
    top-level entities. With a visibility filter it is never called.
    Without one it is called at most once for each top-level entity that
    is not tag storage, and exactly once for each of them when the
    traversal returns; it is never called for attribs or virtual
    entities. *)
Theorem visibility_is_asked_at_top_level_only (entities : list DXFGraphic)
    (st : State) :
  exists evs,
    trace (snd (draw_entities self entities st)) = trace st ++ evs
    /\ (visibility_filter self <> None -> count is_visibility_query evs = O)
    /\ (visibility_filter self = None ->
        (count is_visibility_query evs <= List.length (queried entities))%nat
        /\ (fst (draw_entities self entities st) = Return tt ->
            count is_visibility_query evs = List.length (queried entities))).
Proof.
  destruct (draw_entities_adds entities st) as (evs & Ht & _ & _ & H1 & H2).
  exists evs. auto.
Qed.

(** X10. [draw_layout] sets the background and finalizes only after all
    entities were drawn: the traversal itself never calls
    [set_background] or [finalize]; when it returns, [set_background] is
    called exactly once, with the background color of the layout, and then
    [finalize] exactly once if the flag is set and not at all otherwise;
    when the traversal raises, the exception escapes [draw_layout] and
    neither call is made. *)
Theorem draw_layout_finalizes_once (layout : list DXFGraphic) (finalize : bool)
    (st : State) :
  exists evs,
    trace (snd (draw_entities self layout st)) = trace st ++ evs
    /\ count is_finalize evs = O
    /\ count is_set_background evs = O
    /\ (forall exn,
          fst (draw_entities self layout st) = Raise exn ->
          draw_layout self layout finalize st
          = (Raise exn, snd (draw_entities self layout st)))
    /\ (fst (draw_entities self layout st) = Return tt ->
        fst (draw_layout self layout finalize st) = Return tt
        /\ trace (snd (draw_layout self layout finalize st))
           = trace st ++ evs ++ [SetBackground background_color]
             ++ (if finalize then [Finalize] else [])).
Proof.
  destruct (draw_entities_adds layout st) as (evs & Ht & Hf & Hb & _).
  exists evs. split; [exact Ht|]. split; [exact Hf|]. split; [exact Hb|].
  unfold draw_layout, bind.
  destruct (draw_entities self layout st) as [[[]|exn0] s1]; cbn [fst snd] in *.
  - split; [discriminate|]. intros _. rewrite emit_spec.
    destruct finalize; cbn; rewrite Ht, <- ?app_assoc; auto.
  - split; [|discriminate]. now intros exn [= <-].
Qed.

End Kept.

(** ** What a block reference that does not expand leaves behind *)

Lemma balanced_leaving {A} (c : M A) : balanced c -> leaving O c.
Proof.
  intros H st a st' Hrun. destruct (H st a st' Hrun) as (Hc & Hp & evs & Ht & Hn).
  unfold leaves. rewrite Hc, Hp. repeat split; try lia.
  exists evs. split; [exact Ht | lia].
Qed.

Lemma leaves_trans (n m : nat) (st1 st2 st3 : State) :
  leaves n st1 st2 -> leaves m st2 st3 -> leaves (n + m) st1 st3.
Proof.
  intros (Hc1 & Hp1 & evs1 & Ht1 & Hn1) (Hc2 & Hp2 & evs2 & Ht2 & Hn2).
  split; [lia|]. split; [lia|].
  exists (evs1 ++ evs2). split.
  - now rewrite Ht2, Ht1, app_assoc.
  - rewrite !count_app. lia.
Qed.

Lemma leaving_bind {A B} (n m : nat) (c : M A) (k : A -> M B) :
  leaving n c -> (forall a, leaving m (k a)) -> leaving (n + m) (bind c k).
Proof.
  intros Hc Hk st b st' H. apply bind_Return in H as (a & st1 & H1 & H2).
  eapply leaves_trans; [eapply Hc | eapply Hk]; eassumption.
Qed.

Lemma leaving_for_each {A} (g : A -> nat) (l : list A) (body : A -> M unit) :
  (forall a, In a l -> leaving (g a) (body a)) ->
  leaving (list_sum (map g l)) (for_each l body).
Proof.
  induction l as [|a l IH]; intros H; cbn [for_each map list_sum].
  - apply balanced_leaving, balanced_ret.
  - apply leaving_bind; [apply H; now left|].
    intros _. apply IH. intros b Hb. apply H. now right.
Qed.

Lemma length_removelast_cons {A} (a : A) (l : list A) :
  S (List.length (removelast (a :: l))) = List.length (a :: l).
Proof.
  destruct (exists_last (l := a :: l)) as (l' & z & E); [discriminate|].
  rewrite E, removelast_last, length_app. cbn. lia.
Qed.

Lemma parent_stack_pop_Return (st st' : State) :
  parent_stack_pop st = (Return tt, st') ->
  trace st' = trace st
  /\ ctx_stack st' = ctx_stack st
  /\ S (List.length (parent_stack st')) = List.length (parent_stack st).
Proof.
  unfold parent_stack_pop. destruct (parent_stack st) as [|x l] eqn:E; [discriminate|].
  intros H. inv H. cbn [trace ctx_stack parent_stack].
  repeat split. apply length_removelast_cons.
Qed.

Lemma ctx_pop_state_Return (st st' : State) :
  ctx_pop_state st = (Return tt, st') ->
  trace st' = trace st ++ [PopState]
  /\ S (List.length (ctx_stack st')) = List.length (ctx_stack st)
  /\ parent_stack st' = parent_stack st.
Proof.
  unfold ctx_pop_state. destruct (ctx_stack st) as [|x l] eqn:E; [discriminate|].
  intros H. inv H. now cbn.
Qed.

Section Leaving.

Context {ML : MathLib} {RC : RenderContext} {BE : DrawingBackend}.
Variable self : Frontend.

Lemma unexpanded_inserts_eq (e : DXFGraphic) :
  unexpanded_inserts e
  = ((if (dxftype (data e) =? "INSERT")%string
      then match expansion_error (data e) with Some _ => 1 | None => O end
      else O)
     + list_sum (map unexpanded_inserts (drawn_children e)))%nat.
Proof.
  destruct e as [d a c]. unfold drawn_children.
  cbn [unexpanded_inserts data attribs virtual_children].
  destruct (dxftype d =? "INSERT")%string.
  - rewrite map_app, list_sum_app.
    destruct (expansion_error d); cbn [map list_sum fold_right]; lia.
  - destruct (in_set (dxftype d) ["POLYLINE"; "LWPOLYLINE"]).
    + now destruct (_ && (_ || _)).
    + destruct (_ && _); [|reflexivity].
      destruct (expansion_error d); [reflexivity|].
      rewrite map_map. cbn [Nat.add]. f_equal. apply map_ext.
      now intros [d' a' c'].
Qed.

Lemma drawn_children_leaf (e : DXFGraphic) :
  in_set (dxftype (data e)) COMPOSITE_ENTITY_TYPES = false ->
  unexpanded_inserts e = O.
Proof.
  intros H. unfold in_set in H. cbn [COMPOSITE_ENTITY_TYPES existsb] in H.
  split_orb H.
  destruct e as [d a c]. cbn [data] in *.
  cbn [unexpanded_inserts]. unfold in_set, DIMENSION_LIKE_TYPES. cbn [existsb].
  repeat match goal with
         | Hx : (dxftype d =? _)%string = false |- _ => rewrite Hx; clear Hx
         end.
  reflexivity.
Qed.

Lemma draw_polyline_entity_leaving (f : DXFGraphic -> M unit) (e : DXFGraphic) :
  in_set (dxftype (data e)) ["POLYLINE"; "LWPOLYLINE"] = true ->
  (forall c, In c (drawn_children e) -> leaving (unexpanded_inserts c) (f c)) ->
  leaving (unexpanded_inserts e) (draw_polyline_entity self f e).
Proof.
  intros Hk Hf. rewrite unexpanded_inserts_eq.
  assert (Hi : (dxftype (data e) =? "INSERT")%string = false).
  { kind_cases Hk; now rewrite Hk. }
  unfold drawn_children in *. rewrite Hi, Hk in *.
  unfold draw_polyline_entity.
  destruct (_ && _) eqn:Hmesh.
  - apply balanced_leaving. apply (resolves_balanced (self := self) (e := e)).
    apply resolve_then. intros p. unfold draw_mesh_builder_entity. emits.
  - intros st [] st' H.
    apply bind_Return in H as (? & s1 & H1 & H). inv H1.
    apply bind_Return in H as (ps & s2 & H2 & H). inv H2.
    apply bind_Return in H as (? & s3 & H3 & H). inv H3.
    apply bind_Return in H as (? & s4 & H4 & H).
    apply (leaving_for_each _ _ _ Hf) in H4 as (Hc & Hp & evs & Ht & Hn).
    cbn in Hc, Hp, Ht.
    destruct (expansion_error (data e)); [discriminate|].
    apply bind_Return in H as ([] & s5 & H5 & H).
    rewrite emit_spec in H. inv H.
    apply parent_stack_pop_Return in H5 as (Ht5 & Hc5 & Hp5).
    rewrite length_app in Hp. cbn in Hp.
    unfold leaves. cbn. rewrite Hc5. split; [lia|]. split; [lia|].
    eexists. split.
    + rewrite Ht5, Ht, <- !app_assoc. reflexivity.
    + rewrite !count_app, Hn. unfold count. cbn. lia.
Qed.

Lemma draw_composite_entity_leaving (f : DXFGraphic -> M unit) (e : DXFGraphic) :
  in_set (dxftype (data e)) ["POLYLINE"; "LWPOLYLINE"] = false ->
  in_set (dxftype (data e)) COMPOSITE_ENTITY_TYPES = true ->
  (forall c, In c (drawn_children e) -> leaving (unexpanded_inserts c) (f c)) ->
  leaving (unexpanded_inserts e) (draw_composite_entity self f e).
Proof.
  intros Hp Hk Hf. rewrite unexpanded_inserts_eq.
  assert (Hd : (dxftype (data e) =? "INSERT")%string = false ->
               in_set (dxftype (data e)) DIMENSION_LIKE_TYPES = true).
  { intros Hi. unfold in_set in *.
    cbn [COMPOSITE_ENTITY_TYPES DIMENSION_LIKE_TYPES existsb] in *.
    rewrite Hi in Hk. cbn [orb] in Hk. split_orb Hp.
    repeat match goal with
           | Hx : (dxftype (data e) =? _)%string = false |- _ =>
               rewrite Hx in Hk; clear Hx
           end.
    exact Hk. }
  unfold drawn_children in *. unfold draw_composite_entity.
  destruct (dxftype (data e) =? "INSERT")%string eqn:Hi.
  - intros st [] st' H.
    apply bind_Return in H as (p & s1 & H1 & H).
    rewrite _resolve_properties_spec in H1. inv H1.
    apply bind_Return in H as (? & s2 & H2 & H). inv H2.
    apply bind_Return in H as (? & s3 & H3 & H). inv H3.
    apply bind_Return in H as (? & s4 & H4 & H).
    assert (Ha : forall c, In c (attribs e) -> leaving (unexpanded_inserts c) (f c)).
    { intros c Hin. apply Hf. apply in_or_app. now left. }
    apply (leaving_for_each _ _ _ Ha) in H4 as (Hc4 & Hp4 & evs4 & Ht4 & Hn4).
    cbn in Hc4, Hp4, Ht4. rewrite length_app in Hp4. cbn in Hp4.
    rewrite map_app, list_sum_app.
    destruct (expansion_error (data e)) as [exn|].
    + unfold print in H. rewrite emit_spec in H. inv H.
      unfold leaves. cbn. split; [lia|]. split; [lia|].
      eexists. split.
      * rewrite Ht4, <- !app_assoc. reflexivity.
      * rewrite !count_app, Hn4. unfold count. cbn. lia.
    + assert (Hc : forall c, In c (virtual_children e) ->
                     leaving (unexpanded_inserts c) (f c)).
      { intros c Hin. apply Hf. apply in_or_app. now right. }
      apply bind_Return in H as (? & s5 & H5 & H).
      apply (leaving_for_each _ _ _ Hc) in H5 as (Hc5 & Hp5 & evs5 & Ht5 & Hn5).
      apply bind_Return in H as ([] & s6 & H6 & H).
      apply parent_stack_pop_Return in H6 as (Ht6 & Hc6 & Hp6).
      apply ctx_pop_state_Return in H as (Ht7 & Hc7 & Hp7).
      rewrite Hc6 in Hc7.
      unfold leaves. rewrite Hp7. split; [lia|]. split; [lia|].
      eexists. split.
      * rewrite Ht7, Ht6, Ht5, Ht4, <- !app_assoc. reflexivity.
      * rewrite !count_app, Hn4, Hn5. unfold count. cbn. lia.
  - rewrite Hp, (Hd eq_refl) in *. cbn [andb Nat.add] in *.
    destruct (has_virtual_entities (data e)); [|intros st a st' [=]].
    destruct (expansion_error (data e)).
    + apply balanced_leaving. unfold print. now apply balanced_emit.
    + intros st [] st' H.
      apply bind_Return in H as (? & s1 & H1 & H). inv H1.
      apply bind_Return in H as (? & s2 & H2 & H).
      apply (leaving_for_each _ _ _ Hf) in H2 as (Hc2 & Hp2 & evs2 & Ht2 & Hn2).
      cbn in Hc2, Hp2, Ht2. rewrite length_app in Hp2. cbn in Hp2.
      apply parent_stack_pop_Return in H as (Ht3 & Hc3 & Hp3).
      unfold leaves. rewrite Hc3. split; [lia|]. split; [lia|].
      exists evs2. split; [now rewrite Ht3, Ht2 | lia].
Qed.

Lemma dispatch_leaving (f : DXFGraphic -> M unit) (e : DXFGraphic) :
  (forall c, In c (drawn_children e) -> leaving (unexpanded_inserts c) (f c)) ->
  leaving (unexpanded_inserts e) (dispatch self f e).
Proof.
  intros Hf.
  destruct (in_set (dxftype (data e)) COMPOSITE_ENTITY_TYPES) eqn:Hk.
  - destruct (in_set (dxftype (data e)) ["POLYLINE"; "LWPOLYLINE"]) eqn:Hp.
    + replace (dispatch self f e) with (draw_polyline_entity self f e);
        [now apply draw_polyline_entity_leaving|].
      unfold dispatch. rewrite Hp. kind_cases Hp; now rewrite Hp.
    + replace (dispatch self f e) with (draw_composite_entity self f e);
        [now apply draw_composite_entity_leaving|].
      unfold dispatch. rewrite Hp, Hk. clear Hf Hp.
      unfold in_set in Hk. cbn [COMPOSITE_ENTITY_TYPES existsb] in Hk.
      repeat (apply orb_true_iff in Hk; destruct Hk as [Hk|Hk]);
        try discriminate Hk;
        apply String.eqb_eq in Hk; now rewrite Hk.
  - rewrite (drawn_children_leaf e Hk). apply balanced_leaving.
    assert (Hp : in_set (dxftype (data e)) ["POLYLINE"; "LWPOLYLINE"] = false).
    { unfold in_set in *. cbn [COMPOSITE_ENTITY_TYPES existsb] in *.
      split_orb Hk.
      repeat match goal with
             | Hx : (dxftype (data e) =? _)%string = false |- _ =>
                 rewrite Hx; clear Hx
             end.
      reflexivity. }
    unfold dispatch. rewrite Hp, Hk.
    repeat match goal with
           | |- balanced (if ?b then _ else _) => destruct b
           end;
      try (now apply balanced_emit);
      try apply balanced_ret;
      try apply draw_viewport_entity_balanced;
      try (apply (resolves_balanced (self := self) (e := e));
           auto using draw_line_entity_emits, draw_text_entity_2d_emits,
             draw_elliptic_arc_entity_3d_emits, draw_elliptic_arc_entity_2d_emits,
             draw_spline_entity_emits, draw_point_entity_emits,
             draw_solid_entity_emits, draw_hatch_entity_emits,
             draw_mesh_entity_emits; fail).
Qed.

Lemma draw_entity_rec_leaving (n : nat) :
  forall e, leaving (unexpanded_inserts e) (draw_entity_rec self n e).
Proof.
  induction n as [|n IH]; intros e; cbn [draw_entity_rec].
  - intros st a st' [=].
  - unfold draw_entity_body.
    replace (unexpanded_inserts e)
      with (0 + (0 + (unexpanded_inserts e + 0)))%nat by lia.
    apply leaving_bind;
      [apply balanced_leaving; intros st a st' [= _ <-]; apply balanced_step_refl|].
    intros parents.
    apply leaving_bind; [apply balanced_leaving; now apply balanced_emit|].
    intros _. apply leaving_bind; [apply dispatch_leaving; auto|].
    intros _. apply balanced_leaving. now apply balanced_emit.
Qed.

(** X11. Whenever [draw_entity] returns, the render context and the
    ancestor list hold, on top of what they held before, exactly one
    entry for each block reference reached whose [virtual_entities()]
    raised, and that many more [push_state] than [pop_state] calls were
    made: a failed expansion is the only way a frame is left behind. *)
Theorem each_unexpanded_insert_leaves_one_frame (e : DXFGraphic) (st : State) :
  fst (draw_entity self e st) = Return tt ->
  let st' := snd (draw_entity self e st) in
  exists cs ps evs,
    ctx_stack st' = cs ++ ctx_stack st
    /\ List.length cs = unexpanded_inserts e
    /\ parent_stack st' = parent_stack st ++ ps
    /\ List.length ps = unexpanded_inserts e
    /\ trace st' = trace st ++ evs
    /\ count is_push_state evs = (count is_pop_state evs + unexpanded_inserts e)%nat.
Proof.
  intros Hr st'.
  assert (Hrun : draw_entity self e st = (Return tt, st')).
  { subst st'. destruct (draw_entity self e st). cbn in *. now subst. }
  apply (draw_entity_rec_leaving (depth e)) in Hrun as (Hc & Hp & evs & Ht & Hn).
  destruct (draw_entity_grows self e st) as (_ & (ps & Eps) & (cs & Ecs) & _).
  fold st' in Eps, Ecs.
  exists cs, ps, evs. rewrite Ecs, Eps in *. rewrite length_app in Hc, Hp.
  repeat split; auto; lia.
Qed.

End Leaving.

(** ** Expansions that fail, and the announcements of the children *)

Section Expansions.

Context {ML : MathLib} {RC : RenderContext} {BE : DrawingBackend}.
Variable self : Frontend.

Lemma dispatch_dimension_like_composite (f : DXFGraphic -> M unit)
    (e : DXFGraphic) :
  in_set (dxftype (data e)) DIMENSION_LIKE_TYPES = true ->
  (dxftype (data e) =? "INSERT")%string = false
  /\ dispatch self f e = draw_composite_entity self f e.
Proof.
  intros Hk. unfold dispatch.
  unfold in_set in Hk. cbn [DIMENSION_LIKE_TYPES existsb] in Hk.
  repeat (apply orb_true_iff in Hk; destruct Hk as [Hk|Hk]);
    try discriminate;
    apply String.eqb_eq in Hk; rewrite Hk; split; reflexivity.
Qed.

(** X13. For every DIMENSION, ARC_DIMENSION, LARGE_RADIAL_DIMENSION and
    ACAD_TABLE whose [virtual_entities()] raises, [draw_entity] prints one
    message and returns normally: between setting the entity current and
    clearing it no call is made on the backend or on the render context,
    none of the children the generator yielded before it failed is drawn,
    and the ancestor list, the context stack and the filter history are
    as they were. *)
Theorem failed_dimension_is_skipped (e : DXFGraphic) (exn : Exn) (st : State) :
  in_set (dxftype (data e)) DIMENSION_LIKE_TYPES = true ->
  has_virtual_entities (data e) = true ->
  expansion_error (data e) = Some exn ->
  draw_entity self e st
  = (Return tt,
     add_events st [SetCurrentEntity (Some e) (parent_stack st);
                    Print (EntityChildrenFailed exn e);
                    SetCurrentEntity None []]).
Proof.
  intros Hk Hv Herr. rewrite draw_entity_eq. unfold draw_entity_body.
  destruct (dispatch_dimension_like_composite (draw_entity self) e Hk) as [Hi ->].
  unfold draw_composite_entity. rewrite Hi, Hv, Herr.
  unfold bind, parent_stack_tuple, print. rewrite !emit_spec, !add_events_app.
  reflexivity.
Qed.

(** X14. For every entity of these four kinds that has no
    [virtual_entities] attribute, [draw_entity] raises [TypeError] with
    the entity's type: nothing was drawn, and the exception passes the
    call that would clear the backend's current entity. *)
Theorem composite_without_expansion_raises_type_error (e : DXFGraphic)
    (st : State) :
  in_set (dxftype (data e)) DIMENSION_LIKE_TYPES = true ->
  has_virtual_entities (data e) = false ->
  draw_entity self e st
  = (Raise (TypeError (dxftype (data e))),
     add_events st [SetCurrentEntity (Some e) (parent_stack st)]).
Proof.
  intros Hk Hv. rewrite draw_entity_eq. unfold draw_entity_body.
  destruct (dispatch_dimension_like_composite (draw_entity self) e Hk) as [Hi ->].
  unfold draw_composite_entity. rewrite Hi, Hv.
  unfold bind, parent_stack_tuple, raise. rewrite !emit_spec.
  reflexivity.
Qed.

Lemma for_each_draw_entity_grows (l : list DXFGraphic) (st : State) :
  grows st (snd (for_each l (draw_entity self) st)).
Proof.
  assert (H : keeps (fun _ => True) anything (for_each l (draw_entity self))).
  { apply keeps_for_each. intros c _.
    apply keeps_draw_entity; auto. apply Forall_forall. auto. }
  apply H.
Qed.

Lemma dispatch_polyline (f : DXFGraphic -> M unit) (e : DXFGraphic) :
  in_set (dxftype (data e)) ["POLYLINE"; "LWPOLYLINE"] = true ->
  dispatch self f e = draw_polyline_entity self f e.
Proof.
  intros Hk. unfold dispatch. rewrite Hk. kind_cases Hk; now rewrite Hk.
Qed.

(** X15. For every POLYLINE that is no mesh and every LWPOLYLINE whose
    [virtual_entities()] raises, [draw_entity] never returns: after the
    children the generator yielded were drawn an exception escapes (the
    generator's, [exn], unless a child raised before), the entity is
    still on the shared ancestor list, and the backend was told twice
    that it is the current entity, the second time with the entity on its
    own ancestor chain. *)
Theorem polyline_expansion_failure_escapes (e : DXFGraphic) (exn : Exn)
    (st : State) :
  in_set (dxftype (data e)) ["POLYLINE"; "LWPOLYLINE"] = true ->
  (dxftype (data e) =? "POLYLINE")%string
  && (is_polygon_mesh (data e) || is_poly_face_mesh (data e)) = false ->
  expansion_error (data e) = Some exn ->
  exists exn' ps evs,
    fst (draw_entity self e st) = Raise exn'
    /\ (virtual_children e = [] -> exn' = exn /\ ps = [] /\ evs = [])
    /\ parent_stack (snd (draw_entity self e st)) = parent_stack st ++ e :: ps
    /\ trace (snd (draw_entity self e st))
       = trace st ++ SetCurrentEntity (Some e) (parent_stack st)
                  :: SetCurrentEntity (Some e) (parent_stack st ++ [e])
                  :: evs.
Proof.
  intros Hk Hmesh Herr. rewrite draw_entity_eq. unfold draw_entity_body.
  rewrite (dispatch_polyline _ e Hk). unfold draw_polyline_entity.
  rewrite Hmesh, Herr.
  unfold bind, parent_stack_tuple, parent_stack_append, raise.
  rewrite ?emit_spec. cbn beta iota. rewrite ?emit_spec. cbn beta iota.
  match goal with
  | |- context [for_each _ _ ?s1] =>
      pose proof (for_each_draw_entity_grows (virtual_children e) s1) as Hg;
      assert (Hnil : virtual_children e = [] ->
                     for_each (virtual_children e) (draw_entity self) s1
                     = (Return tt, s1)) by (now intros ->);
      destruct (for_each (virtual_children e) (draw_entity self) s1)
        as [[[]|exn'] s2] eqn:Hrun
  end;
    destruct Hg as ((evs & Ht & _) & (ps & Hp) & _);
    cbn [fst snd trace parent_stack add_events] in *.
  - exists exn, ps, evs. split; [reflexivity|]. split.
    + intros Hn. apply Hnil in Hn. inv Hn.
      cbn in Ht, Hp. split; [reflexivity|]. split.
      * rewrite <- (app_nil_r (parent_stack st ++ [e])) in Hp at 1.
        now apply app_inv_head in Hp.
      * match type of Ht with
        | ?l = _ => rewrite <- (app_nil_r l) in Ht at 1
        end.
        now apply app_inv_head in Ht.
    + split.
      * rewrite Hp, <- app_assoc. reflexivity.
      * rewrite Ht, <- !app_assoc. reflexivity.
  - exists exn', ps, evs. split; [reflexivity|]. split.
    + intros Hn. apply Hnil in Hn. discriminate.
    + split.
      * rewrite Hp, <- app_assoc. reflexivity.
      * rewrite Ht, <- !app_assoc. reflexivity.
Qed.

(** X16. Nothing in [draw_entities] catches an exception: when the
    traversal of the first entities of a sequence raises, the traversal of
    the whole sequence raises the same exception in the same state, and
    the entities that follow are neither tested for visibility nor
    drawn. *)
Theorem draw_entities_stops_at_first_exception (before after : list DXFGraphic)
    (st : State) (exn : Exn) :
  fst (draw_entities self before st) = Raise exn ->
  draw_entities self (before ++ after) st = draw_entities self before st.
Proof.
  unfold draw_entities. revert st.
  induction before as [|e rest IH]; intros st; cbn [for_each app].
  - discriminate.
  - unfold bind.
    destruct (draw_top_level_entity self e st) as [[[]|exn0] s1]; [|reflexivity].
    apply IH.
Qed.

Lemma draw_entity_announces (e : DXFGraphic) (st : State) :
  exists evs,
    trace (snd (draw_entity self e st))
    = trace st ++ SetCurrentEntity (Some e) (parent_stack st) :: evs.
Proof.
  rewrite draw_entity_eq. unfold draw_entity_body.
  unfold bind at 1. unfold parent_stack_tuple.
  unfold bind at 1. rewrite emit_spec.
  match goal with
  | |- context [snd (?c ?s0)] =>
      assert (H : keeps (fun _ => True) anything c)
  end.
  { apply keeps_bind with (Q := anything).
    - apply keeps_dispatch; auto.
      + apply Forall_forall. auto.
      + intros c _ _. apply keeps_draw_entity; auto. apply Forall_forall. auto.
    - intros _ _. now apply keeps_emit. }
  match goal with
  | |- context [snd (?c ?s0)] => destruct (H s0) as [((evs & Ht & _) & _) _]
  end.
  exists evs. rewrite Ht. cbn. now rewrite <- app_assoc.
Qed.

(** The children drawn in one loop are each announced with the ancestor
    chain the loop started with. *)
Lemma for_each_announces (l : list DXFGraphic) :
  forall st st',
    forallb inserts_expand l = true ->
    for_each l (draw_entity self) st = (Return tt, st') ->
    parent_stack st' = parent_stack st
    /\ exists evs,
         trace st' = trace st ++ evs
         /\ forall c, In c l ->
                      In (SetCurrentEntity (Some c) (parent_stack st)) evs.
Proof.
  induction l as [|a l IH]; intros st st' Hall H; cbn [for_each] in H.
  - inv H. split; [reflexivity|]. exists []. rewrite app_nil_r.
    split; [reflexivity | intros c []].
  - cbn [forallb] in Hall. apply andb_true_iff in Hall as [Ha Hl].
    apply bind_Return in H as ([] & s1 & H1 & H).
    destruct (draw_entity_announces a st) as (evs1 & Ht1).
    rewrite H1 in Ht1. cbn [snd] in Ht1.
    apply (draw_entity_balanced self a Ha) in H1 as (_ & Hp1 & _).
    destruct (IH s1 st' Hl H) as (Hp & evs & Ht & Hin).
    split; [congruence|].
    exists ((SetCurrentEntity (Some a) (parent_stack st) :: evs1) ++ evs).
    split; [now rewrite Ht, Ht1, <- app_assoc|].
    intros c [<-|Hc]; apply in_or_app.
    + left. now left.
    + right. rewrite <- Hp1. now apply Hin.
Qed.

End Expansions.

Section Announcements.

Context {ML : MathLib} {RC : RenderContext} {BE : DrawingBackend}.
Variable self : Frontend.

(** X17. When [draw_entity] returns for a composite entity whose
    children have no block reference that fails to expand, every child it
    passed on (the attribs and the block content of an INSERT, the
    vertices and segments of a polyline, the opaque content of a
    dimension or table) was announced to the backend with the ancestor
    chain of the entity followed by the entity itself. *)
Theorem children_are_announced_below_their_parent (e : DXFGraphic)
    (st : State) :
  forallb inserts_expand (drawn_children e) = true ->
  fst (draw_entity self e st) = Return tt ->
  exists evs,
    trace (snd (draw_entity self e st)) = trace st ++ evs
    /\ forall c, In c (drawn_children e) ->
                 In (SetCurrentEntity (Some c) (parent_stack st ++ [e])) evs.
Proof.
  intros Hall Hr.
  destruct (draw_entity_grows self e st) as ((evs0 & Ht0 & _) & _).
  destruct (draw_entity self e st) as [[[]|] st'] eqn:Hrun; [|discriminate].
  clear Hr. cbn [snd] in *.
  assert (Hvac : drawn_children e = [] ->
                 exists evs,
                   trace st' = trace st ++ evs
                   /\ forall c, In c (drawn_children e) ->
                        In (SetCurrentEntity (Some c) (parent_stack st ++ [e])) evs).
  { intros ->. exists evs0. split; [exact Ht0 | intros c []]. }
  clear Ht0 evs0.
  rewrite draw_entity_eq in Hrun. unfold draw_entity_body in Hrun.
  apply bind_Return in Hrun as (parents & s0 & H0 & H). inv H0.
  apply bind_Return in H as ([] & s1 & H1 & H). rewrite emit_spec in H1. inv H1.
  apply bind_Return in H as ([] & s2 & H2 & H). rewrite emit_spec in H. inv H.
  destruct (dxftype (data e) =? "INSERT")%string eqn:Hi.
  - clear Hvac.
    assert (Hdc : drawn_children e
                  = attribs e ++ match expansion_error (data e) with
                                 | Some _ => []
                                 | None => virtual_children e
                                 end).
    { unfold drawn_children. now rewrite Hi. }
    rewrite Hdc in *. clear Hdc.
    apply String.eqb_eq in Hi. rewrite (dispatch_insert _ _ e Hi) in H2.
    unfold draw_composite_entity in H2. rewrite Hi in H2.
    cbn [String.eqb Ascii.eqb Bool.eqb] in H2.
    apply bind_Return in H2 as (p & s3 & H3 & H).
    rewrite _resolve_properties_spec in H3. inv H3.
    apply bind_Return in H as ([] & s4 & H4 & H). inv H4.
    apply bind_Return in H as ([] & s5 & H5 & H). inv H5.
    apply bind_Return in H as ([] & s6 & H6 & H).
    rewrite forallb_app in Hall. apply andb_true_iff in Hall as [Hall_a Hall_c].
    apply for_each_announces in H6 as (Hp6 & evs6 & Ht6 & Hin6); [|exact Hall_a].
    cbn [trace parent_stack add_events] in Hp6, Ht6, Hin6.
    destruct (expansion_error (data e)) as [exn|].
    + unfold print in H. rewrite emit_spec in H. inv H.
      eexists. split.
      * cbn. rewrite Ht6, <- !app_assoc. reflexivity.
      * intros c Hc. rewrite app_nil_r in Hc. cbn.
        right. right. right. apply in_or_app. left. now apply Hin6.
    + apply bind_Return in H as ([] & s7 & H7 & H).
      apply for_each_announces in H7 as (Hp7 & evs7 & Ht7 & Hin7); [|exact Hall_c].
      apply bind_Return in H as ([] & s8 & H8 & H).
      apply parent_stack_pop_Return in H8 as (Ht8 & _).
      apply ctx_pop_state_Return in H as (Ht9 & _).
      eexists. split.
      * cbn. rewrite Ht9, Ht8, Ht7, Ht6, <- !app_assoc. reflexivity.
      * intros c Hc. cbn. right. right. right.
        apply in_app_or in Hc as [Hc|Hc]; apply in_or_app.
        -- left. now apply Hin6.
        -- right. apply in_or_app. left. rewrite <- Hp6. now apply Hin7.
  - destruct (in_set (dxftype (data e)) ["POLYLINE"; "LWPOLYLINE"]) eqn:Hp.
    + rewrite (dispatch_polyline _ _ e Hp) in H2.
      unfold draw_polyline_entity in H2.
      destruct (_ && (_ || _)) eqn:Hmesh.
      * apply Hvac. unfold drawn_children. now rewrite Hi, Hp, Hmesh.
      * clear Hvac.
        assert (Hdc : drawn_children e = virtual_children e).
        { unfold drawn_children. now rewrite Hi, Hp, Hmesh. }
        rewrite Hdc in *. clear Hdc.
        apply bind_Return in H2 as ([] & s3 & H3 & H). inv H3.
        apply bind_Return in H as (ps & s4 & H4 & H). inv H4.
        apply bind_Return in H as ([] & s5 & H5 & H).
        rewrite emit_spec in H5. inv H5.
        apply bind_Return in H as ([] & s6 & H6 & H).
        apply for_each_announces in H6 as (Hp6 & evs6 & Ht6 & Hin6); [|exact Hall].
        cbn [trace parent_stack add_events] in Hp6, Ht6, Hin6.
        destruct (expansion_error (data e)); [discriminate|].
        apply bind_Return in H as ([] & s7 & H7 & H).
        apply parent_stack_pop_Return in H7 as (Ht7 & _).
        rewrite emit_spec in H. inv H.
        eexists. split.
        -- cbn. rewrite Ht7, Ht6, <- !app_assoc. reflexivity.
        -- intros c Hc. cbn. right. right. apply in_or_app. left.
           now apply Hin6.
    + destruct (in_set (dxftype (data e)) DIMENSION_LIKE_TYPES) eqn:Hk;
        [|apply Hvac; unfold drawn_children; now rewrite Hi, Hp, Hk].
      destruct (dispatch_dimension_like_composite self (draw_entity self) e Hk)
        as [_ Hd].
      rewrite Hd in H2. unfold draw_composite_entity in H2. rewrite Hi in H2.
      destruct (has_virtual_entities (data e)) eqn:Hv;
        [|apply Hvac; unfold drawn_children; now rewrite Hi, Hp, Hk, Hv].
      destruct (expansion_error (data e)) eqn:Herr;
        [apply Hvac; unfold drawn_children; now rewrite Hi, Hp, Hk, Hv, Herr|].
      clear Hvac.
      assert (Hdc : drawn_children e
                    = map (fun child => set_transparency child 0)
                          (virtual_children e)).
      { unfold drawn_children. now rewrite Hi, Hp, Hk, Hv, Herr. }
      rewrite Hdc in *. clear Hdc.
      apply bind_Return in H2 as ([] & s3 & H3 & H). inv H3.
      apply bind_Return in H as ([] & s4 & H4 & H).
      apply for_each_announces in H4 as (Hp4 & evs4 & Ht4 & Hin4); [|exact Hall].
      cbn [trace parent_stack add_events] in Hp4, Ht4, Hin4.
      apply parent_stack_pop_Return in H as (Ht5 & _).
      eexists. split.
      * cbn. rewrite Ht5, Ht4, <- !app_assoc. reflexivity.
      * intros c Hc. cbn. right. apply in_or_app. left. now apply Hin4.
Qed.

End Announcements.

(** ** Hatches whose paths are not reduced to line edges *)

Section HatchAssertions.

Context {ML : MathLib} {RC : RenderContext} {BE : DrawingBackend}.
Variable self : Frontend.

Lemma hatch_edge_loop_fails (ocs : Vector) (elevation : float)
    (edges : list Edge) :
  forallb is_line_edge edges = false ->
  forall vertices last st,
    exists warnings,
      hatch_edge_loop ocs elevation edges vertices last st
      = (Raise AssertionError, add_events st (map Print warnings)).
Proof.
  induction edges as [|[s e|t] rest IH]; intros H vertices last st;
    cbn in H; try discriminate.
  - cbn [hatch_edge_loop]. unfold bind at 1.
    destruct last as [l|].
    + destruct (vec_isclose l _); cbn [negb].
      * unfold ret at 1. now apply IH.
      * unfold bind at 1. unfold print. rewrite emit_spec. unfold ret at 1.
        edestruct IH as (ws & E); [exact H|]. rewrite E.
        eexists (_ :: ws). rewrite add_events_app. reflexivity.
    + unfold ret at 1. now apply IH.
  - exists []. cbn. now rewrite add_events_nil.
Qed.

Lemma draw_hatch_path_fails (ocs : Vector) (elevation : float)
    (properties : Properties) (p : BoundaryPath) (st : State) :
  is_line_edge_path p = false ->
  exists warnings,
    draw_hatch_path ocs elevation properties p st
    = (Raise AssertionError, add_events st (map Print warnings)).
Proof.
  destruct p as [edges|pts]; cbn [is_line_edge_path draw_hatch_path]; intros H.
  - unfold bind.
    destruct (hatch_edge_loop_fails ocs elevation edges H [] None st) as (ws & E).
    rewrite E. now exists ws.
  - exists []. cbn. now rewrite add_events_nil.
Qed.

(** X18. For every HATCH one of whose normalized boundary paths is not an
    edge path of line edges, [draw_entity] raises [AssertionError]: the
    loops before the first such path were drawn, for that path nothing but
    warnings was printed and no polygon drawn, the paths after it were not
    looked at, and the backend's current entity was not cleared. *)
Theorem unreduced_hatch_path_raises_assertion_error (e : DXFGraphic)
    (st : State) (before after : list BoundaryPath) (bad : BoundaryPath) :
  dxftype (data e) = "HATCH" ->
  normalized_paths (paths (data e)) = before ++ bad :: after ->
  forallb is_line_edge_path before = true ->
  is_line_edge_path bad = false ->
  let ocs := extrusion (dxf (data e)) in
  let elevation := z (elevation (dxf (data e))) in
  let p := resolved self e st in
  exists warnings,
    fst (draw_entity self e st) = Raise AssertionError
    /\ trace (snd (draw_entity self e st))
       = trace st
         ++ [SetCurrentEntity (Some e) (parent_stack st); ResolveAll e]
         ++ flat_map (loop_calls ocs elevation p) before
         ++ map Print warnings.
Proof.
  intros Hk Hnorm Hbefore Hbad ocs elevation p.
  assert (E : exists warnings,
             draw_entity self e st
             = (Raise AssertionError,
                add_events
                  (after_resolve self e
                     (add_events st [SetCurrentEntity (Some e) (parent_stack st)]))
                  (flat_map (loop_calls ocs elevation p) before
                   ++ map Print warnings))).
  { rewrite draw_entity_eq. unfold draw_entity_body.
    rewrite (dispatch_hatch self _ e Hk). unfold draw_hatch_entity.
    rewrite Hnorm. fold ocs elevation.
    unfold bind at 1. unfold parent_stack_tuple.
    unfold bind at 1. rewrite emit_spec.
    unfold bind at 1. unfold bind at 1. rewrite _resolve_properties_spec.
    rewrite for_each_app. unfold bind at 1.
    rewrite (for_each_calls before _ (loop_calls ocs elevation p)).
    - cbn [for_each]. unfold bind at 1.
      match goal with
      | |- context [draw_hatch_path ?o ?el ?q bad ?s] =>
          destruct (draw_hatch_path_fails o el q bad s Hbad) as (ws & E)
      end.
      rewrite E. exists ws. now rewrite add_events_app.
    - intros a s Ha. apply draw_hatch_path_spec.
      rewrite forallb_forall in Hbefore. now apply Hbefore. }
  destruct E as (ws & E). exists ws. rewrite E. split; [reflexivity|].
  cbn. now rewrite <- !app_assoc.
Qed.

End HatchAssertions.

(** * The sample drawings, drawn

    The theorems above at concrete entities, with the sample
    collaborators, and the runs that show where the code and the
    specification part. *)

Import Sample.
Import Drawings.

Lemma insert_expansion_failure_leaks_state_witness :
  dxftype (data broken_insert) = "INSERT"
  /\ attribs broken_insert = []
  /\ expansion_error (data broken_insert) = Some (ExpansionError "undefined block")
  /\ ctx_stack (snd (draw_entity frontend broken_insert initial_state))
     = [default_properties]
  /\ parent_stack (snd (draw_entity frontend broken_insert initial_state))
     = [broken_insert].
Proof.
  split; [reflexivity|]. split; [reflexivity|]. split; [reflexivity|].
  destruct (@insert_expansion_failure_leaks_state math ctx out frontend
              broken_insert (ExpansionError "undefined block") initial_state
              eq_refl eq_refl eq_refl) as [H _].
  rewrite H. split; reflexivity.
Defined.

(** C1 at a top-level traversal: drawing the one INSERT whose expansion
    raises ends normally with one [push_state] call and no [pop_state]
    call, and leaves the pushed properties on the render context. *)
Example unbalanced_traversal :
  fst (draw_entities frontend [broken_insert] initial_state) = Return tt
  /\ count is_push_state (trace (run frontend [broken_insert])) = 1%nat
  /\ count is_pop_state (trace (run frontend [broken_insert])) = 0%nat
  /\ ctx_stack (run frontend [broken_insert]) = [default_properties].
Proof. repeat split; vm_compute; reflexivity. Qed.

(** C2, what the code does where the claim fails. Inside a block
    reference, the point drawn after an INSERT whose expansion raised is
    announced with that INSERT still on its ancestor chain, and the pop of
    the enclosing frame then removes the failed INSERT instead of the
    enclosing entity, which stays on the list when the traversal ends. *)
Theorem sibling_sees_failed_insert_on_ancestor_chain :
  trace (run frontend [outer_insert])
  = [IsVisible outer_insert;
     SetCurrentEntity (Some outer_insert) [];
     ResolveAll outer_insert;
     PushState default_properties;
     SetCurrentEntity (Some broken_insert) [outer_insert];
     ResolveAll broken_insert;
     PushState default_properties;
     Print (InsertChildrenFailed (ExpansionError "undefined block"));
     SetCurrentEntity None [];
     SetCurrentEntity (Some point) [outer_insert; broken_insert];
     ResolveAll point;
     DrawPoint origin default_properties;
     SetCurrentEntity None [];
     PopState;
     SetCurrentEntity None []]
  /\ parent_stack (run frontend [outer_insert]) = [outer_insert]
  /\ ctx_stack (run frontend [outer_insert]) = [default_properties].
Proof. repeat split; vm_compute; reflexivity. Qed.

Lemma tilted_arc_is_sampled_witness :
  in_set (dxftype (data tilted_circle)) ["CIRCLE"; "ARC"; "ELLIPSE"] = true
  /\ is_spatial (extrusion (dxf (data tilted_circle))) = true
  /\ elliptic_arc_segments frontend (construction_ellipse tilted_circle) = inr 100
  /\ Z.of_nat
       (List.length
          (map (ellipse_vertex (construction_ellipse tilted_circle))
               (linspace (ce_start_param (construction_ellipse tilted_circle))
                         (ce_end_param (construction_ellipse tilted_circle))
                         (Z.max 4 (100 + 1)))))
     = Z.max 4 (100 + 1).
Proof.
  assert (H1 : in_set (dxftype (data tilted_circle)) ["CIRCLE"; "ARC"; "ELLIPSE"]
               = true) by reflexivity.
  assert (H2 : is_spatial (extrusion (dxf (data tilted_circle))) = true)
    by (vm_compute; reflexivity).
  assert (H3 : elliptic_arc_segments frontend (construction_ellipse tilted_circle)
               = inr 100) by (vm_compute; reflexivity).
  split; [exact H1|]. split; [exact H2|]. split; [exact H3|].
  exact (proj1 (proj2 (@tilted_arc_is_sampled math ctx out frontend tilted_circle
                         initial_state 100 H1 H2 H3))).
Defined.

(** C3, where the claim fails: a full circle in a tilted plane is sampled
    at 101 points and drawn as 100 segments, while
    max(4, round((end_param - start_param) / tau * circle_resolution)) is
    100. *)
Lemma tilted_circle_is_sampled_at_101_points :
  elliptic_arc_point_count frontend (construction_ellipse tilted_circle) = inr 101
  /\ claimed_point_count frontend (construction_ellipse tilted_circle) = inr 100
  /\ elliptic_arc_point_count frontend (construction_ellipse tilted_circle)
     <> claimed_point_count frontend (construction_ellipse tilted_circle)
  /\ count is_draw_call (trace (run frontend [tilted_circle])) = 100%nat.
Proof.
  assert (H1 : elliptic_arc_point_count frontend (construction_ellipse tilted_circle)
               = inr 101) by (vm_compute; reflexivity).
  assert (H2 : claimed_point_count frontend (construction_ellipse tilted_circle)
               = inr 100) by (vm_compute; reflexivity).
  split; [exact H1|]. split; [exact H2|].
  split; [rewrite H1, H2; discriminate|].
  vm_compute. reflexivity.
Qed.

(** The resolution is converted as Python converts an [int]: with a
    resolution of 2^63 an arc of 1e-15 degrees has 25 segments and 26
    sample points; a resolution too large for a float raises
    [OverflowError]. *)
Example large_resolutions_are_converted_exactly :
  elliptic_arc_segments fine_frontend (construction_ellipse sliver) = inr 25
  /\ elliptic_arc_point_count fine_frontend (construction_ellipse sliver) = inr 26
  /\ count is_draw_call (trace (snd (draw_entity fine_frontend sliver initial_state)))
     = 25%nat
  /\ fst (draw_entity overflowing_frontend sliver initial_state)
     = Raise OverflowError.
Proof. repeat split; vm_compute; reflexivity. Qed.

Lemma dimension_children_are_made_opaque_witness :
  in_set (dxftype (data dimension)) DIMENSION_LIKE_TYPES = true
  /\ has_virtual_entities (data dimension) = true
  /\ expansion_error (data dimension) = None
  /\ List.length (map (fun child => set_transparency child 0)
                      (virtual_children dimension))
     = List.length (virtual_children dimension).
Proof.
  split; [reflexivity|]. split; [reflexivity|]. split; [reflexivity|].
  exact (proj1 (proj2 (@dimension_children_are_made_opaque math ctx out frontend
                         dimension initial_state eq_refl eq_refl eq_refl))).
Defined.

(** C4, where the claim fails: the only child of the dimension has its
    transparency set explicitly to 0.5, and it is drawn as an entity of
    transparency 0.0, with properties resolved from that entity. *)
Lemma explicit_transparency_is_overwritten :
  transparency (data half_transparent_point) = Some 0x1p-1%float
  /\ trace (run frontend [dimension])
     = [IsVisible dimension;
        SetCurrentEntity (Some dimension) [];
        SetCurrentEntity (Some (set_transparency half_transparent_point 0))
                         [dimension];
        ResolveAll (set_transparency half_transparent_point 0);
        DrawPoint origin default_properties;
        SetCurrentEntity None [];
        SetCurrentEntity None []]
  /\ transparency (data (set_transparency half_transparent_point 0))
     <> transparency (data half_transparent_point)
  /\ prop_transparency default_properties = 0%float.
Proof.
  split; [reflexivity|]. split; [vm_compute; reflexivity|].
  split; [|reflexivity].
  intros E.
  apply (f_equal (fun t => match t with
                           | Some v => PrimFloat.eqb v 0
                           | None => false
                           end)) in E.
  vm_compute in E. discriminate E.
Qed.

Lemma tag_storage_is_skipped_witness :
  is_tag_storage (data wipeout) = true
  /\ draw_top_level_entity frontend wipeout initial_state
     = (Return tt, add_events initial_state [Print (IgnoringUnsupported wipeout)]).
Proof.
  split; [reflexivity|].
  exact (proj1 (@tag_storage_is_skipped math ctx out frontend [] [] wipeout
                  initial_state eq_refl)).
Defined.

(** C5, where the claim fails: for a tag storage object between two
    points, the frontend prints a line and the backend is not told that
    the entity is ignored. *)
Lemma tag_storage_is_not_reported_to_backend :
  trace (run frontend [wipeout]) = [Print (IgnoringUnsupported wipeout)]
  /\ count is_ignored_entity (trace (run frontend [point; wipeout; point])) = 0%nat
  /\ count is_draw_call (trace (run frontend [point; wipeout; point])) = 2%nat.
Proof. repeat split; vm_compute; reflexivity. Qed.

Lemma unsupported_kind_is_ignored_witness :
  in_set (dxftype (data image)) HANDLED_TYPES = false
  /\ draw_entity frontend image initial_state
     = (Return tt,
        add_events initial_state
          [SetCurrentEntity (Some image) []; IgnoredEntity image;
           SetCurrentEntity None []]).
Proof.
  split; [reflexivity|].
  exact (proj1 (@unsupported_kind_is_ignored math ctx out frontend image
                  initial_state eq_refl)).
Defined.

Lemma hatch_loops_are_bridged_and_closed_witness :
  dxftype (data nearly_closed_hatch) = "HATCH"
  /\ forallb is_line_edge_path (normalized_paths (paths (data nearly_closed_hatch)))
     = true
  /\ draw_entity frontend nearly_closed_hatch initial_state
     = (Return tt,
        after_leaf frontend nearly_closed_hatch initial_state
          (flat_map (loop_calls (extrusion (dxf (data nearly_closed_hatch)))
                                (z (elevation (dxf (data nearly_closed_hatch))))
                                (resolved frontend nearly_closed_hatch initial_state))
                    (normalized_paths (paths (data nearly_closed_hatch))))).
Proof.
  split; [reflexivity|]. split; [reflexivity|].
  exact (proj1 (@hatch_loops_are_bridged_and_closed math ctx out frontend
                  nearly_closed_hatch initial_state eq_refl eq_refl)).
Defined.

(** Two hatches, drawn. (1) The last edge of the loop ends 5e-13
    away from the first vertex: the vertex appended to close the polygon
    is that end point, not the first vertex. (2) In a hatch at elevation
    5, two edges that meet at one point are reported as not contiguous,
    and a bridging vertex at z = 0 is inserted: the end point is kept with
    its z set to 0 and is compared with a start point at z = 5. *)
Lemma hatch_closing_and_bridging_vertices :
  (filter is_draw_call (trace (run frontend [nearly_closed_hatch]))
   = [DrawFilledPolygon
        [Vec 0 0 0; Vec 1 0 0; Vec 1 1 0; Vec 0x1.19799812dea11p-41 0 0]
        (ByProperties default_properties)]
   /\ Vec 0x1.19799812dea11p-41 0 0 <> Vec 0 0 0)
  /\ (discontinuities Z_AXIS 0
        [LineEdge (0, 0) (1, 0); LineEdge (1, 0) (1, 1)]%float = 0%nat
      /\ filter (fun ev => is_warning ev || is_draw_call ev)
                (trace (run frontend [elevated_hatch]))
         = [Print (HatchNotContiguous (Vec 1 0 0) (1, 0) (1, 1))%float;
            DrawFilledPolygon [Vec 0 0 5; Vec 1 0 0; Vec 1 0 5]
                              (ByProperties default_properties)]).
Proof.
  split; split.
  - vm_compute. reflexivity.
  - intros E. apply (f_equal (fun v => PrimFloat.eqb (x v) 0)) in E.
    vm_compute in E. discriminate E.
  - vm_compute. reflexivity.
  - vm_compute. reflexivity.
Qed.

Lemma meeting_edges_are_reported_not_contiguous_witness :
  dxftype (data elevated_square) = "HATCH"
  /\ forallb is_line_edge_path (normalized_paths (paths (data elevated_square)))
     = true
  /\ In (EdgePath ([] ++ LineEdge (0, 0) (1, 0) :: LineEdge (1, 0) (1, 1)
                     :: [LineEdge (1, 1) (0, 1); LineEdge (0, 1) (0, 0)])%float)
        (normalized_paths (paths (data elevated_square)))
  /\ vec_isclose (end_vertex Z_AXIS 5 (1, 0)%float)
                 (start_vertex Z_AXIS 5 (1, 0)%float) = false
  /\ fst (draw_entity frontend elevated_square initial_state) = Return tt
  /\ In (Print (HatchNotContiguous (Vec 1 0 0) (1, 0) (1, 1))%float)
        (trace (snd (draw_entity frontend elevated_square initial_state))).
Proof.
  assert (H3 : In (EdgePath ([] ++ LineEdge (0, 0) (1, 0) :: LineEdge (1, 0) (1, 1)
                     :: [LineEdge (1, 1) (0, 1); LineEdge (0, 1) (0, 0)])%float)
                  (normalized_paths (paths (data elevated_square))))
    by (left; reflexivity).
  assert (H4 : vec_isclose (end_vertex Z_AXIS 5 (1, 0)%float)
                           (start_vertex Z_AXIS 5 (1, 0)%float) = false)
    by (vm_compute; reflexivity).
  split; [reflexivity|]. split; [reflexivity|].
  split; [exact H3|]. split; [exact H4|].
  pose proof (@meeting_edges_are_reported_not_contiguous math ctx out frontend
                elevated_square initial_state []
                [LineEdge (1, 1) (0, 1); LineEdge (0, 1) (0, 0)]%float
                (0, 0)%float (1, 0)%float (1, 1)%float
                eq_refl eq_refl H3 H4) as H.
  cbv zeta in H. destruct H as (Hr & Hw & _).
  split; [exact Hr | exact Hw].
Defined.

(** C7 on the closed unit square at elevation 5: the boundary has no gap
    (every edge starts where the one before ends, and the last edge ends
    at the first vertex), yet the traversal prints three warnings and
    draws a polygon of seven vertices that alternates between z = 0 and
    z = 5 and is not closed. *)
Example closed_square_at_elevation_is_drawn_with_gaps :
  discontinuities Z_AXIS 0
    [LineEdge (0, 0) (1, 0); LineEdge (1, 0) (1, 1);
     LineEdge (1, 1) (0, 1); LineEdge (0, 1) (0, 0)]%float = 0%nat
  /\ filter (fun ev => is_warning ev || is_draw_call ev)
            (trace (run frontend [elevated_square]))
     = [Print (HatchNotContiguous (Vec 1 0 0) (1, 0) (1, 1))%float;
        Print (HatchNotContiguous (Vec 1 1 0) (1, 1) (0, 1))%float;
        Print (HatchNotContiguous (Vec 0 1 0) (0, 1) (0, 0))%float;
        DrawFilledPolygon
          [Vec 0 0 5; Vec 1 0 0; Vec 1 0 5; Vec 1 1 0; Vec 1 1 5;
           Vec 0 1 0; Vec 0 1 5]
          (ByProperties default_properties)].
Proof. split; vm_compute; reflexivity. Qed.


Lemma unsupported_entity_gives_empty_primitive_witness :
  Disassemble.unsupported wipeout = true
  /\ Disassemble.make_primitive wipeout = inr empty_primitive
  /\ Disassemble.to_primitives [wipeout; wipeout; wipeout]
     = inr [empty_primitive; empty_primitive; empty_primitive].
Proof.
  split; [reflexivity|].
  destruct (@unsupported_entity_gives_empty_primitive paths_lib wipeout eq_refl)
    as [H1 [_ [_ [_ [_ H2]]]]].
  split; [exact H1 | exact (proj1 (H2 3%nat))].
Defined.

Lemma filter_is_evaluated_again_on_resolution_witness :
  visibility_filter filtering_frontend = Some admit_all
  /\ is_tag_storage (data point) = false
  /\ resolves_own_properties point = true
  /\ admit_all (filter_history initial_state) point = true
  /\ exists calls,
       trace (snd (draw_top_level_entity filtering_frontend point initial_state))
       = trace initial_state
         ++ [SetCurrentEntity (Some point) []; ResolveAll point] ++ calls
       /\ filter_history
            (snd (draw_top_level_entity filtering_frontend point initial_state))
          = filter_history initial_state ++ [point; point].
Proof.
  assert (H3 : resolves_own_properties point = true) by (vm_compute; reflexivity).
  split; [reflexivity|]. split; [reflexivity|]. split; [exact H3|].
  split; [reflexivity|].
  pose proof (@filter_is_evaluated_again_on_resolution math ctx out
                filtering_frontend admit_all point initial_state
                eq_refl eq_refl eq_refl) as H.
  cbv zeta in H. destruct H as [H _].
  destruct (H H3) as [calls [Ht [Hh _]]].
  exists calls. split; [exact Ht | exact Hh].
Defined.

(** C10, where the claim fails: an admitted VIEWPORT has the filter
    evaluated on it once, not twice; its handler resolves no properties. *)
Lemma filter_is_evaluated_once_for_viewport :
  admit_all [] viewport = true
  /\ filter_history (run filtering_frontend [viewport]) = [viewport]
  /\ count is_resolve_all (trace (run filtering_frontend [viewport])) = 0%nat
  /\ count is_draw_call (trace (run filtering_frontend [viewport])) = 1%nat.
Proof. repeat split; vm_compute; reflexivity. Qed.

(** With a filter that is not deterministic, an admitted entity is drawn
    with [is_visible] false: the filter said yes when asked for
    inclusion and no when asked again during property resolution. *)
Example admitted_entity_can_resolve_invisible :
  alternating [] point = true
  /\ filter_history (run alternating_frontend [point]) = [point; point]
  /\ filter is_draw_call (trace (run alternating_frontend [point]))
     = [DrawPoint origin (set_is_visible default_properties false)].
Proof. repeat split; vm_compute; reflexivity. Qed.

(** * The further properties, at sample drawings *)

Lemma line_entities_draw_one_segment_witness :
  in_set (dxftype (data construction_line)) ["LINE"; "XLINE"; "RAY"] = true
  /\ fst (draw_entity frontend construction_line initial_state) = Return tt
  /\ count is_draw_call
       (trace (snd (draw_entity frontend construction_line initial_state)))
     = 1%nat.
Proof.
  split; [reflexivity|].
  pose proof (@line_entities_draw_one_segment math ctx out frontend
                construction_line initial_state eq_refl) as H.
  cbv zeta in H. destruct H as [H _]. rewrite H.
  split; vm_compute; reflexivity.
Defined.

Lemma planar_arcs_draw_one_arc_witness :
  in_set (dxftype (data full_arc)) ["CIRCLE"; "ARC"; "ELLIPSE"] = true
  /\ is_spatial (extrusion (dxf (data full_arc))) = false
  /\ fst (draw_entity frontend full_arc initial_state) = Return tt
  /\ count is_draw_call
       (trace (snd (draw_entity frontend full_arc initial_state)))
     = 1%nat.
Proof.
  split; [reflexivity|]. split; [vm_compute; reflexivity|].
  assert (Hs : is_spatial (extrusion (dxf (data full_arc))) = false)
    by (vm_compute; reflexivity).
  pose proof (@planar_arcs_draw_one_arc math ctx out frontend
                full_arc initial_state eq_refl Hs) as H.
  cbv zeta in H. destruct H as [H _]. rewrite H.
  split; vm_compute; reflexivity.
Defined.

Lemma spline_is_passed_on_or_flattened_witness :
  dxftype (data curve) = "SPLINE"
  /\ fst (@draw_entity surveyed ctx out frontend curve initial_state) = Return tt
  /\ count is_draw_call
       (trace (snd (@draw_entity surveyed ctx out frontend curve initial_state)))
     = 2%nat.
Proof.
  split; [reflexivity|].
  pose proof (@spline_is_passed_on_or_flattened surveyed ctx out frontend
                curve initial_state eq_refl) as H.
  cbv zeta in H. destruct H as [H _]. rewrite H.
  split; vm_compute; reflexivity.
Defined.

Lemma solids_are_filled_and_faces_outlined_witness :
  in_set (dxftype (data trace_strip)) ["3DFACE"; "SOLID"; "TRACE"] = true
  /\ fst (@draw_entity surveyed ctx out frontend trace_strip initial_state)
     = Return tt
  /\ count is_draw_call
       (trace (snd (@draw_entity surveyed ctx out frontend trace_strip
                      initial_state)))
     = 1%nat.
Proof.
  split; [reflexivity|].
  pose proof (@solids_are_filled_and_faces_outlined surveyed ctx out frontend
                trace_strip initial_state eq_refl) as H.
  cbv zeta in H. destruct H as [H _]. rewrite H.
  split; vm_compute; reflexivity.
Defined.

Lemma meshes_draw_one_polygon_per_face_witness :
  (dxftype (data subdivision_mesh) = "MESH"
   \/ (dxftype (data subdivision_mesh) = "POLYLINE"
       /\ is_polygon_mesh (data subdivision_mesh)
          || is_poly_face_mesh (data subdivision_mesh) = true))
  /\ fst (@draw_entity surveyed ctx out frontend subdivision_mesh initial_state)
     = Return tt
  /\ count is_draw_call
       (trace (snd (@draw_entity surveyed ctx out frontend subdivision_mesh
                      initial_state)))
     = 2%nat.
Proof.
  split; [left; reflexivity|].
  pose proof (@meshes_draw_one_polygon_per_face surveyed ctx out frontend
                subdivision_mesh initial_state (or_introl eq_refl)) as H.
  cbv zeta in H. destruct H as [H _]. rewrite H.
  split; vm_compute; reflexivity.
Defined.

Lemma text_is_drawn_in_plane_only_witness :
  in_set (dxftype (data tilted_text)) ["TEXT"; "MTEXT"; "ATTRIB"] = true
  /\ is_spatial (extrusion (dxf (data tilted_text))) = true
  /\ trace (snd (@draw_entity surveyed ctx out frontend tilted_text initial_state))
     = [SetCurrentEntity (Some tilted_text) []; SetCurrentEntity None []].
Proof.
  split; [reflexivity|]. split; [vm_compute; reflexivity|].
  pose proof (@text_is_drawn_in_plane_only surveyed ctx out frontend
                tilted_text initial_state eq_refl) as H.
  cbv zeta in H. destruct H as [_ H]. rewrite H; [reflexivity|].
  vm_compute. reflexivity.
Defined.


(** A block reference nested two deep, drawn with one frame left: the
    recursive call for its content raises [RecursionError], which no
    handler catches. *)
Example nesting_deeper_than_the_frames_left :
  fst (draw_entity_rec frontend 1 outer_insert initial_state)
  = Raise RecursionError
  /\ fst (draw_entity_rec frontend 2 outer_insert initial_state) = Return tt.
Proof. split; vm_compute; reflexivity. Qed.

Lemma each_unexpanded_insert_leaves_one_frame_witness :
  fst (draw_entity frontend outer_insert initial_state) = Return tt
  /\ unexpanded_inserts outer_insert = 1%nat
  /\ exists cs ps evs,
       ctx_stack (snd (draw_entity frontend outer_insert initial_state))
       = cs ++ ctx_stack initial_state
       /\ List.length cs = unexpanded_inserts outer_insert
       /\ parent_stack (snd (draw_entity frontend outer_insert initial_state))
          = parent_stack initial_state ++ ps
       /\ List.length ps = unexpanded_inserts outer_insert
       /\ trace (snd (draw_entity frontend outer_insert initial_state))
          = trace initial_state ++ evs
       /\ count is_push_state evs
          = (count is_pop_state evs + unexpanded_inserts outer_insert)%nat.
Proof.
  assert (Hr : fst (draw_entity frontend outer_insert initial_state) = Return tt)
    by (vm_compute; reflexivity).
  split; [exact Hr|]. split; [reflexivity|].
  exact (@each_unexpanded_insert_leaves_one_frame math ctx out frontend
           outer_insert initial_state Hr).
Defined.

Lemma draw_entities_balanced_witness :
  forallb inserts_expand [labelled_insert; dimension; point] = true
  /\ draw_entities frontend [labelled_insert; dimension; point] initial_state
     = (Return tt, run frontend [labelled_insert; dimension; point])
  /\ count is_push_state (trace (run frontend [labelled_insert; dimension; point]))
     = 1%nat
  /\ count is_pop_state (trace (run frontend [labelled_insert; dimension; point]))
     = 1%nat
  /\ ctx_stack (run frontend [labelled_insert; dimension; point])
     = ctx_stack initial_state
  /\ exists evs,
       trace (run frontend [labelled_insert; dimension; point])
       = trace initial_state ++ evs
       /\ count is_push_state evs = count is_pop_state evs.
Proof.
  assert (Hr : draw_entities frontend [labelled_insert; dimension; point]
                 initial_state
               = (Return tt, run frontend [labelled_insert; dimension; point]))
    by (vm_compute; reflexivity).
  split; [reflexivity|]. split; [exact Hr|].
  split; [vm_compute; reflexivity|]. split; [vm_compute; reflexivity|].
  exact (@draw_entities_balanced math ctx out frontend
           [labelled_insert; dimension; point] initial_state
           (run frontend [labelled_insert; dimension; point]) eq_refl Hr).
Defined.

Lemma failed_dimension_is_skipped_witness :
  in_set (dxftype (data broken_dimension)) DIMENSION_LIKE_TYPES = true
  /\ has_virtual_entities (data broken_dimension) = true
  /\ expansion_error (data broken_dimension)
     = Some (ExpansionError "no geometry block")
  /\ trace (snd (draw_entity frontend broken_dimension initial_state))
     = [SetCurrentEntity (Some broken_dimension) [];
        Print (EntityChildrenFailed (ExpansionError "no geometry block")
                                    broken_dimension);
        SetCurrentEntity None []].
Proof.
  split; [reflexivity|]. split; [reflexivity|]. split; [reflexivity|].
  rewrite (@failed_dimension_is_skipped math ctx out frontend broken_dimension
             (ExpansionError "no geometry block") initial_state
             eq_refl eq_refl eq_refl).
  reflexivity.
Defined.

Lemma composite_without_expansion_raises_type_error_witness :
  in_set (dxftype (data bare_table)) DIMENSION_LIKE_TYPES = true
  /\ has_virtual_entities (data bare_table) = false
  /\ fst (draw_entity frontend bare_table initial_state)
     = Raise (TypeError "ACAD_TABLE").
Proof.
  split; [reflexivity|]. split; [reflexivity|].
  rewrite (@composite_without_expansion_raises_type_error math ctx out frontend
             bare_table initial_state eq_refl eq_refl).
  reflexivity.
Defined.

Lemma polyline_expansion_failure_escapes_witness :
  in_set (dxftype (data broken_polyline)) ["POLYLINE"; "LWPOLYLINE"] = true
  /\ (dxftype (data broken_polyline) =? "POLYLINE")%string
     && (is_polygon_mesh (data broken_polyline)
         || is_poly_face_mesh (data broken_polyline)) = false
  /\ expansion_error (data broken_polyline) = Some (ExpansionError "bad bulge")
  /\ exists exn' ps evs,
       fst (draw_entity frontend broken_polyline initial_state) = Raise exn'
       /\ (virtual_children broken_polyline = [] ->
           exn' = ExpansionError "bad bulge" /\ ps = [] /\ evs = [])
       /\ parent_stack (snd (draw_entity frontend broken_polyline initial_state))
          = parent_stack initial_state ++ broken_polyline :: ps
       /\ trace (snd (draw_entity frontend broken_polyline initial_state))
          = trace initial_state
            ++ SetCurrentEntity (Some broken_polyline) (parent_stack initial_state)
            :: SetCurrentEntity (Some broken_polyline)
                 (parent_stack initial_state ++ [broken_polyline])
            :: evs.
Proof.
  split; [reflexivity|]. split; [reflexivity|]. split; [reflexivity|].
  exact (@polyline_expansion_failure_escapes math ctx out frontend
           broken_polyline (ExpansionError "bad bulge") initial_state
           eq_refl eq_refl eq_refl).
Defined.

Lemma draw_entities_stops_at_first_exception_witness :
  fst (draw_entities frontend [broken_polyline] initial_state)
  = Raise (ExpansionError "bad bulge")
  /\ draw_entities frontend ([broken_polyline] ++ [point]) initial_state
     = draw_entities frontend [broken_polyline] initial_state.
Proof.
  assert (Hr : fst (draw_entities frontend [broken_polyline] initial_state)
               = Raise (ExpansionError "bad bulge")) by (vm_compute; reflexivity).
  split; [exact Hr|].
  exact (@draw_entities_stops_at_first_exception math ctx out frontend
           [broken_polyline] [point] initial_state _ Hr).
Defined.

Lemma children_are_announced_below_their_parent_witness :
  forallb inserts_expand (drawn_children labelled_insert) = true
  /\ fst (draw_entity frontend labelled_insert initial_state) = Return tt
  /\ exists evs,
       trace (snd (draw_entity frontend labelled_insert initial_state))
       = trace initial_state ++ evs
       /\ forall c, In c (drawn_children labelled_insert) ->
                    In (SetCurrentEntity (Some c)
                          (parent_stack initial_state ++ [labelled_insert])) evs.
Proof.
  assert (Hr : fst (draw_entity frontend labelled_insert initial_state)
               = Return tt) by (vm_compute; reflexivity).
  split; [reflexivity|]. split; [exact Hr|].
  exact (@children_are_announced_below_their_parent math ctx out frontend
           labelled_insert initial_state eq_refl Hr).
Defined.

Lemma unreduced_hatch_path_raises_assertion_error_witness :
  dxftype (data unreduced_hatch) = "HATCH"
  /\ normalized_paths (paths (data unreduced_hatch))
     = [EdgePath [LineEdge (0, 0) (1, 0); LineEdge (1, 0) (0, 0)]%float]
       ++ EdgePath [LineEdge (0, 0) (1, 0); CurvedEdge "ArcEdge"]%float
       :: [EdgePath []]
  /\ fst (draw_entity frontend unreduced_hatch initial_state)
     = Raise AssertionError.
Proof.
  split; [reflexivity|]. split; [reflexivity|].
  pose proof (@unreduced_hatch_path_raises_assertion_error math ctx out frontend
                unreduced_hatch initial_state
                [EdgePath [LineEdge (0, 0) (1, 0); LineEdge (1, 0) (0, 0)]%float]
                [EdgePath []]
                (EdgePath [LineEdge (0, 0) (1, 0); CurvedEdge "ArcEdge"]%float)
                eq_refl eq_refl eq_refl eq_refl) as H.
  cbv zeta in H. destruct H as (warnings & H & _). exact H.
Defined.
